(** * mongodb-mcp: the tool-calling clients and the MongoDB tool server

    A shallow embedding of [src/google_client.py], [src/openai_client.py]
    and [src/server.py], and the properties of the tool catalog adapter,
    of the orchestration loop and of the server's result conversion.

    Python values are modelled by inductive types, dictionaries by
    association lists in insertion order (the keys of a dictionary are
    pairwise distinct), exceptions by an explicit [Raise] result, and the
    three external collaborators (model provider, tool host, database) by
    functions over an abstract world state. *)

From Stdlib Require Import List String Ascii ZArith Bool Lia.
Import ListNotations.
Open Scope string_scope.
Open Scope list_scope.

Set Implicit Arguments.
Set Warnings "-register-all".

(* ================================================================== *)
(** * Python results and exceptions                                    *)
(* ================================================================== *)

(** An exception: its class name and the text [str(e)] gives. *)
Record exn := Exn { exc_type : string; exc_msg : string }.

(** What evaluating a Python expression gives: a value, or an exception
    that propagates. *)
Inductive result (A : Type) : Type :=
| Ok (a : A)
| Raise (e : exn).
Arguments Ok {A} a.
Arguments Raise {A} e.

(** What running a coroutine of a client gives: the value it returns, the
    exception it raises, or, for the [while] loop only, the recursion
    budget of the embedding used up before the loop ended. *)
Inductive outcome (A : Type) : Type :=
| Returns (a : A)
| Raises (e : exn)
| OutOfFuel.
Arguments Returns {A} a.
Arguments Raises {A} e.
Arguments OutOfFuel {A}.

Definition TypeError (msg : string) : exn := Exn "TypeError" msg.
Definition IndexError (msg : string) : exn := Exn "IndexError" msg.
Definition AttributeError (msg : string) : exn := Exn "AttributeError" msg.

Definition str_in (k : string) (ks : list string) : bool :=
  existsb (String.eqb k) ks.

Definition prefix_of {A} (l1 l2 : list A) : Prop := exists k, l2 = l1 ++ k.

(* ================================================================== *)
(** * JSON values and dictionaries                                     *)
(* ================================================================== *)

Inductive json : Type :=
| JNull
| JBool (b : bool)
| JNum (n : Z)
| JStr (s : string)
| JList (l : list json)
| JDict (d : list (string * json)).

Definition dict := list (string * json).

Section JsonInduction.
Variable P : json -> Prop.
Hypothesis HNull : P JNull.
Hypothesis HBool : forall b, P (JBool b).
Hypothesis HNum : forall n, P (JNum n).
Hypothesis HStr : forall s, P (JStr s).
Hypothesis HList : forall l, Forall P l -> P (JList l).
Hypothesis HDict : forall d, Forall (fun kv => P (snd kv)) d -> P (JDict d).

Fixpoint json_nested_ind (j : json) : P j :=
  match j with
  | JNull => HNull
  | JBool b => HBool b
  | JNum n => HNum n
  | JStr s => HStr s
  | JList l =>
      HList ((fix all (l : list json) : Forall P l :=
                match l with
                | [] => Forall_nil _
                | x :: r => Forall_cons x (json_nested_ind x) (all r)
                end) l)
  | JDict d =>
      HDict ((fix all (d : dict) : Forall (fun kv => P (snd kv)) d :=
                match d with
                | [] => Forall_nil _
                | kv :: r => Forall_cons kv (json_nested_ind (snd kv)) (all r)
                end) d)
  end.
End JsonInduction.

(** [d.get(k)] *)
Fixpoint dict_get (d : dict) (k : string) : option json :=
  match d with
  | [] => None
  | (k', v) :: r => if String.eqb k k' then Some v else dict_get r k
  end.

(** [d[k] = v]: the value is replaced where the key is present, and the
    pair is added at the end otherwise. *)
Fixpoint dict_set (d : dict) (k : string) (v : json) : dict :=
  match d with
  | [] => [(k, v)]
  | (k', v') :: r =>
      if String.eqb k k' then (k', v) :: r else (k', v') :: dict_set r k v
  end.

Definition dict_keys (d : dict) : list string := map fst d.

(* ================================================================== *)
(** * The tool catalog adapter of the Gemini client                    *)
(* ================================================================== *)

Module Schema.

(** [key in {"additional_properties", "additionalProperties", "examples"}] *)
Definition unsupported_fields : list string :=
  ["additional_properties"; "additionalProperties"; "examples"].

(** [key == "any_of" or key == "anyOf"] *)
Definition is_union_key (key : string) : bool :=
  String.eqb key "any_of" || String.eqb key "anyOf".

(** [isinstance(option, dict) and option.get("type") != "null"] *)
Definition non_null_dict (option : json) : bool :=
  match option with
  | JDict d =>
      match dict_get d "type" with
      | Some (JStr s) => negb (String.eqb s "null")
      | _ => true
      end
  | _ => false
  end.

(** The inner loop [for option in value: ... return clean(option)] over a
    list of alternatives; [otherwise] is what follows the loop when no
    alternative is returned. *)
Definition scan_options {A} (rec : json -> A) (otherwise : A)
  : list json -> A :=
  fix scan (options : list json) : A :=
    match options with
    | [] => otherwise
    | option :: more =>
        if non_null_dict option then rec option else scan more
    end.

(** The loop [for key, value in schema.items()] with the dictionary
    [cleaned] built so far.  Iterating a string gives strings and
    iterating a dictionary gives its keys, none of which is a dictionary,
    so the inner loop returns nothing on them; [None], a Boolean and a
    number are not iterable. *)
Definition clean_items (rec : json -> result json)
  : dict -> dict -> result json :=
  fix loop (items : dict) (cleaned : dict) : result json :=
    match items with
    | [] => Ok (JDict cleaned)
    | (key, value) :: rest =>
        if str_in key unsupported_fields then loop rest cleaned
        else if is_union_key key then
          match value with
          | JList options => scan_options rec (loop rest cleaned) options
          | JStr _ | JDict _ => loop rest cleaned
          | JNull => Raise (TypeError "'NoneType' object is not iterable")
          | JBool _ => Raise (TypeError "'bool' object is not iterable")
          | JNum _ => Raise (TypeError "'int' object is not iterable")
          end
        else
          match rec value with
          | Ok v => loop rest (dict_set cleaned key v)
          | Raise e => Raise e
          end
    end.

(** [[clean_schema_recursive(item) for item in schema]] *)
Definition clean_list (rec : json -> result json)
  : list json -> result (list json) :=
  fix each (l : list json) : result (list json) :=
    match l with
    | [] => Ok []
    | item :: r =>
        match rec item with
        | Ok v =>
            match each r with
            | Ok vs => Ok (v :: vs)
            | Raise e => Raise e
            end
        | Raise e => Raise e
        end
    end.

Fixpoint clean_schema_recursive (schema : json) : result json :=
  match schema with
  | JDict items => clean_items clean_schema_recursive items []
  | JList l =>
      match clean_list clean_schema_recursive l with
      | Ok vs => Ok (JList vs)
      | Raise e => Raise e
      end
  | _ => Ok schema
  end.

(** The fields the Gemini client keeps at the top level. *)
Definition whitelist : list string :=
  ["type"; "properties"; "required"; "description"; "title"; "default"; "enum"].

(** The body of the loop over the tools of [get_mcp_tools], for one input
    schema: clean it, then keep the whitelisted top-level fields. *)
Definition parameters_of (inputSchema : dict) : result dict :=
  match clean_schema_recursive (JDict inputSchema) with
  | Ok (JDict cleaned_schema) =>
      Ok (filter (fun kv => str_in (fst kv) whitelist) cleaned_schema)
  | Ok (JList _) => Raise (AttributeError "'list' object has no attribute 'items'")
  | Ok _ => Raise (AttributeError "object has no attribute 'items'")
  | Raise e => Raise e
  end.

(** The keys [clean_schema_recursive] never copies: the unsupported
    fields and the two spellings of the union key. *)
Definition union_keys : list string := ["any_of"; "anyOf"].

Definition removed_keys : list string := unsupported_fields ++ union_keys.

(** No dictionary of a value, at any depth, has a key among [ks]. *)
Fixpoint key_free (ks : list string) (j : json) : bool :=
  match j with
  | JDict d =>
      forallb (fun kv => negb (str_in (fst kv) ks) && key_free ks (snd kv)) d
  | JList l => forallb (key_free ks) l
  | _ => true
  end.

(** Every field of a schema node is whitelisted, and so is every field of
    the nodes its [properties] map names to, recursively. *)
Fixpoint fields_whitelisted (node : json) : bool :=
  match node with
  | JDict fields =>
      forallb (fun kv => str_in (fst kv) whitelist) fields
      && forallb (fun kv =>
                    if String.eqb (fst kv) "properties" then
                      match snd kv with
                      | JDict props =>
                          forallb (fun p => fields_whitelisted (snd p)) props
                      | _ => true
                      end
                    else true) fields
  | _ => true
  end.

(** The value of every union key, at any depth, can be iterated over. *)
Definition iterable (value : json) : bool :=
  match value with
  | JNull | JBool _ | JNum _ => false
  | _ => true
  end.

Fixpoint iterable_unions (j : json) : bool :=
  match j with
  | JDict d =>
      forallb (fun kv =>
                 (if is_union_key (fst kv) then iterable (snd kv) else true)
                 && iterable_unions (snd kv)) d
  | JList l => forallb iterable_unions l
  | _ => true
  end.

End Schema.

(* ================================================================== *)
(** * The tool host session and the effects of the clients             *)
(* ================================================================== *)

(** What [session.list_tools()] returns for one tool. *)
Record Tool := {
  tool_name : string;
  tool_description : option string;
  tool_inputSchema : dict
}.

(** A content block of a tool result; only a text block has [.text]. *)
Inductive ContentBlock :=
| TextContent (text : string)
| OtherContent (class_name : string).

(** What [session.call_tool(name, arguments)] returns. *)
Record CallToolResult := {
  content : list ContentBlock;
  isError : bool
}.

Definition newline : string := String (ascii_of_nat 10) EmptyString.

(** [for text_content in result.content: content += text_content.text + "\n"],
    from the text [acc] accumulated so far. *)
Fixpoint join_text (blocks : list ContentBlock) (acc : string) : result string :=
  match blocks with
  | [] => Ok acc
  | TextContent text :: more =>
      join_text more (String.append acc (String.append text newline))
  | OtherContent cls :: _ =>
      Raise (AttributeError
               (String.append "'" (String.append cls "' object has no attribute 'text'")))
  end.

(** What a run leaves behind: the fetch of the catalog, a call of the
    model with its request, or a call of a tool of the host with its name
    and arguments. *)
Inductive event (Req : Type) :=
| EvListTools
| EvModel (rq : Req)
| EvTool (name : string) (args : json).
Arguments EvListTools {Req}.
Arguments EvModel {Req} rq.
Arguments EvTool {Req} name args.

Definition is_model_call {Req} (e : event Req) : bool :=
  match e with EvModel _ => true | _ => false end.

Definition model_calls {Req} (tr : list (event Req)) : nat :=
  List.length (filter is_model_call tr).

Fixpoint tool_calls_of {Req} (tr : list (event Req)) : list (string * json) :=
  match tr with
  | [] => []
  | EvTool name args :: r => (name, args) :: tool_calls_of r
  | _ :: r => tool_calls_of r
  end.

(** The state a query runs in: the world outside (model provider and tool
    host), the calls made so far, and the conversation (the list
    [messages] of the OpenAI client, [contents] of the Gemini client). *)
Record state (W Req Msg : Type) := {
  world : W;
  trace : list (event Req);
  transcript : list Msg
}.

(** The collaborators of a client: [json.loads], the two calls of the
    tool host session and the call of the model provider. *)
Class Env (W Req Resp : Type) := {
  json_loads : string -> result json;
  list_tools : W -> result (list Tool) * W;
  call_tool : W -> string -> json -> result CallToolResult * W;
  generate : W -> Req -> result Resp * W
}.

Section Effects.
Context {W Req Resp Msg : Type} {E : Env W Req Resp}.

Definition M (A : Type) : Type :=
  state W Req Msg -> outcome A * state W Req Msg.

Definition ret {A} (a : A) : M A := fun s => (Returns a, s).

Definition raise {A} (e : exn) : M A := fun s => (Raises e, s).

Definition out_of_fuel {A} : M A := fun s => (OutOfFuel, s).

Definition bind {A B} (m : M A) (f : A -> M B) : M B :=
  fun s =>
    match m s with
    | (Returns a, s') => f a s'
    | (Raises e, s') => (Raises e, s')
    | (OutOfFuel, s') => (OutOfFuel, s')
    end.

Definition outcome_of {A} (r : result A) : outcome A :=
  match r with
  | Ok a => Returns a
  | Raise e => Raises e
  end.

(** A Python expression evaluated inside a coroutine. *)
Definition lift {A} (r : result A) : M A := fun s => (outcome_of r, s).

(** [try: m  except Exception as e: h(e)] *)
Definition try_except {A} (m : M A) (h : exn -> M A) : M A :=
  fun s =>
    match m s with
    | (Raises e, s') => h e s'
    | other => other
    end.

(** [messages.append(m)] *)
Definition append_turn (m : Msg) : M unit :=
  fun s => (Returns tt, {| world := world s; trace := trace s;
                           transcript := transcript s ++ [m] |}).

(** The conversation list, as passed to the model. *)
Definition conversation : M (list Msg) :=
  fun s => (Returns (transcript s), s).

(** [messages = [...]]: a new list is bound at the start of a query. *)
Definition new_conversation (l : list Msg) : M unit :=
  fun s => (Returns tt, {| world := world s; trace := trace s;
                           transcript := l |}).

Definition do_list_tools : M (list Tool) :=
  fun s =>
    let (r, w) := list_tools (world s) in
    (outcome_of r, {| world := w; trace := trace s ++ [EvListTools];
           transcript := transcript s |}).

Definition do_call_tool (name : string) (args : json) : M CallToolResult :=
  fun s =>
    let (r, w) := call_tool (world s) name args in
    (outcome_of r, {| world := w; trace := trace s ++ [EvTool name args];
           transcript := transcript s |}).

Definition do_generate (rq : Req) : M Resp :=
  fun s =>
    let (r, w) := generate (world s) rq in
    (outcome_of r, {| world := w; trace := trace s ++ [EvModel rq];
           transcript := transcript s |}).

(** [for x in l: body(x)] *)
Fixpoint for_each {A} (l : list A) (body : A -> M unit) : M unit :=
  match l with
  | [] => ret tt
  | x :: r => bind (body x) (fun _ => for_each r body)
  end.
(** A coroutine only ever adds turns at the end of the conversation. *)
Definition append_only {A} (m : M A) : Prop :=
  forall s, prefix_of (transcript s) (transcript (snd (m s))).

(** A coroutine ends (it returns or raises) and calls the model at most
    [n] times, whatever the state it starts in. *)
Definition bounded {A} (n : nat) (m : M A) : Prop :=
  forall s,
    fst (m s) <> OutOfFuel
    /\ exists new, trace (snd (m s)) = trace s ++ new /\ model_calls new <= n.
End Effects.

Notation "x <- m ;; k" := (bind m (fun x => k))
  (at level 61, m at next level, right associativity).
Notation "m ;;; k" := (bind m (fun _ => k))
  (at level 61, right associativity).

(** [l[0]] *)
Definition first_item {A} (l : list A) : result A :=
  match l with
  | x :: _ => Ok x
  | [] => Raise (IndexError "list index out of range")
  end.

(* ================================================================== *)
(** * The OpenAI client ([src/openai_client.py])                        *)
(* ================================================================== *)

Module OpenAI.

(** A tool call of an assistant message: [id], [function.name] and
    [function.arguments] (always text for this provider). *)
Record ToolCall := {
  tc_id : string;
  tc_name : string;
  tc_arguments : string
}.

(** [response.choices[i].message] *)
Record ChatMessage := {
  cm_content : option string;
  cm_tool_calls : option (list ToolCall)
}.

(** An element of [messages]: one of the dictionaries the client builds
    (system, user and tool messages) or a message object of the model. *)
Inductive Message :=
| MText (role : string) (text : string)
| MAssistant (m : ChatMessage)
| MTool (tool_call_id : string) (text : string).

(** An element of the list [get_mcp_tools] returns. *)
Record FunctionTool := {
  ft_name : string;
  ft_description : option string;
  ft_parameters : dict
}.

(** The arguments of [chat.completions.create]. *)
Record Request := {
  rq_model : string;
  rq_messages : list Message;
  rq_tools : option (list FunctionTool);
  rq_tool_choice : string
}.

Record Response := { choices : list ChatMessage }.

Section Client.
Context {W : Type} {E : Env W Request Response}.
Variable model : string.
Variable system_prompt : string.

Local Abbreviation M := (@M W Request Message).

Definition get_mcp_tools : M (list FunctionTool) :=
  tools_result <- do_list_tools ;;
  ret (map (fun tool => {| ft_name := tool_name tool;
                           ft_description := tool_description tool;
                           ft_parameters := tool_inputSchema tool |})
           tools_result).

(** The body of [for tool_call in assistant_message.tool_calls]. *)
Definition run_tool_call (tool_call : ToolCall) : M unit :=
  try_except
    (arguments <- lift (json_loads (tc_arguments tool_call)) ;;
     result <- do_call_tool (tc_name tool_call) arguments ;;
     text <- lift (join_text (content result) "") ;;
     append_turn (MTool (tc_id tool_call) text))
    (fun e =>
       append_turn (MTool (tc_id tool_call)
                      (String.append "Error executing tool: " (exc_msg e)))).

(** The calls of the tool host a list of tool calls leads to, in order:
    one for each call whose arguments are read. *)
Definition host_calls (tool_calls : list ToolCall) : list (string * json) :=
  flat_map (fun tool_call =>
              match json_loads (tc_arguments tool_call) with
              | Ok arguments => [(tc_name tool_call, arguments)]
              | Raise _ => []
              end) tool_calls.

(** The tool messages for a list of tool calls and the text of each. *)
Definition tool_messages (tool_calls : list ToolCall) (texts : list string)
  : list Message :=
  map (fun p => MTool (tc_id (fst p)) (snd p)) (combine tool_calls texts).

(** The arguments of the call of an iteration. *)
Definition loop_request (tools : list FunctionTool) (messages : list Message)
  : Request :=
  {| rq_model := model; rq_messages := messages;
     rq_tools := Some tools; rq_tool_choice := "auto" |}.

(** The arguments of the final call: no tools, and no tool call allowed. *)
Definition final_request (messages : list Message) : Request :=
  {| rq_model := model; rq_messages := messages;
     rq_tools := None; rq_tool_choice := "none" |}.

(** The final call, without tools. *)
Definition final_call : M (option string) :=
  messages <- conversation ;;
  final_response <- do_generate (final_request messages) ;;
  message <- lift (first_item (choices final_response)) ;;
  ret (cm_content message).

(** [while iteration_count < max_iterations: ...] and what follows it. *)
Fixpoint loop (fuel : nat) (tools : list FunctionTool)
         (max_iterations iteration_count : Z) : M (option string) :=
  if (iteration_count <? max_iterations)%Z then
    match fuel with
    | O => out_of_fuel
    | S fuel' =>
        messages <- conversation ;;
        response <- do_generate (loop_request tools messages) ;;
        assistant_message <- lift (first_item (choices response)) ;;
        append_turn (MAssistant assistant_message) ;;;
        match cm_tool_calls assistant_message with
        | None | Some [] => ret (cm_content assistant_message)
        | Some tool_calls =>
            for_each tool_calls run_tool_call ;;;
            loop fuel' tools max_iterations (iteration_count + 1)%Z
        end
    end
  else final_call.

Definition process_query (query : string) (max_iterations : Z)
  : M (option string) :=
  tools <- get_mcp_tools ;;
  new_conversation [MText "system" system_prompt; MText "user" query] ;;;
  loop (Z.to_nat max_iterations) tools max_iterations 0.
End Client.

End OpenAI.

(* ================================================================== *)
(** * The Gemini client ([src/google_client.py])                        *)
(* ================================================================== *)

Module Google.

(** [fc.args]: a dictionary, or text, or [None]. *)
Inductive Args :=
| ArgsDict (d : dict)
| ArgsText (s : string)
| ArgsNone.

Record FunctionCall := {
  fc_name : string;
  fc_args : Args
}.

(** [name] and [response] of a function response part; the response is
    the one-entry dictionary [{"error": text}] or [{"result": text}]. *)
Record FunctionResponse := {
  fr_name : string;
  fr_response : list (string * string)
}.

Record Part := {
  part_text : option string;
  part_function_call : option FunctionCall;
  part_function_response : option FunctionResponse
}.

(** An element of [contents]. *)
Record Content := {
  role : option string;
  parts : option (list Part)
}.

Record Candidate := { cand_content : option Content }.

(** The response class of this provider: it has [candidates], and no
    attribute [choices]. *)
Record Response := { candidates : option (list Candidate) }.

(** An element of the list [tools] built by [get_mcp_tools]. *)
Record FunctionDeclaration := {
  fd_name : string;
  fd_description : option string;
  fd_parameters : dict
}.

(** [types.Tool(function_declarations=...)] *)
Record GTool := { function_declarations : list FunctionDeclaration }.

(** [types.GenerateContentConfig(...)] *)
Record Config := {
  cfg_system_instruction : string;
  cfg_temperature : Z;
  cfg_tools : list GTool
}.

(** The arguments of [models.generate_content]; the final call passes no
    [config]. *)
Record Request := {
  rq_model : string;
  rq_contents : list Content;
  rq_config : option Config
}.

(** The turn the function responses of an iteration make: none when
    there is no response. *)
Definition function_turn (fc_parts_response : list Part) : list Content :=
  match fc_parts_response with
  | [] => []
  | _ :: _ => [{| role := Some "function"; parts := Some fc_parts_response |}]
  end.

(** [types.Part(text=query)] *)
Definition text_part (text : string) : Part :=
  {| part_text := Some text; part_function_call := None;
     part_function_response := None |}.

(** [types.Part.from_function_response(name=..., response=...)] *)
Definition from_function_response (name : string)
           (response : list (string * string)) : Part :=
  {| part_text := None; part_function_call := None;
     part_function_response :=
       Some {| fr_name := name; fr_response := response |} |}.

(** [if part.function_call] *)
Definition has_function_call (part : Part) : bool :=
  match part_function_call part with Some _ => true | None => false end.

(** The function calls among the parts of a message, in order. *)
Definition function_calls (ps : list Part) : list FunctionCall :=
  flat_map (fun part => match part_function_call part with
                        | Some fc => [fc]
                        | None => []
                        end) ps.

(** The text content of a message: the texts of its parts, one after the
    other. *)
Definition text_content (ps : list Part) : string :=
  fold_right (fun part rest => match part_text part with
                               | Some text => String.append text rest
                               | None => rest
                               end) "" ps.

(** A function response part reports an error: its response dictionary
    has the key [error]. *)
Definition reports_error (part : Part) : bool :=
  match part_function_response part with
  | Some fr => existsb (fun kv => String.eqb (fst kv) "error") (fr_response fr)
  | None => false
  end.

(** [assistant_message.parts] where [assistant_message] is [None]. *)
Definition parts_of_none : exn :=
  AttributeError "'NoneType' object has no attribute 'parts'".

(** [for part in assistant_message.parts] needs a list. *)
Definition parts_of (assistant_message : Content) : result (list Part) :=
  match parts assistant_message with
  | None => Raise (TypeError "'NoneType' object is not iterable")
  | Some ps => Ok ps
  end.

(** [response.candidates[0].content] *)
Definition first_candidate_content (response : Response)
  : result (option Content) :=
  match candidates response with
  | None => Raise (TypeError "'NoneType' object is not subscriptable")
  | Some cs =>
      match first_item cs with
      | Ok c => Ok (cand_content c)
      | Raise e => Raise e
      end
  end.

(** Reading an attribute the class of the object does not have. *)
Definition no_attribute {A} (class_name attribute : string) : result A :=
  Raise (AttributeError
           (String.append "'"
              (String.append class_name
                 (String.append "' object has no attribute '"
                    (String.append attribute "'"))))).

(** The loop over the tools in [get_mcp_tools], with the list [tools]
    built so far. *)
Fixpoint declarations (tools_result : list Tool)
         (tools : list FunctionDeclaration) : result (list FunctionDeclaration) :=
  match tools_result with
  | [] => Ok tools
  | tool :: more =>
      match Schema.parameters_of (tool_inputSchema tool) with
      | Ok parameters =>
          declarations more
            (tools ++ [{| fd_name := tool_name tool;
                          fd_description := tool_description tool;
                          fd_parameters := parameters |}])
      | Raise e => Raise e
      end
  end.

Section Client.
Context {W : Type} {E : Env W Request Response}.
Variable model : string.
Variable system_instruction : string.

Local Abbreviation M := (@M W Request Content).

Definition get_mcp_tools : M (list GTool) :=
  tools_result <- do_list_tools ;;
  tools <- lift (declarations tools_result []) ;;
  ret [{| function_declarations := tools |}].

(** [json.loads(fc.args) if type(fc.args) != dict else fc.args] *)
Definition arguments_of (args : Args) : result json :=
  match args with
  | ArgsDict d => Ok (JDict d)
  | ArgsText s => json_loads s
  | ArgsNone =>
      Raise (TypeError
               "the JSON object must be str, bytes or bytearray, not NoneType")
  end.

(** The [try] statement for one function call: the dictionary
    [part_response]. *)
Definition run_function_call (fc : FunctionCall) : M (list (string * string)) :=
  try_except
    (arguments <- lift (arguments_of (fc_args fc)) ;;
     fc_response <- do_call_tool (fc_name fc) arguments ;;
     fc_response_content <- lift (join_text (content fc_response) "") ;;
     if isError fc_response
     then ret [("error", fc_response_content)]
     else ret [("result", fc_response_content)])
    (fun e =>
       ret [("error", String.append "Error executing tool: " (exc_msg e))]).

(** The second loop over the parts, with [fc_parts_response] so far. *)
Fixpoint run_parts (ps : list Part) (fc_parts_response : list Part)
  : M (list Part) :=
  match ps with
  | [] => ret fc_parts_response
  | part :: more =>
      match part_function_call part with
      | Some fc =>
          part_response <- run_function_call fc ;;
          run_parts more
            (fc_parts_response
               ++ [from_function_response (fc_name fc) part_response])
      | None => run_parts more fc_parts_response
      end
  end.

(** The calls of the tool host a list of function calls leads to, in
    order: one for each call whose arguments are read. *)
Definition host_calls (fcs : list FunctionCall) : list (string * json) :=
  flat_map (fun fc =>
              match arguments_of (fc_args fc) with
              | Ok arguments => [(fc_name fc, arguments)]
              | Raise _ => []
              end) fcs.

(** The function response parts for a list of function calls and the
    response dictionary of each. *)
Definition response_parts (fcs : list FunctionCall)
           (responses : list (list (string * string))) : list Part :=
  map (fun p => from_function_response (fc_name (fst p)) (snd p))
      (combine fcs responses).

(** What an iteration does once a function call was found among the
    parts [ps] of the message: the message is added to the conversation,
    the calls are run, and their responses are added as one turn. *)
Definition answer_function_calls (assistant_message : Content)
           (ps : list Part) : M unit :=
  append_turn assistant_message ;;;
  fc_parts_response <- run_parts ps [] ;;
  match fc_parts_response with
  | [] => ret tt
  | _ :: _ =>
      append_turn {| role := Some "function";
                     parts := Some fc_parts_response |}
  end.

(** The arguments of the call of an iteration. *)
Definition loop_request (tools : list GTool) (contents : list Content)
  : Request :=
  {| rq_model := model;
     rq_contents := contents;
     rq_config := Some {| cfg_system_instruction := system_instruction;
                          cfg_temperature := 0;
                          cfg_tools := tools |} |}.

(** The arguments of the final call: no [config], so no tools. *)
Definition final_request (contents : list Content) : Request :=
  {| rq_model := model; rq_contents := contents; rq_config := None |}.

(** The final call, and the expression the function returns. *)
Definition final_call : M (option string) :=
  contents <- conversation ;;
  final_response <- do_generate (final_request contents) ;;
  lift (no_attribute "GenerateContentResponse" "choices").

Fixpoint loop (fuel : nat) (tools : list GTool)
         (max_iterations iteration_count : Z) : M (option string) :=
  if (iteration_count <? max_iterations)%Z then
    match fuel with
    | O => out_of_fuel
    | S fuel' =>
        contents <- conversation ;;
        response <- do_generate (loop_request tools contents) ;;
        assistant_message <- lift (first_candidate_content response) ;;
        match assistant_message with
        | None => raise parts_of_none
        | Some assistant_message =>
            ps <- lift (parts_of assistant_message) ;;
            if negb (existsb has_function_call ps) then
              part <- lift (first_item ps) ;;
              ret (part_text part)
            else
              answer_function_calls assistant_message ps ;;;
              loop fuel' tools max_iterations (iteration_count + 1)%Z
        end
    end
  else final_call.

Definition process_query (query : string) (max_iterations : Z)
  : M (option string) :=
  tools <- get_mcp_tools ;;
  new_conversation [{| role := Some "user";
                       parts := Some [text_part query] |}] ;;;
  loop (Z.to_nat max_iterations) tools max_iterations 0.
End Client.

End Google.

(* ================================================================== *)
(** * The MongoDB tool server ([src/server.py])                         *)
(* ================================================================== *)

Module Server.

(** An [ObjectId], identified with the hexadecimal text [str] prints. *)
Record ObjectId := { oid_hex : string }.

(** The values a document is made of: lists, dictionaries with text keys,
    object identifiers, and the other leaves. *)
Inductive pyval : Type :=
| PNone
| PBool (b : bool)
| PInt (n : Z)
| PStr (s : string)
| POther (repr : string)
| PObjectId (o : ObjectId)
| PList (l : list pyval)
| PDict (d : list (string * pyval)).

Section PyvalInduction.
Variable P : pyval -> Prop.
Hypothesis HNone : P PNone.
Hypothesis HBool : forall b, P (PBool b).
Hypothesis HInt : forall n, P (PInt n).
Hypothesis HStr : forall s, P (PStr s).
Hypothesis HOther : forall r, P (POther r).
Hypothesis HObjectId : forall o, P (PObjectId o).
Hypothesis HList : forall l, Forall P l -> P (PList l).
Hypothesis HDict : forall d, Forall (fun kv => P (snd kv)) d -> P (PDict d).

Fixpoint pyval_nested_ind (v : pyval) : P v :=
  match v with
  | PNone => HNone
  | PBool b => HBool b
  | PInt n => HInt n
  | PStr s => HStr s
  | POther r => HOther r
  | PObjectId o => HObjectId o
  | PList l =>
      HList ((fix all (l : list pyval) : Forall P l :=
                match l with
                | [] => Forall_nil _
                | x :: r => Forall_cons x (pyval_nested_ind x) (all r)
                end) l)
  | PDict d =>
      HDict ((fix all (d : list (string * pyval))
                : Forall (fun kv => P (snd kv)) d :=
                match d with
                | [] => Forall_nil _
                | kv :: r => Forall_cons kv (pyval_nested_ind (snd kv)) (all r)
                end) d)
  end.
End PyvalInduction.

Fixpoint convert_objectids (obj : pyval) : pyval :=
  match obj with
  | PList l => PList (map convert_objectids l)
  | PDict d => PDict (map (fun kv => (fst kv, convert_objectids (snd kv))) d)
  | PObjectId o => PStr (oid_hex o)
  | _ => obj
  end.

(** A cursor: what [collection.find] was given, and the sort and limit
    set on it since ([0] stands for no limit). *)
Record Cursor := {
  cur_connection : string;
  cur_database : string;
  cur_collection : string;
  cur_filter : json;
  cur_projection : option json;
  cur_sort : option (list (string * Z));
  cur_limit : Z
}.

(** The database: the documents of a collection that match a filter, in
    their natural order and projected (or the failure of reading them),
    and the order a sort specification puts documents in. *)
Class Database := {
  matching : string -> string -> string -> json -> option json
             -> result (list pyval);
  sorted_by : list (string * Z) -> list pyval -> list pyval
}.

Section Tools.
Context {DB : Database}.
Variable MONGODB_CONNECTION_STRING : string.

(** [collection.find(query, projection)] *)
Definition find (connection database collection : string)
           (query : json) (projection : option json) : Cursor :=
  {| cur_connection := connection; cur_database := database;
     cur_collection := collection; cur_filter := query;
     cur_projection := projection; cur_sort := None; cur_limit := 0 |}.

(** [cursor.sort(sort)] *)
Definition sort (cursor : Cursor) (spec : list (string * Z)) : Cursor :=
  {| cur_connection := cur_connection cursor;
     cur_database := cur_database cursor;
     cur_collection := cur_collection cursor;
     cur_filter := cur_filter cursor;
     cur_projection := cur_projection cursor;
     cur_sort := Some spec; cur_limit := cur_limit cursor |}.

(** [cursor.limit(limit)] *)
Definition limit (cursor : Cursor) (n : Z) : Cursor :=
  {| cur_connection := cur_connection cursor;
     cur_database := cur_database cursor;
     cur_collection := cur_collection cursor;
     cur_filter := cur_filter cursor;
     cur_projection := cur_projection cursor;
     cur_sort := cur_sort cursor; cur_limit := n |}.

(** [list(cursor)]: the matching documents, sorted when a sort is set,
    and cut to the limit when it is not [0]. *)
Definition list_cursor (cursor : Cursor) : result (list pyval) :=
  match matching (cur_connection cursor) (cur_database cursor)
                 (cur_collection cursor) (cur_filter cursor)
                 (cur_projection cursor) with
  | Ok docs =>
      let ordered := match cur_sort cursor with
                     | Some spec => sorted_by spec docs
                     | None => docs
                     end in
      Ok (if (cur_limit cursor =? 0)%Z then ordered
          else firstn (Z.abs_nat (cur_limit cursor)) ordered)
  | Raise e => Raise e
  end.

(** [if sort: cursor = cursor.sort(sort)] *)
Definition apply_sort (spec : option (list (string * Z))) (cursor : Cursor)
  : Cursor :=
  match spec with
  | Some (_ :: _ as s) => sort cursor s
  | _ => cursor
  end.

(** [if limit: cursor = cursor.limit(limit)] *)
Definition apply_limit (n : option Z) (cursor : Cursor) : Cursor :=
  match n with
  | Some k => if (k =? 0)%Z then cursor else limit cursor k
  | None => cursor
  end.

(** The three [except] clauses of the query tools. *)
Definition reraise {A} (r : result A) : result A :=
  match r with
  | Raise e =>
      if String.eqb (exc_type e) "ConnectionFailure" then
        Raise (Exn "Exception"
                 (String.append "Connection to MongoDB failed: " (exc_msg e)))
      else if String.eqb (exc_type e) "OperationFailure" then
        Raise (Exn "Exception"
                 (String.append "Query operation failed: " (exc_msg e)))
      else
        Raise (Exn "Exception"
                 (String.append "An error occurred: " (exc_msg e)))
  | other => other
  end.

(** The statements of the [try] block both query tools share. *)
Definition run_query (cursor : Cursor) (n : option Z)
           (spec : option (list (string * Z))) : result pyval :=
  let cursor := apply_sort spec cursor in
  let cursor := apply_limit n cursor in
  match list_cursor cursor with
  | Ok results => Ok (convert_objectids (PList results))
  | Raise e => Raise e
  end.

Definition execute_mongodb_query (query : json)
           (collection_name database_name connection_string : string)
           (projection : option json) (limit : option Z)
           (sort : option (list (string * Z))) : result pyval :=
  reraise
    (run_query (find connection_string database_name collection_name
                     query projection) limit sort).

Definition get_users_by_city (city : string) (projection : option json)
           (limit : option Z) (sort : option (list (string * Z)))
  : result pyval :=
  reraise
    (run_query
       (find MONGODB_CONNECTION_STRING "UsersDB" "users"
             (JDict [("address.city",
                      JDict [("$regex", JStr city); ("$options", JStr "i")])])
             projection)
       limit sort).

(** [list(collection.find({}, limit=limit))], converted. *)
Definition get_mongodb_sample_documents
           (database_name collection_name : string) (n : Z) : result pyval :=
  match list_cursor
          (limit (find MONGODB_CONNECTION_STRING database_name
                       collection_name (JDict []) None) n) with
  | Ok samples => Ok (convert_objectids (PList samples))
  | Raise e => Raise e
  end.
(** The order the [sort] argument of a tool puts the documents in. *)
Definition ordered (spec : option (list (string * Z))) (docs : list pyval)
  : list pyval :=
  match spec with
  | Some (_ :: _ as s) => sorted_by s docs
  | _ => docs
  end.

(** Every matching document, ordered and converted. *)
Definition all_matching (connection database collection : string)
           (query : json) (projection : option json)
           (spec : option (list (string * Z))) : result pyval :=
  reraise
    match matching connection database collection query projection with
    | Ok docs => Ok (PList (map convert_objectids (ordered spec docs)))
    | Raise e => Raise e
    end.
End Tools.

(** No object identifier occurs in a value. *)
Fixpoint objectid_free (v : pyval) : bool :=
  match v with
  | PObjectId _ => false
  | PList l => forallb objectid_free l
  | PDict d => forallb (fun kv => objectid_free (snd kv)) d
  | _ => true
  end.

(** A step into a value: an index of a list or a key of a dictionary. *)
Inductive step := Index (i : nat) | Key (k : string).

Fixpoint pdict_get (d : list (string * pyval)) (k : string) : option pyval :=
  match d with
  | [] => None
  | (k', v) :: r => if String.eqb k k' then Some v else pdict_get r k
  end.

(** The value a path of steps leads to, if any. *)
Fixpoint at_path (path : list step) (v : pyval) : option pyval :=
  match path with
  | [] => Some v
  | Index i :: more =>
      match v with
      | PList l => match nth_error l i with
                   | Some x => at_path more x
                   | None => None
                   end
      | _ => None
      end
  | Key k :: more =>
      match v with
      | PDict d => match pdict_get d k with
                   | Some x => at_path more x
                   | None => None
                   end
      | _ => None
      end
  end.

(** The shape of a value: its nesting, list lengths and dictionary keys,
    with every leaf forgotten. *)
Inductive shape :=
| SLeaf
| SList (l : list shape)
| SDict (d : list (string * shape)).

Fixpoint shape_of (v : pyval) : shape :=
  match v with
  | PList l => SList (map shape_of l)
  | PDict d => SDict (map (fun kv => (fst kv, shape_of (snd kv))) d)
  | _ => SLeaf
  end.

(** The list a query tool returns, when it returns. *)
Definition returns_objectid_free (r : result pyval) : Prop :=
  match r with
  | Ok (PList docs) => forallb objectid_free docs = true
  | Ok _ => False
  | _ => True
  end.

End Server.

(* ================================================================== *)
(** * Scripted collaborators                                           *)
(* ================================================================== *)

(** A world that plays a script: the catalog of the tool host, the
    responses of the model and the results of the tool calls, each list
    consumed from its head. *)
Module Scripted.

Record World (Resp : Type) := {
  catalog : list Tool;
  responses : list (result Resp);
  results : list (result CallToolResult)
}.

Definition decode_error : exn :=
  Exn "JSONDecodeError" "Expecting value: line 1 column 1 (char 0)".

(** A parser for the scripts: it reads the empty object and refuses any
    other text. *)
Definition loads (text : string) : result json :=
  if String.eqb text "{}" then Ok (JDict []) else Raise decode_error.

Definition next_response {Resp} (w : World Resp) : result Resp * World Resp :=
  match responses w with
  | r :: more => (r, {| catalog := catalog w; responses := more;
                        results := results w |})
  | [] => (Raise (Exn "APIError" "no response"), w)
  end.

Definition next_result {Resp} (w : World Resp)
  : result CallToolResult * World Resp :=
  match results w with
  | r :: more => (r, {| catalog := catalog w; responses := responses w;
                        results := more |})
  | [] => (Raise (Exn "McpError" "no result"), w)
  end.

#[export] Instance env (Req Resp : Type) : Env (World Resp) Req Resp := {
  json_loads := loads;
  list_tools := fun w => (Ok (catalog w), w);
  call_tool := fun w _ _ => next_result w;
  generate := fun w _ => next_response w
}.

(** The state a query starts in. *)
Definition start {Req Resp Msg : Type} (w : World Resp)
  : state (World Resp) Req Msg :=
  {| world := w; trace := []; transcript := [] |}.

(** ** The pieces of the scripts *)

Definition text_result (text : string) (flag : bool) : result CallToolResult :=
  Ok {| content := [TextContent text]; isError := flag |}.

Definition tool_call (id name arguments : string) : OpenAI.ToolCall :=
  {| OpenAI.tc_id := id; OpenAI.tc_name := name;
     OpenAI.tc_arguments := arguments |}.

Definition chat_message (text : option string)
           (tool_calls : option (list OpenAI.ToolCall)) : OpenAI.ChatMessage :=
  {| OpenAI.cm_content := text; OpenAI.cm_tool_calls := tool_calls |}.

Definition openai_reply (text : option string)
           (tool_calls : option (list OpenAI.ToolCall))
  : result OpenAI.Response :=
  Ok {| OpenAI.choices := [chat_message text tool_calls] |}.

Definition call_part (name : string) (args : Google.Args) : Google.Part :=
  {| Google.part_text := None;
     Google.part_function_call :=
       Some {| Google.fc_name := name; Google.fc_args := args |};
     Google.part_function_response := None |}.

Definition model_content (ps : list Google.Part) : Google.Content :=
  {| Google.role := Some "model"; Google.parts := Some ps |}.

Definition gemini_reply (ps : list Google.Part) : result Google.Response :=
  Ok {| Google.candidates :=
          Some [{| Google.cand_content := Some (model_content ps) |}] |}.

(** A tool whose schema has a nested node with a field outside the
    whitelist, and a top-level field the Gemini client drops. *)
Definition age_tool : Tool :=
  {| tool_name := "get_users_by_age";
     tool_description := Some "Gets the users of an age.";
     tool_inputSchema :=
       [("type", JStr "object");
        ("properties",
         JDict [("age", JDict [("type", JStr "integer"); ("minimum", JNum 0)])]);
        ("additionalProperties", JBool false)] |}.

Definition catalog_world {Resp : Type} : World Resp :=
  {| catalog := [age_tool]; responses := []; results := [] |}.

(** The model asks for a tool in its only scripted turn before the final
    call; the host answers. *)
Definition asks_again_world : World Google.Response :=
  {| catalog := [];
     responses := [gemini_reply [call_part "get_mongodb_collections"
                                           (Google.ArgsDict [])];
                   gemini_reply [Google.text_part "There is one collection."]];
     results := [text_result "users" false] |}.

(** The host answers the one tool call with text and the given error
    flag; the model then answers. *)
Definition host_error_world (flag : bool) : World OpenAI.Response :=
  {| catalog := [];
     responses := [openai_reply None
                     (Some [tool_call "call_1" "execute_mongodb_query" "{}"]);
                   openai_reply (Some "The query failed.") None];
     results := [text_result "boom" flag] |}.

(** The model answers at once, in two text parts. *)
Definition two_parts : list Google.Part :=
  [Google.text_part "Hello, "; Google.text_part "world"].

Definition two_parts_world : World Google.Response :=
  {| catalog := []; responses := [gemini_reply two_parts]; results := [] |}.

(** The model answers at once. *)
Definition answer_world : World OpenAI.Response :=
  {| catalog := []; responses := [openai_reply (Some "Found 3 users") None];
     results := [] |}.

Definition gemini_answer_world : World Google.Response :=
  {| catalog := [];
     responses := [gemini_reply [Google.text_part "Found 3 users"]];
     results := [] |}.

(** The arguments of the one tool call are text that is no JSON. *)
Definition malformed_world : World OpenAI.Response :=
  {| catalog := [];
     responses := [openai_reply None
                     (Some [tool_call "call_1" "execute_mongodb_query" "{query:"])];
     results := [] |}.

Definition gemini_malformed_world : World Google.Response :=
  {| catalog := [];
     responses := [gemini_reply [call_part "execute_mongodb_query"
                                           (Google.ArgsText "{query:")]];
     results := [] |}.

(** The model asks for two tools in one response; the host answers the
    first, and the arguments of the second are no JSON. *)
Definition two_calls : list OpenAI.ToolCall :=
  [tool_call "call_1" "get_mongodb_collections" "{}";
   tool_call "call_2" "execute_mongodb_query" "{query:"].

Definition two_calls_world : World OpenAI.Response :=
  {| catalog := [];
     responses := [openai_reply None (Some two_calls)];
     results := [text_result "users" false] |}.

Definition two_call_parts : list Google.Part :=
  [call_part "get_mongodb_collections" (Google.ArgsDict []);
   Google.text_part "and then";
   call_part "execute_mongodb_query" (Google.ArgsText "{query:")].

Definition gemini_two_calls_world : World Google.Response :=
  {| catalog := [];
     responses := [gemini_reply two_call_parts];
     results := [text_result "users" false] |}.

(** The state of the loop at its first iteration, for a query. *)
Definition openai_conversation (w : World OpenAI.Response)
  : state (World OpenAI.Response) OpenAI.Request OpenAI.Message :=
  {| world := w; trace := [];
     transcript := [OpenAI.MText "system" "policy";
                    OpenAI.MText "user" "Who lives in Pune?"] |}.

Definition gemini_conversation (w : World Google.Response)
  : state (World Google.Response) Google.Request Google.Content :=
  {| world := w; trace := [];
     transcript := [{| Google.role := Some "user";
                       Google.parts :=
                         Some [Google.text_part "Who lives in Pune?"] |}] |}.

(** A database of three users, whatever the filter. *)
Definition user (hex name : string) : Server.pyval :=
  Server.PDict [("_id", Server.PObjectId {| Server.oid_hex := hex |});
                ("name", Server.PStr name)].

Definition three_users : list Server.pyval :=
  [user "65f0a1b2c3d4e5f601234567" "Asha";
   user "65f0a1b2c3d4e5f601234568" "Ravi";
   user "65f0a1b2c3d4e5f601234569" "Meena"].

#[export] Instance users_db : Server.Database := {
  Server.matching := fun _ _ _ _ _ => Ok three_users;
  Server.sorted_by := fun _ docs => docs
}.

(** A world with the script used up. *)
Definition silent {Resp : Type} : World Resp :=
  {| catalog := []; responses := []; results := [] |}.

End Scripted.

(* ================================================================== *)
(** * Schemas whose dictionaries have distinct keys                    *)
(* ================================================================== *)

(** No text occurs twice in a list. *)
Fixpoint no_repeat (ks : list string) : bool :=
  match ks with
  | [] => true
  | k :: r => negb (str_in k r) && no_repeat r
  end.

(** The keys of every dictionary of a value, at any depth, are pairwise
    distinct, as the keys of a Python dictionary are. *)
Fixpoint distinct_keys (j : json) : bool :=
  match j with
  | JDict d =>
      no_repeat (dict_keys d) && forallb (fun kv => distinct_keys (snd kv)) d
  | JList l => forallb distinct_keys l
  | _ => true
  end.

(* ================================================================== *)
(** * What a run shows of a query                                      *)
(* ================================================================== *)

(** The requests sent to the model in a trace, in order. *)
Fixpoint requests_of {Req} (tr : list (event Req)) : list Req :=
  match tr with
  | [] => []
  | EvModel rq :: r => rq :: requests_of r
  | _ :: r => requests_of r
  end.

(** The number of fetches of the catalog in a trace. *)
Fixpoint catalog_fetches {Req} (tr : list (event Req)) : nat :=
  match tr with
  | [] => 0
  | EvListTools :: r => S (catalog_fetches r)
  | _ :: r => catalog_fetches r
  end.

(** Every list is a prefix of the lists after it. *)
Fixpoint growing {A} (ls : list (list A)) : Prop :=
  match ls with
  | [] => True
  | l :: r => Forall (prefix_of l) r /\ growing r
  end.

(** What the events [new] of a run from the conversation [t] to the
    conversation [t'] show: the conversation was extended, the catalog was
    not fetched, and the conversations sent to the model ([sent] reads
    the conversation off a request) lie between [t] and [t'], each a
    prefix of the later ones. *)
Definition history {Req Msg} (sent : Req -> list Msg)
           (t : list Msg) (new : list (event Req)) (t' : list Msg) : Prop :=
  prefix_of t t'
  /\ catalog_fetches new = 0
  /\ growing (map sent (requests_of new))
  /\ Forall (fun rq => prefix_of t (sent rq) /\ prefix_of (sent rq) t')
            (requests_of new).

Section Runs.
Context {W Req Resp Msg : Type} {E : Env W Req Resp}.

(** The run of a coroutine from [s] keeps the history. *)
Definition keeps_history_at (sent : Req -> list Msg) {A}
           (m : M (W := W) (Req := Req) (Msg := Msg) A)
           (s : state W Req Msg) : Prop :=
  exists new,
    trace (snd (m s)) = trace s ++ new
    /\ history sent (transcript s) new (transcript (snd (m s))).

(** The same state with the events [tr] before its trace. *)
Definition after_events (tr : list (event Req)) (s : state W Req Msg)
  : state W Req Msg :=
  {| world := world s; trace := tr ++ trace s; transcript := transcript s |}.

(** A coroutine does not read the trace: run after more events, it does
    the same and leaves those events before its own. *)
Definition trace_blind {A} (m : M (W := W) (Req := Req) (Msg := Msg) A) : Prop :=
  forall tr s, m (after_events tr s) = (fst (m s), after_events tr (snd (m s))).
End Runs.

(* ================================================================== *)
(** * More scripted collaborators                                      *)
(* ================================================================== *)

Module Scripts.

(** A tool host that cannot be reached when the catalog is fetched. *)
Definition unreachable : exn := Exn "McpError" "Connection closed".

Definition offline (Req Resp : Type) : Env (Scripted.World Resp) Req Resp := {|
  json_loads := Scripted.loads;
  list_tools := fun w => (Raise unreachable, w);
  call_tool := fun w _ _ => Scripted.next_result w;
  generate := fun w _ => Scripted.next_response w
|}.

(** The model provider refuses the call. *)
Definition refused : exn := Exn "AuthenticationError" "Incorrect API key provided".

Definition refusing_world {Resp : Type} : Scripted.World Resp :=
  {| Scripted.catalog := []; Scripted.responses := [Raise refused];
     Scripted.results := [] |}.

(** The tool host raises when the tool is called. *)
Definition host_raises_world {Resp : Type} : Scripted.World Resp :=
  {| Scripted.catalog := []; Scripted.responses := [];
     Scripted.results := [Raise unreachable] |}.

(** The tool host answers with a text block and an image. *)
Definition image_result : CallToolResult :=
  {| content := [TextContent "chart"; OtherContent "ImageContent"];
     isError := false |}.

Definition image_world {Resp : Type} : Scripted.World Resp :=
  {| Scripted.catalog := []; Scripted.responses := [];
     Scripted.results := [Ok image_result] |}.

(** The model answers the final call of the OpenAI client. *)
Definition final_world : Scripted.World OpenAI.Response :=
  {| Scripted.catalog := [];
     Scripted.responses :=
       [Scripted.openai_reply (Some "I could not finish.") None];
     Scripted.results := [] |}.

(** A tool whose schema gives a number where the alternatives of a union
    are expected. *)
Definition broken_tool : Tool :=
  {| tool_name := "get_users_by_name";
     tool_description := None;
     tool_inputSchema := [("type", JStr "object"); ("anyOf", JNum 5)] |}.

Definition broken_catalog_world {Resp : Type} : Scripted.World Resp :=
  {| Scripted.catalog := [Scripted.age_tool; broken_tool];
     Scripted.responses := []; Scripted.results := [] |}.

(** The parameters the Gemini client gives the tool of the first catalog. *)
Definition age_parameters : dict :=
  [("type", JStr "object");
   ("properties",
    JDict [("age", JDict [("type", JStr "integer"); ("minimum", JNum 0)])])].

(** A database that cannot be reached. *)
Definition refused_connection : exn :=
  Exn "ConnectionFailure" "localhost:27017: Connection refused".

Definition down_db : Server.Database := {|
  Server.matching := fun _ _ _ _ _ => Raise refused_connection;
  Server.sorted_by := fun _ docs => docs
|}.

End Scripts.

(* ================================================================== *)
(** * The chat loop of the clients                                     *)
(* ================================================================== *)

Definition EOFError (msg : string) : exn := Exn "EOFError" msg.

Module Chat.

(** The console of a client: the lines still to be read from the standard
    input, and the texts the chat loop has written to the standard output,
    in order. The diagnostics [process_query] prints while a query runs
    are not part of the model. *)
Record Console := { stdin : list string; stdout : list string }.

(** [print(text)] *)
Definition print (text : string) (c : Console) : Console :=
  {| stdin := stdin c; stdout := stdout c ++ [String.append text newline] |}.

(** [input(prompt)]: the prompt is written and a line is read; at the end
    of the input the call raises. *)
Definition input (prompt : string) (c : Console) : result string * Console :=
  match stdin c with
  | [] => (Raise (EOFError "EOF when reading a line"),
           {| stdin := []; stdout := stdout c ++ [prompt] |})
  | line :: rest => (Ok line, {| stdin := rest; stdout := stdout c ++ [prompt] |})
  end.

Definition prompt : string := String.append newline "Query: ".

Definition goodbye : string := String.append newline "Goodbye!".

Definition double_quote : string := String (ascii_of_nat 34) EmptyString.

(** ["\nAnswer: " + response]: text can only be joined with text. *)
Definition answer_line (response : option string) : result string :=
  match response with
  | Some text => Ok (String.append newline (String.append "Answer: " text))
  | None =>
      Raise (TypeError
               (String.append "can only concatenate str (not "
                  (String.append double_quote
                     (String.append "NoneType"
                        (String.append double_quote ") to str")))))
  end.

(** How an iteration of [while True] ends. *)
Inductive Step := Break | Continue.

Section Loop.
Context {W Req Resp Msg : Type} {E : Env W Req Resp}.

(** [self.process_query(query)], with the default of [max_iterations]. *)
Variable process_query : string -> M (W := W) (Req := Req) (Msg := Msg) (option string).

(** [str.strip] and [str.lower] *)
Variables strip lower : string -> string.

(** The first line written, and the mark before the word [Error]. *)
Variables banner mark : string.

Definition Session : Type := Console * state W Req Msg.

(** [f"\n<mark> Error: {str(e)}"] *)
Definition error_line (e : exn) : string :=
  String.append newline
    (String.append mark (String.append " Error: " (exc_msg e))).

(** The body of [try]. *)
Definition attempt (cs : Session) : outcome Step * Session :=
  let (r, c) := input prompt (fst cs) in
  match r with
  | Raise e => (Raises e, (c, snd cs))
  | Ok line =>
      let query := strip line in
      if String.eqb (lower query) "quit" then
        (Returns Break, (print goodbye c, snd cs))
      else
        match process_query query (snd cs) with
        | (Returns response, s) =>
            match answer_line response with
            | Ok text => (Returns Continue, (print text c, s))
            | Raise e => (Raises e, (c, s))
            end
        | (Raises e, s) => (Raises e, (c, s))
        | (OutOfFuel, s) => (OutOfFuel, (c, s))
        end
  end.

(** [try: ... except Exception as e: print(...)] *)
Definition iteration (cs : Session) : outcome Step * Session :=
  match attempt cs with
  | (Raises e, (c, s)) => (Returns Continue, (print (error_line e) c, s))
  | other => other
  end.

(** [while True: ...] *)
Fixpoint iterations (fuel : nat) (cs : Session) : outcome unit * Session :=
  match fuel with
  | O => (OutOfFuel, cs)
  | S fuel' =>
      match iteration cs with
      | (Returns Break, cs') => (Returns tt, cs')
      | (Returns Continue, cs') => iterations fuel' cs'
      | (Raises e, cs') => (Raises e, cs')
      | (OutOfFuel, cs') => (OutOfFuel, cs')
      end
  end.

Definition chat_loop (fuel : nat) (cs : Session) : outcome unit * Session :=
  iterations fuel (print banner (fst cs), snd cs).

(** What the loop writes once a query has run. *)
Definition report (o : outcome (option string)) : list string :=
  match o with
  | Returns (Some text) =>
      [String.append (String.append newline (String.append "Answer: " text))
                     newline]
  | Returns None =>
      match answer_line None with
      | Raise e => [String.append (error_line e) newline]
      | Ok _ => []
      end
  | Raises e => [String.append (error_line e) newline]
  | OutOfFuel => []
  end.

(** The queries run one after the other: what is written for them, and
    the state after the last. *)
Fixpoint run_queries (queries : list string) (s : state W Req Msg)
  : list string * state W Req Msg :=
  match queries with
  | [] => ([], s)
  | query :: more =>
      let (written, s') := run_queries more (snd (process_query query s)) in
      (prompt :: report (fst (process_query query s)) ++ written, s')
  end.

(** A line that ends the loop. *)
Definition quits (line : string) : bool := String.eqb (lower (strip line)) "quit".
End Loop.

(** The two chat loops. *)
Definition openai_mark : string :=
  String (ascii_of_nat 226)
    (String (ascii_of_nat 157) (String (ascii_of_nat 140) EmptyString)).

Definition openai_chat_loop {W} {E : Env W OpenAI.Request OpenAI.Response}
           (model system_prompt : string) (strip lower : string -> string) :=
  chat_loop (fun query => OpenAI.process_query model system_prompt query 5)
            strip lower
            (String.append newline
               "MCP OpenAI Client Started! Type your queries or 'quit' to exit.")
            openai_mark.

Definition gemini_mark : string :=
  String (ascii_of_nat 195)
    (String (ascii_of_nat 162)
       (String (ascii_of_nat 197) (String (ascii_of_nat 146) EmptyString))).

Definition gemini_chat_loop {W} {E : Env W Google.Request Google.Response}
           (model system_instruction : string) (strip lower : string -> string) :=
  chat_loop (fun query => Google.process_query model system_instruction query 5)
            strip lower
            (String.append newline
               "MCP Gemini Client Started! Type your queries or 'quit' to exit.")
            gemini_mark.

(** [str.lower] and [str.strip] on ASCII text, for the scripted sessions. *)
Definition lower_char (c : ascii) : ascii :=
  let n := nat_of_ascii c in
  if (65 <=? n)%nat && (n <=? 90)%nat then ascii_of_nat (n + 32) else c.

Fixpoint ascii_lower (s : string) : string :=
  match s with
  | EmptyString => EmptyString
  | String c r => String (lower_char c) (ascii_lower r)
  end.

Definition is_space (c : ascii) : bool :=
  let n := nat_of_ascii c in
  (n =? 32)%nat || ((9 <=? n)%nat && (n <=? 13)%nat).

Fixpoint lstrip (s : string) : string :=
  match s with
  | EmptyString => EmptyString
  | String c r => if is_space c then lstrip r else s
  end.

Fixpoint rstrip (s : string) : string :=
  match s with
  | EmptyString => EmptyString
  | String c r =>
      match rstrip r with
      | EmptyString => if is_space c then EmptyString else String c EmptyString
      | kept => String c kept
      end
  end.

Definition ascii_strip (s : string) : string := rstrip (lstrip s).

(** A session of two queries: the model answers the first, and its
    message for the second has no content. *)
Definition two_query_world : Scripted.World OpenAI.Response :=
  {| Scripted.catalog := [];
     Scripted.responses := [Scripted.openai_reply (Some "Found 3 users") None;
                            Scripted.openai_reply None None];
     Scripted.results := [] |}.

Definition two_query_console : Console :=
  {| stdin := ["  Who lives in Pune? "; "And in Delhi?"; " Quit"; "never read"];
     stdout := [] |}.

End Chat.

(* ================================================================== *)
(** * Properties of the server                                         *)
(* ================================================================== *)

Section ServerProperties.
Import Server.
Context {DB : Database}.
Variable MONGODB_CONNECTION_STRING : string.

Lemma convert_objectids_free (v : pyval) :
  objectid_free (convert_objectids v) = true.
Proof.
  induction v using pyval_nested_ind; simpl; try reflexivity.
  - rewrite forallb_forall. intros x Hx.
    apply in_map_iff in Hx. destruct Hx as [y [<- Hy]].
    rewrite Forall_forall in H. now apply H.
  - rewrite forallb_forall. intros x Hx.
    apply in_map_iff in Hx. destruct Hx as [[k y] [<- Hy]]. simpl.
    rewrite Forall_forall in H. now apply (H (k, y)).
Qed.

Lemma convert_objectids_shape (v : pyval) :
  shape_of (convert_objectids v) = shape_of v.
Proof.
  induction v using pyval_nested_ind; simpl; try reflexivity.
  - f_equal. rewrite map_map. apply map_ext_in. intros x Hx.
    rewrite Forall_forall in H. now apply H.
  - f_equal. rewrite map_map. apply map_ext_in. intros [k x] Hx. simpl.
    f_equal. rewrite Forall_forall in H. now apply (H (k, x)).
Qed.

Lemma pdict_get_convert (d : list (string * pyval)) (k : string) :
  pdict_get (map (fun kv => (fst kv, convert_objectids (snd kv))) d) k
  = option_map convert_objectids (pdict_get d k).
Proof.
  induction d as [|[k' x] d IH]; simpl; [reflexivity|].
  destruct (String.eqb k k'); [reflexivity | exact IH].
Qed.

Lemma at_path_convert (path : list step) (v : pyval) :
  at_path path (convert_objectids v)
  = option_map convert_objectids (at_path path v).
Proof.
  revert v. induction path as [|[i|k] path IH]; intros v; simpl.
  - reflexivity.
  - destruct v; simpl; try reflexivity.
    rewrite nth_error_map. destruct (nth_error l i); simpl; [apply IH | reflexivity].
  - destruct v; simpl; try reflexivity.
    rewrite pdict_get_convert. destruct (pdict_get d k); simpl; [apply IH | reflexivity].
Qed.

Lemma reraise_objectid_free (r : result pyval) :
  returns_objectid_free r -> returns_objectid_free (reraise r).
Proof.
  destruct r as [v|e]; simpl; auto.
  destruct (String.eqb _ _); [|destruct (String.eqb _ _)]; simpl; auto.
Qed.

Lemma run_query_objectid_free cursor n spec :
  returns_objectid_free (run_query cursor n spec).
Proof.
  unfold run_query. destruct (list_cursor _) as [docs|e]; simpl; auto.
  exact (convert_objectids_free (PList docs)).
Qed.

(** C9. [convert_objectids] gives a value of the same shape (nesting,
    list lengths and order, dictionary keys) in which no [ObjectId] is
    left; wherever the input has an [ObjectId] the output has its text,
    wherever it has another leaf the output has that leaf, and where a
    path leads nowhere in the input it leads nowhere in the output.  So
    the list each query tool returns holds no [ObjectId]. *)
Theorem convert_objectids_replaces_every_objectid (v : pyval) :
  objectid_free (convert_objectids v) = true
  /\ shape_of (convert_objectids v) = shape_of v
  /\ (forall path,
        match at_path path v with
        | Some (PObjectId o) =>
            at_path path (convert_objectids v) = Some (PStr (oid_hex o))
        | Some (PList l) =>
            at_path path (convert_objectids v)
            = Some (PList (map convert_objectids l))
        | Some (PDict d) =>
            at_path path (convert_objectids v)
            = Some (PDict (map (fun kv => (fst kv, convert_objectids (snd kv))) d))
        | Some leaf => at_path path (convert_objectids v) = Some leaf
        | None => at_path path (convert_objectids v) = None
        end)
  /\ (forall query collection database connection projection limit sort,
        returns_objectid_free
          (execute_mongodb_query query collection database connection
                                 projection limit sort))
  /\ (forall city projection limit sort,
        returns_objectid_free
          (get_users_by_city MONGODB_CONNECTION_STRING city projection
                             limit sort))
  /\ (forall database collection n,
        returns_objectid_free
          (get_mongodb_sample_documents MONGODB_CONNECTION_STRING
                                        database collection n)).
Proof.
  split; [apply convert_objectids_free|].
  split; [apply convert_objectids_shape|].
  split.
  { intros path. rewrite at_path_convert.
    destruct (at_path path v) as [x|]; [|reflexivity].
    destruct x; reflexivity. }
  split; [|split].
  - intros. apply reraise_objectid_free, run_query_objectid_free.
  - intros. apply reraise_objectid_free, run_query_objectid_free.
  - intros. unfold get_mongodb_sample_documents.
    destruct (list_cursor _) as [docs|e]; simpl; auto.
    exact (convert_objectids_free (PList docs)).
Qed.

Lemma run_query_falsy_limit connection database collection query projection
      spec (n : option Z) :
  n = None \/ n = Some 0%Z ->
  reraise (run_query (find connection database collection query projection)
                     n spec)
  = all_matching connection database collection query projection spec.
Proof.
  intros Hn. unfold all_matching, run_query, list_cursor. f_equal.
  assert (Hl : apply_limit n (apply_sort spec
                 (find connection database collection query projection))
               = apply_sort spec
                   (find connection database collection query projection))
    by (destruct Hn as [-> | ->]; reflexivity).
  rewrite Hl.
  destruct spec as [[|p s]|]; simpl;
    destruct (matching _ _ _ _ _); reflexivity.
Qed.

(** C10. With [limit = 0] and with [limit = None] both query tools
    return every matching document (ordered by [sort] when it is given,
    and converted): the limit is set on the cursor only when the
    argument is truthy. *)
Theorem falsy_limit_returns_every_match
        (query : json) (collection database connection city : string)
        (projection : option json) (sort : option (list (string * Z))) :
  execute_mongodb_query query collection database connection projection
                        (Some 0%Z) sort
  = all_matching connection database collection query projection sort
  /\ execute_mongodb_query query collection database connection projection
                           None sort
     = all_matching connection database collection query projection sort
  /\ get_users_by_city MONGODB_CONNECTION_STRING city projection
                       (Some 0%Z) sort
     = all_matching MONGODB_CONNECTION_STRING "UsersDB" "users"
         (JDict [("address.city",
                  JDict [("$regex", JStr city); ("$options", JStr "i")])])
         projection sort
  /\ get_users_by_city MONGODB_CONNECTION_STRING city projection None sort
     = all_matching MONGODB_CONNECTION_STRING "UsersDB" "users"
         (JDict [("address.city",
                  JDict [("$regex", JStr city); ("$options", JStr "i")])])
         projection sort.
Proof.
  unfold execute_mongodb_query, get_users_by_city.
  repeat split; apply run_query_falsy_limit; auto.
Qed.
End ServerProperties.

(* ================================================================== *)
(** * Properties of the schema normalization                           *)
(* ================================================================== *)

Section SchemaProperties.
Import Schema.

(** Induction over a schema that also reaches the alternatives of a list
    stored under a key, as the union case of the cleaning needs. *)
Lemma json_deep_ind (P : json -> Prop) :
  P JNull -> (forall b, P (JBool b)) -> (forall n, P (JNum n)) ->
  (forall s, P (JStr s)) ->
  (forall l, Forall P l -> P (JList l)) ->
  (forall d,
      Forall (fun kv => P (snd kv)
                        /\ match snd kv with
                           | JList options => Forall P options
                           | _ => True
                           end) d ->
      P (JDict d)) ->
  forall j, P j.
Proof.
  intros HN HB HZ HS HL HD.
  assert (deep : forall j,
             P j /\ match j with JList options => Forall P options | _ => True end).
  { induction j using json_nested_ind.
    - split; auto.
    - split; auto.
    - split; auto.
    - split; auto.
    - assert (Hl : Forall P l)
        by (eapply Forall_impl; [|exact H]; intros a [Ha _]; exact Ha).
      split; auto.
    - split; auto. }
  intros j. apply deep.
Qed.

Lemma dict_set_entries (d : dict) (k : string) (v : json) (k' : string) (v' : json) :
  In (k', v') (dict_set d k v) -> In (k', v') d \/ (k' = k /\ v' = v).
Proof.
  induction d as [|[k0 v0] d IH]; simpl.
  - intros [H|[]]. inversion H. auto.
  - destruct (String.eqb k k0) eqn:Hk; simpl.
    + apply String.eqb_eq in Hk. subst k0.
      intros [H|H]; [inversion H; auto | auto].
    + intros [H|H]; [auto|]. destruct (IH H); auto.
Qed.

Lemma clean_items_cons (rec : json -> result json) key value rest cleaned :
  clean_items rec ((key, value) :: rest) cleaned
  = if str_in key unsupported_fields then clean_items rec rest cleaned
    else if is_union_key key then
      match value with
      | JList options =>
          scan_options rec (clean_items rec rest cleaned) options
      | JStr _ | JDict _ => clean_items rec rest cleaned
      | JNull => Raise (TypeError "'NoneType' object is not iterable")
      | JBool _ => Raise (TypeError "'bool' object is not iterable")
      | JNum _ => Raise (TypeError "'int' object is not iterable")
      end
    else
      match rec value with
      | Ok v => clean_items rec rest (dict_set cleaned key v)
      | Raise e => Raise e
      end.
Proof. reflexivity. Qed.

Lemma scan_options_cons {A} (rec : json -> A) otherwise option more :
  scan_options rec otherwise (option :: more)
  = if non_null_dict option then rec option
    else scan_options rec otherwise more.
Proof. reflexivity. Qed.

Lemma removed_key_split (k : string) :
  str_in k removed_keys = str_in k unsupported_fields || is_union_key k.
Proof.
  unfold removed_keys, str_in, is_union_key. rewrite existsb_app. simpl.
  now rewrite !orb_false_r.
Qed.

(** What the loop over the items of a dictionary returns: a dictionary
    whose entries were in [cleaned] or are a kept key with its cleaned
    value, or the cleaning of a non-null alternative of a union. *)
Lemma clean_items_result (rec : json -> result json) (items : dict) :
  forall (cleaned : dict) (r : json),
    clean_items rec items cleaned = Ok r ->
    (exists cleaned',
        r = JDict cleaned'
        /\ forall k v, In (k, v) cleaned' ->
             In (k, v) cleaned
             \/ (str_in k removed_keys = false
                 /\ exists v0, In (k, v0) items /\ rec v0 = Ok v))
    \/ (exists k options o,
           In (k, JList options) items /\ In o options
           /\ non_null_dict o = true /\ rec o = Ok r).
Proof.
  induction items as [|[key value] rest IH]; intros cleaned r.
  - simpl. intros H. inversion H. left. exists cleaned. split; auto.
  - rewrite clean_items_cons.
    assert (Hrest : forall c, clean_items rec rest c = Ok r ->
              (exists cleaned',
                  r = JDict cleaned'
                  /\ forall k v, In (k, v) cleaned' ->
                       In (k, v) c
                       \/ (str_in k removed_keys = false
                           /\ exists v0, In (k, v0) ((key, value) :: rest)
                                         /\ rec v0 = Ok v))
              \/ (exists k options o,
                     In (k, JList options) ((key, value) :: rest) /\ In o options
                     /\ non_null_dict o = true /\ rec o = Ok r)).
    { intros c Hc. destruct (IH c r Hc) as [[c' [-> Hc']]|[k [os [o [H1 H2]]]]].
      - left. exists c'. split; auto. intros k v Hkv.
        destruct (Hc' k v Hkv) as [?|[? [v0 [? ?]]]]; auto.
        right. split; auto. exists v0. simpl. auto.
      - right. exists k, os, o. simpl. tauto. }
    destruct (str_in key unsupported_fields) eqn:Hu; [apply Hrest|].
    destruct (is_union_key key) eqn:Hk.
    + destruct value as [| | | |options|]; try discriminate; try apply Hrest.
      assert (Hscan : forall seen,
                 (forall o, In o seen -> In o options) ->
                 scan_options rec (clean_items rec rest cleaned) seen = Ok r ->
                 (exists cleaned',
                     r = JDict cleaned'
                     /\ forall k v, In (k, v) cleaned' ->
                          In (k, v) cleaned
                          \/ (str_in k removed_keys = false
                              /\ exists v0, In (k, v0) ((key, JList options) :: rest)
                                            /\ rec v0 = Ok v))
                 \/ (exists k os o,
                        In (k, JList os) ((key, JList options) :: rest) /\ In o os
                        /\ non_null_dict o = true /\ rec o = Ok r)).
      { induction seen as [|o seen IHs]; intros Hin.
        - simpl. apply Hrest.
        - rewrite scan_options_cons. destruct (non_null_dict o) eqn:Ho.
          + intros Hr. right. exists key, options, o.
            split; [left; reflexivity|].
            split; [apply Hin; left; reflexivity|]. auto.
          + apply IHs. intros o' Ho'. apply Hin. right. exact Ho'. }
      apply Hscan. auto.
    + destruct (rec value) as [v'|e] eqn:Hv; try discriminate.
      intros Hc. destruct (Hrest _ Hc) as [[c' [-> Hc']]|?]; [|auto].
      left. exists c'. split; auto. intros k v Hkv.
      destruct (Hc' k v Hkv) as [Hin|?]; auto.
      destruct (dict_set_entries _ _ _ _ _ Hin) as [?|[-> ->]]; auto.
      right. split.
      * rewrite removed_key_split, Hu, Hk. reflexivity.
      * exists value. simpl. auto.
Qed.

Lemma clean_list_result (rec : json -> result json) (l : list json) :
  forall rs, clean_list rec l = Ok rs -> Forall2 (fun x r => rec x = Ok r) l rs.
Proof.
  induction l as [|x l IH]; simpl; intros rs.
  - intros H. inversion H. constructor.
  - destruct (rec x) as [v|e] eqn:Hx; try discriminate.
    destruct (clean_list rec l) as [vs|e]; try discriminate.
    intros H. inversion H. constructor; auto.
Qed.

Lemma non_null_dict_is_dict (o : json) :
  non_null_dict o = true -> exists d, o = JDict d.
Proof. destruct o; simpl; try discriminate. eauto. Qed.

(** Cleaning a dictionary gives a dictionary. *)
Lemma clean_dict_is_dict (j : json) :
  forall d r, j = JDict d -> clean_schema_recursive j = Ok r ->
              exists d', r = JDict d'.
Proof.
  induction j using json_deep_ind; intros d0 r Hj; try discriminate.
  inversion Hj; subst d0. simpl. intros Hc.
  destruct (clean_items_result _ _ _ Hc) as [[c' [-> _]]|[k [os [o [Hin [Ho [Hn Hr]]]]]]].
  - eauto.
  - rewrite Forall_forall in H. destruct (H _ Hin) as [_ Hos]. simpl in Hos.
    rewrite Forall_forall in Hos.
    destruct (non_null_dict_is_dict _ Hn) as [od ->].
    eapply Hos; eauto.
Qed.

(** No removed key is left at any depth of a cleaned schema. *)
Lemma clean_key_free (j : json) :
  forall r, clean_schema_recursive j = Ok r -> key_free removed_keys r = true.
Proof.
  induction j using json_deep_ind; simpl; intros r Hc;
    try (inversion Hc; reflexivity).
  - destruct (clean_list clean_schema_recursive l) as [rs|e] eqn:Hl; try discriminate.
    inversion Hc. simpl. apply clean_list_result in Hl.
    clear Hc H1. induction Hl as [|x v l rs Hx Hl IH]; simpl; [reflexivity|].
    inversion H as [|? ? Px Pl]; subst. rewrite (Px _ Hx). simpl. auto.
  - destruct (clean_items_result _ _ _ Hc) as [[c' [-> Hc']]|[k [os [o [Hin [Ho [Hn Hr]]]]]]].
    + cbn [key_free]. apply forallb_forall. intros [k v] Hkv.
      destruct (Hc' k v Hkv) as [[]|[Hk [v0 [Hin Hv]]]]. cbn [fst snd].
      rewrite Hk. cbn [negb andb].
      rewrite Forall_forall in H. destruct (H _ Hin) as [Hv0 _]. auto.
    + rewrite Forall_forall in H. destruct (H _ Hin) as [_ Hos]. simpl in Hos.
      rewrite Forall_forall in Hos. eapply Hos; eauto.
Qed.
Lemma key_free_subset (ks ks' : list string) :
  (forall k, str_in k ks' = true -> str_in k ks = true) ->
  forall j, key_free ks j = true -> key_free ks' j = true.
Proof.
  intros Hsub. induction j using json_nested_ind; simpl; auto.
  - rewrite !forallb_forall. intros Hl x Hx.
    rewrite Forall_forall in H. auto.
  - rewrite !forallb_forall. intros Hd kv Hkv.
    specialize (Hd kv Hkv). apply andb_true_iff in Hd. destruct Hd as [Hk Hv].
    apply andb_true_iff. split.
    + destruct (str_in (fst kv) ks') eqn:Hk'; [|reflexivity].
      rewrite (Hsub _ Hk') in Hk. discriminate.
    + rewrite Forall_forall in H. auto.
Qed.

Lemma union_key_removed (k : string) :
  str_in k union_keys = true -> str_in k removed_keys = true.
Proof.
  intros H. rewrite removed_key_split.
  replace (is_union_key k) with (str_in k union_keys).
  - rewrite H. apply orb_true_r.
  - unfold str_in, union_keys, is_union_key. simpl. now rewrite orb_false_r.
Qed.

Lemma union_key_supported (k : string) :
  is_union_key k = true -> str_in k unsupported_fields = false.
Proof.
  unfold is_union_key, str_in, unsupported_fields. simpl.
  intros H. apply orb_true_iff in H.
  destruct H as [H|H]; apply String.eqb_eq in H; subst k; reflexivity.
Qed.

(** A schema whose union values can all be iterated over is cleaned
    without an exception. *)
Lemma clean_total (j : json) :
  iterable_unions j = true -> exists r, clean_schema_recursive j = Ok r.
Proof.
  induction j using json_deep_ind; simpl; intros Hj; eauto.
  - assert (Hl : exists rs, clean_list clean_schema_recursive l = Ok rs).
    { induction l as [|x l IHl]; simpl; [eauto|].
      simpl in Hj. apply andb_true_iff in Hj. destruct Hj as [Hx Hl].
      inversion H as [|? ? Px Pl]; subst.
      destruct (Px Hx) as [v ->]. destruct (IHl Pl Hl) as [vs ->]. eauto. }
    destruct Hl as [rs ->]. eauto.
  - generalize (@nil (string * json)) as cleaned.
    induction d as [|[key value] rest IHd]; intros cleaned; [simpl; eauto|].
    rewrite clean_items_cons.
    simpl in Hj. apply andb_true_iff in Hj. destruct Hj as [Hkv Hrest].
    apply andb_true_iff in Hkv. destruct Hkv as [Hit Hval].
    inversion H as [|? ? [Pv Po] Pr]; subst. simpl in Pv, Po.
    specialize (IHd Pr Hrest).
    destruct (str_in key unsupported_fields); [apply IHd|].
    destruct (is_union_key key).
    + destruct value as [| | | |options|]; try discriminate; try apply IHd.
      simpl in Hval. clear Hit Pv H.
      induction options as [|o options IHo]; [simpl; apply IHd|].
      rewrite scan_options_cons. simpl in Hval.
      apply andb_true_iff in Hval. destruct Hval as [Ho Hos].
      inversion Po as [|? ? Pa Pb]; subst.
      destruct (non_null_dict o); [apply Pa, Ho | apply IHo; auto].
    + destruct (Pv Hval) as [v ->]. apply IHd.
Qed.

(** The cleaning of a dictionary in which a union key, with no union key
    before it, lists a non-null dictionary after alternatives that are
    none: the cleaning of that alternative. *)
Lemma clean_items_union (rec : json -> result json)
      (before after : dict) (key : string) (nulls rest : list json)
      (branch : json) :
  is_union_key key = true ->
  (forall k v, In (k, v) before -> is_union_key k = false) ->
  (forall k v, In (k, v) before -> exists v', rec v = Ok v') ->
  Forall (fun o => non_null_dict o = false) nulls ->
  non_null_dict branch = true ->
  forall cleaned,
    clean_items rec (before ++ (key, JList (nulls ++ branch :: rest)) :: after)
                cleaned
    = rec branch.
Proof.
  intros Hkey Hbefore Hrec Hnulls Hbranch.
  induction before as [|[k v] before IH]; intros cleaned.
  - simpl app. rewrite clean_items_cons.
    rewrite (union_key_supported _ Hkey), Hkey.
    induction Hnulls as [|o nulls Ho Hnulls IHn].
    + simpl app. rewrite scan_options_cons, Hbranch. reflexivity.
    + simpl app. rewrite scan_options_cons, Ho. exact IHn.
  - simpl app. rewrite clean_items_cons.
    assert (IH' : forall c,
               clean_items rec
                 (before ++ (key, JList (nulls ++ branch :: rest)) :: after) c
               = rec branch).
    { apply IH; intros k0 v0 Hin; [eapply Hbefore | eapply Hrec]; right; exact Hin. }
    destruct (str_in k unsupported_fields); [apply IH'|].
    rewrite (Hbefore k v (or_introl eq_refl)).
    destruct (Hrec k v (or_introl eq_refl)) as [v' ->]. apply IH'.
Qed.

Lemma iterable_unions_entry (d : dict) (k : string) (v : json) :
  iterable_unions (JDict d) = true -> In (k, v) d -> iterable_unions v = true.
Proof.
  simpl. rewrite forallb_forall. intros H Hin.
  specialize (H _ Hin). apply andb_true_iff in H. apply H.
Qed.

Lemma parameters_of_whitelisted (inputSchema parameters : dict) :
  Schema.parameters_of inputSchema = Ok parameters ->
  (forall k, In k (dict_keys parameters) -> str_in k whitelist = true)
  /\ key_free removed_keys (JDict parameters) = true.
Proof.
  unfold parameters_of.
  destruct (clean_schema_recursive (JDict inputSchema)) as [r|e] eqn:Hc;
    try discriminate.
  pose proof (clean_key_free _ Hc) as Hfree.
  destruct r; try discriminate. intros H. inversion H; subst. split.
  - intros k Hk. unfold dict_keys in Hk. apply in_map_iff in Hk.
    destruct Hk as [[k' v] [<- Hin]]. apply filter_In in Hin. apply Hin.
  - cbn [key_free] in *. rewrite forallb_forall in *.
    intros kv Hin. apply filter_In in Hin. apply Hfree, Hin.
Qed.

End SchemaProperties.

(* ================================================================== *)
(** * Properties of the effects                                        *)
(* ================================================================== *)

Lemma prefix_of_refl {A} (l : list A) : prefix_of l l.
Proof. exists []. now rewrite app_nil_r. Qed.

Lemma prefix_of_trans {A} (l1 l2 l3 : list A) :
  prefix_of l1 l2 -> prefix_of l2 l3 -> prefix_of l1 l3.
Proof. intros [k ->] [k' ->]. exists (k ++ k'). now rewrite app_assoc. Qed.

Lemma prefix_of_app {A} (l k : list A) : prefix_of l (l ++ k).
Proof. now exists k. Qed.

Lemma model_calls_app {Req} (t1 t2 : list (event Req)) :
  model_calls (t1 ++ t2) = model_calls t1 + model_calls t2.
Proof. unfold model_calls. now rewrite filter_app, length_app. Qed.

Lemma tool_calls_of_app {Req} (t1 t2 : list (event Req)) :
  tool_calls_of (t1 ++ t2) = tool_calls_of t1 ++ tool_calls_of t2.
Proof.
  induction t1 as [|e t1 IH]; simpl; [reflexivity|].
  destruct e; simpl; now rewrite IH.
Qed.

Section EffectsProperties.
Context {W Req Resp Msg : Type} {E : Env W Req Resp}.

Local Abbreviation M := (@M W Req Msg).

(** ** Append-only conversations *)

Lemma append_only_ret {A} (a : A) : append_only (ret a : M A).
Proof. intros s. apply prefix_of_refl. Qed.

Lemma append_only_raise {A} (e : exn) : append_only (raise e : M A).
Proof. intros s. apply prefix_of_refl. Qed.

Lemma append_only_out_of_fuel {A} : append_only (out_of_fuel : M A).
Proof. intros s. apply prefix_of_refl. Qed.

Lemma append_only_lift {A} (r : result A) : append_only (lift r : M A).
Proof. intros s. apply prefix_of_refl. Qed.

Lemma append_only_conversation : append_only (conversation : M (list Msg)).
Proof. intros s. apply prefix_of_refl. Qed.

Lemma append_only_append_turn (m : Msg) : append_only (append_turn m : M unit).
Proof. intros s. apply prefix_of_app. Qed.

Lemma append_only_do_generate (rq : Req) : append_only (do_generate rq : M Resp).
Proof.
  intros s. unfold do_generate. destruct (generate (world s) rq). apply prefix_of_refl.
Qed.

Lemma append_only_do_call_tool name args :
  append_only (do_call_tool name args : M CallToolResult).
Proof.
  intros s. unfold do_call_tool. destruct (call_tool (world s) name args).
  apply prefix_of_refl.
Qed.

Lemma append_only_do_list_tools : append_only (do_list_tools : M (list Tool)).
Proof.
  intros s. unfold do_list_tools. destruct (list_tools (world s)).
  apply prefix_of_refl.
Qed.

Lemma append_only_bind {A B} (m : M A) (f : A -> M B) :
  append_only m -> (forall a, append_only (f a)) -> append_only (bind m f).
Proof.
  intros Hm Hf s. unfold bind. specialize (Hm s).
  destruct (m s) as [[a|e|] s1]; simpl in *; auto.
  eapply prefix_of_trans; [exact Hm | apply Hf].
Qed.

Lemma append_only_try_except {A} (m : M A) (h : exn -> M A) :
  append_only m -> (forall e, append_only (h e)) -> append_only (try_except m h).
Proof.
  intros Hm Hh s. unfold try_except. specialize (Hm s).
  destruct (m s) as [[a|e|] s1]; simpl in *; auto.
  eapply prefix_of_trans; [exact Hm | apply Hh].
Qed.

Lemma append_only_for_each {A} (l : list A) (body : A -> M unit) :
  (forall x, append_only (body x)) -> append_only (for_each l body).
Proof.
  intros Hb. induction l as [|x l IH]; simpl.
  - apply append_only_ret.
  - apply append_only_bind; auto.
Qed.

(** ** Bounded numbers of model calls *)

Lemma bounded_pure {A} (m : M A) (n : nat) :
  (forall s, fst (m s) <> OutOfFuel /\ trace (snd (m s)) = trace s) ->
  bounded n m.
Proof.
  intros H s. destruct (H s) as [H1 H2]. split; [exact H1|].
  exists []. rewrite app_nil_r. split; [exact H2 | apply Nat.le_0_l].
Qed.

Lemma bounded_ret {A} (a : A) n : bounded n (ret a : M A).
Proof. apply bounded_pure. intros s. simpl. split; [discriminate | reflexivity]. Qed.

Lemma bounded_raise {A} (e : exn) n : bounded n (raise e : M A).
Proof. apply bounded_pure. intros s. simpl. split; [discriminate | reflexivity]. Qed.

Lemma bounded_lift {A} (r : result A) n : bounded n (lift r : M A).
Proof.
  apply bounded_pure. intros s. simpl.
  split; [destruct r; discriminate | reflexivity].
Qed.

Lemma bounded_conversation n : bounded n (conversation : M (list Msg)).
Proof. apply bounded_pure. intros s. simpl. split; [discriminate | reflexivity]. Qed.

Lemma bounded_append_turn (m : Msg) n : bounded n (append_turn m : M unit).
Proof. apply bounded_pure. intros s. simpl. split; [discriminate | reflexivity]. Qed.

Lemma bounded_new_conversation (l : list Msg) n :
  bounded n (new_conversation l : M unit).
Proof. apply bounded_pure. intros s. simpl. split; [discriminate | reflexivity]. Qed.

Lemma bounded_do_generate (rq : Req) n :
  1 <= n -> bounded n (do_generate rq : M Resp).
Proof.
  intros Hn s. unfold do_generate. destruct (generate (world s) rq) as [r w].
  simpl. split; [destruct r; discriminate|].
  exists [EvModel rq]. split; [reflexivity | exact Hn].
Qed.

Lemma bounded_do_call_tool name args n :
  bounded n (do_call_tool name args : M CallToolResult).
Proof.
  intros s. unfold do_call_tool. destruct (call_tool (world s) name args) as [r w].
  simpl. split; [destruct r; discriminate|].
  exists [EvTool name args]. split; [reflexivity | apply Nat.le_0_l].
Qed.

Lemma bounded_do_list_tools n : bounded n (do_list_tools : M (list Tool)).
Proof.
  intros s. unfold do_list_tools. destruct (list_tools (world s)) as [r w].
  simpl. split; [destruct r; discriminate|].
  exists [EvListTools]. split; [reflexivity | apply Nat.le_0_l].
Qed.

Lemma bounded_bind {A B} (m : M A) (f : A -> M B) (n k : nat) :
  bounded n m -> (forall a, bounded k (f a)) -> bounded (n + k) (bind m f).
Proof.
  intros Hm Hf s. unfold bind. destruct (Hm s) as [Ho [new [Ht Hc]]].
  destruct (m s) as [[a|e|] s1]; simpl in *.
  - destruct (Hf a s1) as [Ho' [new' [Ht' Hc']]]. split; [exact Ho'|].
    exists (new ++ new'). rewrite Ht', Ht, app_assoc. split; [reflexivity|].
    rewrite model_calls_app. lia.
  - split; [discriminate|]. exists new. split; [exact Ht | lia].
  - contradiction.
Qed.

Lemma bounded_weaken {A} (m : M A) (n k : nat) :
  n <= k -> bounded n m -> bounded k m.
Proof.
  intros Hnk Hm s. destruct (Hm s) as [Ho [new [Ht Hc]]].
  split; [exact Ho|]. exists new. split; [exact Ht | lia].
Qed.

Lemma bounded_try_except {A} (m : M A) (h : exn -> M A) (n k : nat) :
  bounded n m -> (forall e, bounded k (h e)) -> bounded (n + k) (try_except m h).
Proof.
  intros Hm Hh s. unfold try_except. destruct (Hm s) as [Ho [new [Ht Hc]]].
  destruct (m s) as [[a|e|] s1]; simpl in *.
  - split; [discriminate|]. exists new. split; [exact Ht | lia].
  - destruct (Hh e s1) as [Ho' [new' [Ht' Hc']]]. split; [exact Ho'|].
    exists (new ++ new'). rewrite Ht', Ht, app_assoc. split; [reflexivity|].
    rewrite model_calls_app. lia.
  - contradiction.
Qed.

Lemma bounded_for_each {A} (l : list A) (body : A -> M unit) :
  (forall x, bounded 0 (body x)) -> bounded 0 (for_each l body).
Proof.
  intros Hb. induction l as [|x l IH]; simpl.
  - apply bounded_ret.
  - apply bounded_bind with (n := 0) (k := 0); auto.
Qed.
End EffectsProperties.

(* ================================================================== *)
(** * Properties of the OpenAI client                                  *)
(* ================================================================== *)

Section OpenAIProperties.
Import OpenAI.
Context {W : Type} {E : Env W Request Response}.
Variable model : string.
Variable system_prompt : string.

Local Abbreviation state := (state W Request Message).

(** A tool call whose arguments are not read: the host is not called and
    the message of the error is the tool message. *)
Lemma openai_tool_call_parse_error (tool_call : ToolCall) (s : state) (e : exn) :
  json_loads (tc_arguments tool_call) = Raise e ->
  run_tool_call tool_call s
  = (Returns tt,
     {| world := world s; trace := trace s;
        transcript :=
          transcript s
          ++ [MTool (tc_id tool_call)
                (String.append "Error executing tool: " (exc_msg e))] |}).
Proof.
  intros He. unfold run_tool_call, try_except, bind, lift. rewrite He.
  reflexivity.
Qed.

(** A tool call the host answers with text blocks: the joined text is the
    tool message, whatever the error flag of the answer. *)
Lemma openai_tool_call_answered (tool_call : ToolCall) (s : state)
      (arguments : json) (result : CallToolResult) (w : W) (text : string) :
  json_loads (tc_arguments tool_call) = Ok arguments ->
  call_tool (world s) (tc_name tool_call) arguments = (Ok result, w) ->
  join_text (content result) "" = Ok text ->
  run_tool_call tool_call s
  = (Returns tt,
     {| world := w;
        trace := trace s ++ [EvTool (tc_name tool_call) arguments];
        transcript := transcript s ++ [MTool (tc_id tool_call) text] |}).
Proof.
  intros Ha Hc Ht.
  unfold run_tool_call, try_except, bind, lift, do_call_tool.
  rewrite Ha. simpl. rewrite Hc. simpl. rewrite Ht. reflexivity.
Qed.

(** Every tool call ends with exactly one tool message, tagged with the
    id of the call, and with at most the one call of the host. *)
Lemma openai_tool_call_spec (tool_call : ToolCall) (s : state) :
  exists text w evs,
    run_tool_call tool_call s
    = (Returns tt,
       {| world := w; trace := trace s ++ evs;
          transcript := transcript s ++ [MTool (tc_id tool_call) text] |})
    /\ tool_calls_of evs = host_calls [tool_call]
    /\ model_calls evs = 0.
Proof.
  unfold host_calls. simpl. rewrite app_nil_r.
  destruct (json_loads (tc_arguments tool_call)) as [arguments|e] eqn:Ha.
  - unfold run_tool_call, try_except, bind, lift, do_call_tool.
    rewrite Ha. simpl.
    destruct (call_tool (world s) (tc_name tool_call) arguments) as [[result|e] w].
    + simpl. destruct (join_text (content result) "") as [text|e]; simpl;
        eexists _, w, [EvTool (tc_name tool_call) arguments]; repeat split.
    + simpl. eexists _, w, [EvTool (tc_name tool_call) arguments]; repeat split.
  - rewrite (openai_tool_call_parse_error _ _ Ha).
    eexists _, (world s), []. rewrite app_nil_r. repeat split.
Qed.

Lemma openai_tool_calls_spec (tool_calls : list ToolCall) :
  forall s : state,
  exists texts w evs,
    for_each tool_calls run_tool_call s
    = (Returns tt,
       {| world := w; trace := trace s ++ evs;
          transcript := transcript s ++ tool_messages tool_calls texts |})
    /\ List.length texts = List.length tool_calls
    /\ tool_calls_of evs = host_calls tool_calls
    /\ model_calls evs = 0.
Proof.
  induction tool_calls as [|tool_call more IH]; intros s.
  - exists [], (world s), []. simpl. rewrite !app_nil_r. destruct s. repeat split.
  - destruct (openai_tool_call_spec tool_call s) as [text [w1 [ev1 [H1 [Hc1 Hm1]]]]].
    cbn [for_each]. unfold bind at 1. rewrite H1.
    destruct (IH {| world := w1; trace := trace s ++ ev1;
                    transcript := transcript s ++ [MTool (tc_id tool_call) text] |})
      as [texts [w2 [ev2 [H2 [Hl [Hc2 Hm2]]]]]].
    rewrite H2. exists (text :: texts), w2, (ev1 ++ ev2). cbn [trace transcript].
    rewrite <- !app_assoc. repeat split.
    + simpl. now rewrite Hl.
    + rewrite tool_calls_of_app, Hc1, Hc2. unfold host_calls. simpl.
      now rewrite app_nil_r.
    + rewrite model_calls_app. lia.
Qed.

Lemma openai_run_tool_call_append_only (tool_call : ToolCall) :
  append_only (run_tool_call tool_call).
Proof.
  intros s. destruct (openai_tool_call_spec tool_call s) as [text [w [evs [H _]]]].
  rewrite H. apply prefix_of_app.
Qed.

Lemma openai_run_tool_call_bounded (tool_call : ToolCall) :
  bounded 0 (run_tool_call tool_call).
Proof.
  intros s. destruct (openai_tool_call_spec tool_call s) as [text [w [evs [H [_ Hm]]]]].
  rewrite H. simpl. split; [discriminate|]. exists evs. split; [reflexivity | lia].
Qed.

Lemma openai_final_call_append_only : append_only (final_call model).
Proof.
  unfold final_call.
  repeat (apply append_only_bind; intros);
    auto using append_only_conversation, append_only_do_generate,
               append_only_lift, append_only_ret.
Qed.

Lemma openai_final_call_bounded : bounded 1 (final_call model).
Proof.
  unfold final_call.
  apply bounded_bind with (n := 0) (k := 1); [apply bounded_conversation|].
  intros messages.
  apply bounded_bind with (n := 1) (k := 0); [now apply bounded_do_generate|].
  intros r.
  apply bounded_bind with (n := 0) (k := 0); [apply bounded_lift|].
  intros m. apply bounded_ret.
Qed.

Lemma openai_loop_append_only (fuel : nat) (tools : list FunctionTool)
      (max_iterations : Z) :
  forall iteration_count,
    append_only (loop model fuel tools max_iterations iteration_count).
Proof.
  induction fuel as [|fuel IH]; intros i; cbn [loop];
    destruct (i <? max_iterations)%Z;
    try apply openai_final_call_append_only.
  - apply append_only_out_of_fuel.
  - apply append_only_bind; [apply append_only_conversation|]. intros messages.
    apply append_only_bind; [apply append_only_do_generate|]. intros response.
    apply append_only_bind; [apply append_only_lift|]. intros message.
    apply append_only_bind; [apply append_only_append_turn|]. intros _.
    destruct (cm_tool_calls message) as [[|tc tcs]|];
      try apply append_only_ret.
    apply append_only_bind; [|intros; apply IH].
    apply append_only_for_each. apply openai_run_tool_call_append_only.
Qed.

Lemma openai_loop_bounded (tools : list FunctionTool) (max_iterations : Z)
      (fuel : nat) :
  forall iteration_count,
    Z.to_nat (max_iterations - iteration_count) <= fuel ->
    bounded (Z.to_nat (max_iterations - iteration_count) + 1)
            (loop model fuel tools max_iterations iteration_count).
Proof.
  induction fuel as [|fuel IH]; intros i Hfuel; cbn [loop];
    destruct (i <? max_iterations)%Z eqn:Hi;
    try (eapply bounded_weaken; [|apply openai_final_call_bounded]; lia).
  - apply Z.ltb_lt in Hi. lia.
  - apply Z.ltb_lt in Hi.
    replace (Z.to_nat (max_iterations - i) + 1)
      with (0 + (1 + (0 + (0 + (Z.to_nat (max_iterations - (i + 1)) + 1))))) by lia.
    apply bounded_bind; [apply bounded_conversation|]. intros messages.
    apply bounded_bind; [now apply bounded_do_generate|]. intros response.
    apply bounded_bind; [apply bounded_lift|]. intros message.
    apply bounded_bind; [apply bounded_append_turn|]. intros _.
    destruct (cm_tool_calls message) as [[|tc tcs]|];
      try apply bounded_ret.
    apply bounded_bind with (n := 0); [|intros; apply IH; lia].
    apply bounded_for_each. apply openai_run_tool_call_bounded.
Qed.

Lemma openai_get_mcp_tools_bounded : bounded 0 get_mcp_tools.
Proof.
  unfold get_mcp_tools.
  apply bounded_bind with (n := 0) (k := 0); [apply bounded_do_list_tools|].
  intros. apply bounded_ret.
Qed.

Lemma openai_process_query_bounded (query : string) (max_iterations : Z) :
  bounded (Z.to_nat max_iterations + 1)
          (process_query model system_prompt query max_iterations).
Proof.
  unfold process_query.
  apply bounded_bind with (n := 0); [apply openai_get_mcp_tools_bounded|].
  intros tools.
  apply bounded_bind with (n := 0); [apply bounded_new_conversation|].
  intros _.
  replace (Z.to_nat max_iterations) with (Z.to_nat (max_iterations - 0))
    by (f_equal; lia).
  apply openai_loop_bounded. lia.
Qed.
(** An iteration whose response has no tool call returns the content of
    the message, after the one call of the model. *)
Lemma openai_loop_answer (fuel : nat) (tools : list FunctionTool)
      (max_iterations iteration_count : Z) (s : state)
      (response : Response) (w : W) (message : ChatMessage)
      (rest : list ChatMessage) :
  (iteration_count < max_iterations)%Z ->
  generate (world s) (loop_request model tools (transcript s)) = (Ok response, w) ->
  choices response = message :: rest ->
  cm_tool_calls message = None \/ cm_tool_calls message = Some [] ->
  loop model (S fuel) tools max_iterations iteration_count s
  = (Returns (cm_content message),
     {| world := w;
        trace := trace s ++ [EvModel (loop_request model tools (transcript s))];
        transcript := transcript s ++ [MAssistant message] |}).
Proof.
  intros Hi Hg Hc Ht. apply Z.ltb_lt in Hi. cbn [loop]. rewrite Hi.
  unfold bind, conversation, do_generate, lift, append_turn. simpl.
  rewrite Hg. simpl. rewrite Hc. simpl.
  destruct Ht as [-> | ->]; reflexivity.
Qed.

(** An iteration whose response has tool calls: the message and one tool
    message for each call, in the order of the calls, are added to the
    conversation, the host is called in that order, and the loop goes on
    with the next iteration. *)
Lemma openai_loop_tool_round (fuel : nat) (tools : list FunctionTool)
      (max_iterations iteration_count : Z) (s : state)
      (response : Response) (w : W) (message : ChatMessage)
      (rest : list ChatMessage) (tool_call : ToolCall) (more : list ToolCall) :
  (iteration_count < max_iterations)%Z ->
  generate (world s) (loop_request model tools (transcript s)) = (Ok response, w) ->
  choices response = message :: rest ->
  cm_tool_calls message = Some (tool_call :: more) ->
  exists texts w' evs,
    loop model (S fuel) tools max_iterations iteration_count s
    = loop model fuel tools max_iterations (iteration_count + 1)
        {| world := w';
           trace := trace s
                    ++ EvModel (loop_request model tools (transcript s)) :: evs;
           transcript := transcript s
                         ++ MAssistant message
                         :: tool_messages (tool_call :: more) texts |}
    /\ List.length texts = List.length (tool_call :: more)
    /\ tool_calls_of evs = host_calls (tool_call :: more)
    /\ model_calls evs = 0.
Proof.
  intros Hi Hg Hc Ht. apply Z.ltb_lt in Hi. cbn [loop]. rewrite Hi.
  unfold bind at 1 2 3 4, conversation, do_generate, lift, append_turn. simpl.
  rewrite Hg. simpl. rewrite Hc. simpl. rewrite Ht.
  destruct (openai_tool_calls_spec (tool_call :: more)
              {| world := w;
                 trace := trace s ++ [EvModel (loop_request model tools (transcript s))];
                 transcript := transcript s ++ [MAssistant message] |})
    as [texts [w' [evs [H [Hl [Hh Hm]]]]]].
  exists texts, w', evs. unfold bind. rewrite H. cbn [trace transcript].
  rewrite <- !app_assoc. simpl. auto.
Qed.

(** The same iteration, as the tool calls followed by the next iteration. *)
Lemma openai_loop_unfold (fuel : nat) (tools : list FunctionTool)
      (max_iterations iteration_count : Z) (s : state)
      (response : Response) (w : W) (message : ChatMessage)
      (rest : list ChatMessage) (tool_call : ToolCall) (more : list ToolCall) :
  (iteration_count < max_iterations)%Z ->
  generate (world s) (loop_request model tools (transcript s)) = (Ok response, w) ->
  choices response = message :: rest ->
  cm_tool_calls message = Some (tool_call :: more) ->
  loop model (S fuel) tools max_iterations iteration_count s
  = bind (for_each (tool_call :: more) run_tool_call)
         (fun _ => loop model fuel tools max_iterations (iteration_count + 1))
         {| world := w;
            trace := trace s ++ [EvModel (loop_request model tools (transcript s))];
            transcript := transcript s ++ [MAssistant message] |}.
Proof.
  intros Hi Hg Hc Ht. apply Z.ltb_lt in Hi. cbn [loop]. rewrite Hi.
  unfold bind at 1 2 3 4, conversation, do_generate, lift, append_turn. simpl.
  rewrite Hg. simpl. rewrite Hc. simpl. rewrite Ht. reflexivity.
Qed.

(** Among the tool calls of an iteration, one whose arguments are not
    read: the calls all end, and the message of the error is one of the
    tool messages added. *)
Lemma openai_tool_calls_parse_error (before after : list ToolCall)
      (tool_call : ToolCall) (e : exn) :
  json_loads (tc_arguments tool_call) = Raise e ->
  forall s : state,
  exists s',
    for_each (before ++ tool_call :: after) run_tool_call s = (Returns tt, s')
    /\ In (MTool (tc_id tool_call)
             (String.append "Error executing tool: " (exc_msg e)))
          (transcript s')
    /\ prefix_of (transcript s) (transcript s').
Proof.
  intros He. induction before as [|tc before IH]; intros s.
  - simpl app. cbn [for_each]. unfold bind.
    rewrite (openai_tool_call_parse_error _ _ He).
    match goal with |- context [for_each after run_tool_call ?s1] =>
      destruct (openai_tool_calls_spec after s1) as [texts [w [evs [H _]]]]
    end.
    rewrite H. eexists. split; [reflexivity|]. cbn [transcript]. split.
    + apply in_or_app. left. apply in_or_app. right. left. reflexivity.
    + rewrite <- app_assoc. apply prefix_of_app.
  - simpl app. cbn [for_each]. unfold bind.
    destruct (openai_tool_call_spec tc s) as [text [w [evs [H _]]]]. rewrite H.
    match goal with |- context [for_each _ run_tool_call ?s1] =>
      destruct (IH s1) as [s' [H' [Hin Hp]]]
    end.
    exists s'. split; [exact H'|]. split; [exact Hin|].
    eapply prefix_of_trans; [|exact Hp]. apply prefix_of_app.
Qed.

(** At the cap, the final request (no tools) is sent and the content of
    its message is returned. *)
Lemma openai_loop_exhausted (fuel : nat) (tools : list FunctionTool)
      (max_iterations iteration_count : Z) (s : state)
      (response : Response) (w : W) (message : ChatMessage)
      (rest : list ChatMessage) :
  (max_iterations <= iteration_count)%Z ->
  generate (world s) (final_request model (transcript s)) = (Ok response, w) ->
  choices response = message :: rest ->
  loop model fuel tools max_iterations iteration_count s
  = (Returns (cm_content message),
     {| world := w;
        trace := trace s ++ [EvModel (final_request model (transcript s))];
        transcript := transcript s |}).
Proof.
  intros Hi Hg Hc. apply Z.ltb_ge in Hi.
  destruct fuel; cbn [loop]; rewrite Hi;
    unfold final_call, bind, conversation, do_generate, lift; simpl;
    rewrite Hg; simpl; rewrite Hc; reflexivity.
Qed.

(** The state the loop of a query starts in, once the catalog is fetched. *)
Lemma openai_process_query_start (query : string) (max_iterations : Z)
      (s : state) (tools_result : list Tool) (w : W) :
  list_tools (world s) = (Ok tools_result, w) ->
  process_query model system_prompt query max_iterations s
  = loop model (Z.to_nat max_iterations)
         (map (fun tool => {| ft_name := tool_name tool;
                              ft_description := tool_description tool;
                              ft_parameters := tool_inputSchema tool |})
              tools_result)
         max_iterations 0
         {| world := w; trace := trace s ++ [EvListTools];
            transcript := [MText "system" system_prompt; MText "user" query] |}.
Proof.
  intros Hl. unfold process_query, get_mcp_tools, bind, do_list_tools.
  rewrite Hl. reflexivity.
Qed.
End OpenAIProperties.

(* ================================================================== *)
(** * Properties of the Gemini client                                  *)
(* ================================================================== *)

Section GoogleProperties.
Import Google.
Context {W : Type} {E : Env W Request Response}.
Variable model : string.
Variable system_instruction : string.

Local Abbreviation state := (state W Request Content).

(** A function call whose arguments are not read: the host is not called
    and the response is an error response. *)
Lemma google_function_call_parse_error (fc : FunctionCall) (s : state) (e : exn) :
  arguments_of (fc_args fc) = Raise e ->
  run_function_call fc s
  = (Returns [("error", String.append "Error executing tool: " (exc_msg e))], s).
Proof.
  intros He. unfold run_function_call, try_except, bind, lift. rewrite He.
  reflexivity.
Qed.

(** A function call the host answers with text blocks: the response is an
    error response when the answer carries the error flag, and a result
    response otherwise. *)
Lemma google_function_call_answered (fc : FunctionCall) (s : state)
      (arguments : json) (result : CallToolResult) (w : W) (text : string) :
  arguments_of (fc_args fc) = Ok arguments ->
  call_tool (world s) (fc_name fc) arguments = (Ok result, w) ->
  join_text (content result) "" = Ok text ->
  run_function_call fc s
  = (Returns [(if isError result then "error" else "result", text)],
     {| world := w; trace := trace s ++ [EvTool (fc_name fc) arguments];
        transcript := transcript s |}).
Proof.
  intros Ha Hc Ht.
  unfold run_function_call, try_except, bind, lift, do_call_tool.
  rewrite Ha. simpl. rewrite Hc. simpl. rewrite Ht. simpl.
  destruct (isError result); reflexivity.
Qed.

Lemma google_function_call_spec (fc : FunctionCall) (s : state) :
  exists response w evs,
    run_function_call fc s
    = (Returns response,
       {| world := w; trace := trace s ++ evs; transcript := transcript s |})
    /\ tool_calls_of evs = host_calls [fc]
    /\ model_calls evs = 0.
Proof.
  unfold host_calls. simpl. rewrite app_nil_r.
  destruct (arguments_of (fc_args fc)) as [arguments|e] eqn:Ha.
  - unfold run_function_call, try_except, bind, lift, do_call_tool.
    rewrite Ha. simpl.
    destruct (call_tool (world s) (fc_name fc) arguments) as [[result|e] w].
    + simpl. destruct (join_text (content result) "") as [text|e]; simpl;
        [destruct (isError result)|];
        eexists _, w, [EvTool (fc_name fc) arguments]; repeat split.
    + simpl. eexists _, w, [EvTool (fc_name fc) arguments]; repeat split.
  - rewrite (google_function_call_parse_error _ _ Ha).
    eexists _, (world s), []. rewrite app_nil_r. destruct s. repeat split.
Qed.

Lemma google_run_parts_spec (ps : list Part) :
  forall (fc_parts_response : list Part) (s : state),
  exists responses w evs,
    run_parts ps fc_parts_response s
    = (Returns (fc_parts_response
                ++ response_parts (function_calls ps) responses),
       {| world := w; trace := trace s ++ evs; transcript := transcript s |})
    /\ List.length responses = List.length (function_calls ps)
    /\ tool_calls_of evs = host_calls (function_calls ps)
    /\ model_calls evs = 0.
Proof.
  induction ps as [|part more IH]; intros acc s.
  - exists [], (world s), []. simpl. unfold response_parts. simpl.
    rewrite !app_nil_r. destruct s. repeat split.
  - cbn [run_parts]. unfold function_calls. cbn [flat_map].
    destruct (part_function_call part) as [fc|].
    + destruct (google_function_call_spec fc s) as [r [w1 [ev1 [H1 [Hc1 Hm1]]]]].
      unfold bind. rewrite H1.
      destruct (IH (acc ++ [from_function_response (fc_name fc) r])
                   {| world := w1; trace := trace s ++ ev1;
                      transcript := transcript s |})
        as [rs [w2 [ev2 [H2 [Hl [Hc2 Hm2]]]]]].
      rewrite H2. exists (r :: rs), w2, (ev1 ++ ev2). cbn [trace transcript].
      rewrite <- !app_assoc. repeat split.
      * simpl. now rewrite Hl.
      * rewrite tool_calls_of_app, Hc1, Hc2. unfold host_calls. simpl.
        now rewrite app_nil_r.
      * rewrite model_calls_app. lia.
    + simpl. apply IH.
Qed.

Lemma function_calls_found (ps : list Part) :
  existsb has_function_call ps = true -> function_calls ps <> [].
Proof.
  induction ps as [|part more IH]; simpl; [discriminate|].
  unfold has_function_call, function_calls. simpl.
  destruct (part_function_call part); simpl; [discriminate | exact IH].
Qed.

(** The tool round of an iteration: the message of the model, then one
    turn with one function response for each function call, in the order
    of the calls and named after them. *)
Lemma google_answer_function_calls_spec (message : Content) (ps : list Part)
      (s : state) :
  exists responses w evs,
    answer_function_calls message ps s
    = (Returns tt,
       {| world := w; trace := trace s ++ evs;
          transcript :=
            transcript s
            ++ message
            :: function_turn (response_parts (function_calls ps) responses) |})
    /\ List.length responses = List.length (function_calls ps)
    /\ tool_calls_of evs = host_calls (function_calls ps)
    /\ model_calls evs = 0.
Proof.
  unfold answer_function_calls, bind at 1, append_turn.
  destruct (google_run_parts_spec ps []
              {| world := world s; trace := trace s;
                 transcript := transcript s ++ [message] |})
    as [rs [w [evs [H [Hl [Hc Hm]]]]]].
  unfold bind. rewrite H. exists rs, w, evs. cbn [app trace transcript].
  destruct (response_parts (function_calls ps) rs) as [|p l] eqn:Hr.
  - unfold ret. cbn [function_turn]. auto.
  - unfold append_turn. cbn [trace transcript world function_turn].
    rewrite <- !app_assoc. simpl. auto.
Qed.

(** Among the parts of a message, a function call whose arguments are not
    read: the calls all end, and an error response named after the call is
    one of the function responses. *)
Lemma google_run_parts_parse_error (before after : list Part) (part : Part)
      (fc : FunctionCall) (e : exn) :
  part_function_call part = Some fc ->
  arguments_of (fc_args fc) = Raise e ->
  forall (fc_parts_response : list Part) (s : state),
  exists l s',
    run_parts (before ++ part :: after) fc_parts_response s = (Returns l, s')
    /\ In (from_function_response (fc_name fc)
             [("error", String.append "Error executing tool: " (exc_msg e))]) l
    /\ transcript s' = transcript s.
Proof.
  intros Hp He. induction before as [|p before IH]; intros acc s.
  - simpl app. cbn [run_parts]. rewrite Hp. unfold bind.
    rewrite (google_function_call_parse_error _ _ He).
    match goal with |- context [run_parts after ?a s] =>
      destruct (google_run_parts_spec after a s) as [rs [w [evs [H _]]]]
    end.
    rewrite H. eexists _, _. split; [reflexivity|]. split; [|reflexivity].
    apply in_or_app. left. apply in_or_app. right. left. reflexivity.
  - simpl app. cbn [run_parts]. destruct (part_function_call p) as [fc'|].
    + unfold bind.
      destruct (google_function_call_spec fc' s) as [r [w [evs [H _]]]].
      rewrite H.
      match goal with |- context [run_parts _ ?a ?s1] =>
        destruct (IH a s1) as [l [s' [H' [Hin Ht]]]]
      end.
      exists l, s'. auto.
    + apply IH.
Qed.

Lemma google_answer_function_calls_parse_error (message : Content)
      (before after : list Part) (part : Part) (fc : FunctionCall) (e : exn)
      (s : state) :
  part_function_call part = Some fc ->
  arguments_of (fc_args fc) = Raise e ->
  exists l s',
    answer_function_calls message (before ++ part :: after) s = (Returns tt, s')
    /\ In (from_function_response (fc_name fc)
             [("error", String.append "Error executing tool: " (exc_msg e))]) l
    /\ transcript s'
       = transcript s ++ [message; {| role := Some "function"; parts := Some l |}].
Proof.
  intros Hp He. unfold answer_function_calls, bind at 1, append_turn.
  destruct (google_run_parts_parse_error before after part Hp He []
              {| world := world s; trace := trace s;
                 transcript := transcript s ++ [message] |})
    as [l [s' [H [Hin Ht]]]].
  unfold bind. rewrite H. destruct l as [|p l]; [destruct Hin|].
  eexists (p :: l), _. split; [reflexivity|]. split; [exact Hin|].
  cbn [transcript]. rewrite Ht. cbn [transcript].
  rewrite <- app_assoc. reflexivity.
Qed.

Lemma google_run_function_call_append_only (fc : FunctionCall) :
  append_only (run_function_call fc).
Proof.
  intros s. destruct (google_function_call_spec fc s) as [r [w [evs [H _]]]].
  rewrite H. apply prefix_of_refl.
Qed.

Lemma google_run_parts_append_only (ps : list Part) (acc : list Part) :
  append_only (run_parts ps acc).
Proof.
  intros s. destruct (google_run_parts_spec ps acc s) as [r [w [evs [H _]]]].
  rewrite H. apply prefix_of_refl.
Qed.

Lemma google_run_parts_bounded (ps : list Part) (acc : list Part) :
  bounded 0 (run_parts ps acc).
Proof.
  intros s. destruct (google_run_parts_spec ps acc s) as [r [w [evs [H [_ [_ Hm]]]]]].
  rewrite H. simpl. split; [discriminate|]. exists evs. split; [reflexivity | lia].
Qed.

Lemma google_answer_function_calls_append_only (message : Content) (ps : list Part) :
  append_only (answer_function_calls message ps).
Proof.
  unfold answer_function_calls.
  apply append_only_bind; [apply append_only_append_turn|]. intros _.
  apply append_only_bind; [apply google_run_parts_append_only|]. intros l.
  destruct l; [apply append_only_ret | apply append_only_append_turn].
Qed.

Lemma google_answer_function_calls_bounded (message : Content) (ps : list Part) :
  bounded 0 (answer_function_calls message ps).
Proof.
  unfold answer_function_calls.
  apply bounded_bind with (n := 0) (k := 0); [apply bounded_append_turn|]. intros _.
  apply bounded_bind with (n := 0) (k := 0); [apply google_run_parts_bounded|].
  intros l. destruct l; [apply bounded_ret | apply bounded_append_turn].
Qed.

Lemma google_final_call_append_only : append_only (final_call model).
Proof.
  unfold final_call.
  repeat (apply append_only_bind; intros);
    auto using append_only_conversation, append_only_do_generate,
               append_only_lift.
Qed.

Lemma google_final_call_bounded : bounded 1 (final_call model).
Proof.
  unfold final_call.
  apply bounded_bind with (n := 0) (k := 1); [apply bounded_conversation|].
  intros contents.
  apply bounded_bind with (n := 1) (k := 0); [now apply bounded_do_generate|].
  intros r. apply bounded_lift.
Qed.

Lemma google_loop_append_only (fuel : nat) (tools : list GTool)
      (max_iterations : Z) :
  forall iteration_count,
    append_only (loop model system_instruction fuel tools max_iterations
                      iteration_count).
Proof.
  induction fuel as [|fuel IH]; intros i; cbn [loop];
    destruct (i <? max_iterations)%Z;
    try apply google_final_call_append_only.
  - apply append_only_out_of_fuel.
  - apply append_only_bind; [apply append_only_conversation|]. intros contents.
    apply append_only_bind; [apply append_only_do_generate|]. intros response.
    apply append_only_bind; [apply append_only_lift|]. intros [message|];
      [|apply append_only_raise].
    apply append_only_bind; [apply append_only_lift|]. intros ps.
    destruct (negb (existsb has_function_call ps)).
    + apply append_only_bind; [apply append_only_lift|]. intros part.
      apply append_only_ret.
    + apply append_only_bind; [|intros; apply IH].
      apply google_answer_function_calls_append_only.
Qed.

Lemma google_loop_bounded (tools : list GTool) (max_iterations : Z) (fuel : nat) :
  forall iteration_count,
    Z.to_nat (max_iterations - iteration_count) <= fuel ->
    bounded (Z.to_nat (max_iterations - iteration_count) + 1)
            (loop model system_instruction fuel tools max_iterations
                  iteration_count).
Proof.
  induction fuel as [|fuel IH]; intros i Hfuel; cbn [loop];
    destruct (i <? max_iterations)%Z eqn:Hi;
    try (eapply bounded_weaken; [|apply google_final_call_bounded]; lia).
  - apply Z.ltb_lt in Hi. lia.
  - apply Z.ltb_lt in Hi.
    replace (Z.to_nat (max_iterations - i) + 1)
      with (0 + (1 + (0 + (0 + (Z.to_nat (max_iterations - (i + 1)) + 1))))) by lia.
    apply bounded_bind; [apply bounded_conversation|]. intros contents.
    apply bounded_bind; [now apply bounded_do_generate|]. intros response.
    apply bounded_bind; [apply bounded_lift|]. intros [message|];
      [|apply bounded_raise].
    apply bounded_bind; [apply bounded_lift|]. intros ps.
    destruct (negb (existsb has_function_call ps)).
    + apply bounded_bind with (n := 0); [apply bounded_lift|]. intros part.
      apply bounded_ret.
    + apply bounded_bind with (n := 0); [|intros; apply IH; lia].
      apply google_answer_function_calls_bounded.
Qed.

Lemma google_get_mcp_tools_bounded : bounded 0 get_mcp_tools.
Proof.
  unfold get_mcp_tools.
  apply bounded_bind with (n := 0) (k := 0); [apply bounded_do_list_tools|].
  intros tools_result.
  apply bounded_bind with (n := 0) (k := 0); [apply bounded_lift|].
  intros. apply bounded_ret.
Qed.

Lemma google_process_query_bounded (query : string) (max_iterations : Z) :
  bounded (Z.to_nat max_iterations + 1)
          (process_query model system_instruction query max_iterations).
Proof.
  unfold process_query.
  apply bounded_bind with (n := 0); [apply google_get_mcp_tools_bounded|].
  intros tools.
  apply bounded_bind with (n := 0); [apply bounded_new_conversation|].
  intros _.
  replace (Z.to_nat max_iterations) with (Z.to_nat (max_iterations - 0))
    by (f_equal; lia).
  apply google_loop_bounded. lia.
Qed.
(** An iteration whose response has no function call returns the text of
    the first part of the message, after the one call of the model. *)
Lemma google_loop_answer (fuel : nat) (tools : list GTool)
      (max_iterations iteration_count : Z) (s : state)
      (response : Response) (w : W) (candidate : Candidate)
      (rest : list Candidate) (message : Content) (part : Part)
      (more : list Part) :
  (iteration_count < max_iterations)%Z ->
  generate (world s) (loop_request model system_instruction tools (transcript s))
  = (Ok response, w) ->
  candidates response = Some (candidate :: rest) ->
  cand_content candidate = Some message ->
  parts message = Some (part :: more) ->
  existsb has_function_call (part :: more) = false ->
  loop model system_instruction (S fuel) tools max_iterations iteration_count s
  = (Returns (part_text part),
     {| world := w;
        trace := trace s
                 ++ [EvModel (loop_request model system_instruction tools
                                           (transcript s))];
        transcript := transcript s |}).
Proof.
  intros Hi Hg Hc Hm Hp Hf. apply Z.ltb_lt in Hi. cbn [loop]. rewrite Hi.
  unfold bind, conversation, do_generate, lift, first_candidate_content, parts_of.
  simpl. rewrite Hg. simpl. rewrite Hc. simpl. rewrite Hm, Hp. simpl.
  simpl in Hf. rewrite Hf. reflexivity.
Qed.

(** An iteration whose response has a function call, as the tool round
    followed by the next iteration. *)
Lemma google_loop_unfold (fuel : nat) (tools : list GTool)
      (max_iterations iteration_count : Z) (s : state)
      (response : Response) (w : W) (candidate : Candidate)
      (rest : list Candidate) (message : Content) (ps : list Part) :
  (iteration_count < max_iterations)%Z ->
  generate (world s) (loop_request model system_instruction tools (transcript s))
  = (Ok response, w) ->
  candidates response = Some (candidate :: rest) ->
  cand_content candidate = Some message ->
  parts message = Some ps ->
  existsb has_function_call ps = true ->
  loop model system_instruction (S fuel) tools max_iterations iteration_count s
  = bind (answer_function_calls message ps)
         (fun _ => loop model system_instruction fuel tools max_iterations
                        (iteration_count + 1))
         {| world := w;
            trace := trace s
                     ++ [EvModel (loop_request model system_instruction tools
                                               (transcript s))];
            transcript := transcript s |}.
Proof.
  intros Hi Hg Hc Hm Hp Hf. apply Z.ltb_lt in Hi. cbn [loop]. rewrite Hi.
  unfold bind at 1 2 3 4, conversation, do_generate, lift,
    first_candidate_content, parts_of.
  simpl. rewrite Hg. simpl. rewrite Hc. simpl. rewrite Hm, Hp. simpl.
  rewrite Hf. reflexivity.
Qed.

(** An iteration whose response has a function call: the message and one
    turn of function responses are added to the conversation, and the loop
    goes on with the next iteration. *)
Lemma google_loop_tool_round (fuel : nat) (tools : list GTool)
      (max_iterations iteration_count : Z) (s : state)
      (response : Response) (w : W) (candidate : Candidate)
      (rest : list Candidate) (message : Content) (ps : list Part) :
  (iteration_count < max_iterations)%Z ->
  generate (world s) (loop_request model system_instruction tools (transcript s))
  = (Ok response, w) ->
  candidates response = Some (candidate :: rest) ->
  cand_content candidate = Some message ->
  parts message = Some ps ->
  existsb has_function_call ps = true ->
  exists responses w' evs,
    loop model system_instruction (S fuel) tools max_iterations iteration_count s
    = loop model system_instruction fuel tools max_iterations
        (iteration_count + 1)
        {| world := w';
           trace := trace s
                    ++ EvModel (loop_request model system_instruction tools
                                             (transcript s)) :: evs;
           transcript :=
             transcript s
             ++ message
             :: function_turn (response_parts (function_calls ps) responses) |}
    /\ List.length responses = List.length (function_calls ps)
    /\ tool_calls_of evs = host_calls (function_calls ps)
    /\ model_calls evs = 0.
Proof.
  intros Hi Hg Hc Hm Hp Hf.
  erewrite google_loop_unfold; [|eassumption..].
  match goal with |- context [bind _ _ ?s1] =>
    destruct (google_answer_function_calls_spec message ps s1)
      as [rs [w' [evs [H [Hl [Hh Hmc]]]]]]
  end.
  exists rs, w', evs. unfold bind. rewrite H. cbn [trace transcript].
  rewrite <- !app_assoc. simpl. auto.
Qed.

(** At the cap the final request (no tools) is sent, and reading
    [choices] off its response raises: no answer is returned. *)
Lemma google_loop_exhausted (fuel : nat) (tools : list GTool)
      (max_iterations iteration_count : Z) (s : state)
      (response : Response) (w : W) :
  (max_iterations <= iteration_count)%Z ->
  generate (world s) (final_request model (transcript s)) = (Ok response, w) ->
  loop model system_instruction fuel tools max_iterations iteration_count s
  = (Raises (AttributeError
               "'GenerateContentResponse' object has no attribute 'choices'"),
     {| world := w;
        trace := trace s ++ [EvModel (final_request model (transcript s))];
        transcript := transcript s |}).
Proof.
  intros Hi Hg. apply Z.ltb_ge in Hi.
  destruct fuel; cbn [loop]; rewrite Hi;
    unfold final_call, bind, conversation, do_generate, lift; simpl;
    rewrite Hg; reflexivity.
Qed.

(** At the cap the loop never returns an answer. *)
Lemma google_loop_exhausted_raises (fuel : nat) (tools : list GTool)
      (max_iterations iteration_count : Z) (s : state) :
  (max_iterations <= iteration_count)%Z ->
  exists e,
    fst (loop model system_instruction fuel tools max_iterations
              iteration_count s) = Raises e.
Proof.
  intros Hi. apply Z.ltb_ge in Hi.
  destruct fuel; cbn [loop]; rewrite Hi;
    unfold final_call, bind, conversation, do_generate, lift; simpl;
    destruct (generate (world s) (final_request model (transcript s)))
      as [[r|e] w]; simpl; eauto.
Qed.

(** The state the loop of a query starts in, once the catalog is fetched
    and normalized. *)
Lemma google_process_query_start (query : string) (max_iterations : Z)
      (s : state) (tools_result : list Tool) (w : W)
      (tools : list FunctionDeclaration) :
  list_tools (world s) = (Ok tools_result, w) ->
  declarations tools_result [] = Ok tools ->
  process_query model system_instruction query max_iterations s
  = loop model system_instruction (Z.to_nat max_iterations)
         [{| function_declarations := tools |}] max_iterations 0
         {| world := w; trace := trace s ++ [EvListTools];
            transcript := [{| role := Some "user";
                              parts := Some [text_part query] |}] |}.
Proof.
  intros Hl Hd. unfold process_query, get_mcp_tools, bind, do_list_tools, lift.
  rewrite Hl. simpl. rewrite Hd. reflexivity.
Qed.
End GoogleProperties.

(* ================================================================== *)
(** * The orchestration loop of both clients                           *)
(* ================================================================== *)

Section Orchestration.
Context {WO : Type} {EO : Env WO OpenAI.Request OpenAI.Response}.
Context {WG : Type} {EG : Env WG Google.Request Google.Response}.
Variable model : string.
Variable system_prompt : string.

(** C8. The conversation is append-only: every step of both loops (a
    tool call, the tool round of an iteration, the final call, the loop
    from any iteration and state) leaves the turns it found in place and
    at most adds turns after them; a query starts a conversation of its
    own and only ever extends it. *)
Theorem conversation_is_append_only :
  (forall tool_call, append_only (OpenAI.run_tool_call (E := EO) tool_call))
  /\ (forall tool_calls,
        append_only (for_each tool_calls (OpenAI.run_tool_call (E := EO))))
  /\ append_only (OpenAI.final_call (E := EO) model)
  /\ (forall fuel tools max_iterations iteration_count,
        append_only (OpenAI.loop (E := EO) model fuel tools max_iterations
                                 iteration_count))
  /\ (forall query max_iterations s,
        transcript (snd (OpenAI.process_query (E := EO) model system_prompt
                                              query max_iterations s))
        = transcript s
        \/ prefix_of [OpenAI.MText "system" system_prompt;
                      OpenAI.MText "user" query]
                     (transcript
                        (snd (OpenAI.process_query (E := EO) model system_prompt
                                                   query max_iterations s))))
  /\ (forall fc, append_only (Google.run_function_call (E := EG) fc))
  /\ (forall message ps,
        append_only (Google.answer_function_calls (E := EG) message ps))
  /\ append_only (Google.final_call (E := EG) model)
  /\ (forall fuel tools max_iterations iteration_count,
        append_only (Google.loop (E := EG) model system_prompt fuel tools
                                 max_iterations iteration_count))
  /\ (forall query max_iterations s,
        transcript (snd (Google.process_query (E := EG) model system_prompt
                                              query max_iterations s))
        = transcript s
        \/ prefix_of [{| Google.role := Some "user";
                         Google.parts := Some [Google.text_part query] |}]
                     (transcript
                        (snd (Google.process_query (E := EG) model system_prompt
                                                   query max_iterations s)))).
Proof.
  repeat split.
  - apply openai_run_tool_call_append_only.
  - intros. apply append_only_for_each, openai_run_tool_call_append_only.
  - apply openai_final_call_append_only.
  - intros. apply openai_loop_append_only.
  - intros query max_iterations s.
    destruct (list_tools (world s)) as [[tools_result|e] w] eqn:Hl.
    + right. rewrite (openai_process_query_start _ _ _ _ _ Hl).
      apply (openai_loop_append_only model (Z.to_nat max_iterations) _
               max_iterations 0).
    + left. unfold OpenAI.process_query, OpenAI.get_mcp_tools, bind, do_list_tools.
      rewrite Hl. reflexivity.
  - apply google_run_function_call_append_only.
  - intros. apply google_answer_function_calls_append_only.
  - apply google_final_call_append_only.
  - intros. apply google_loop_append_only.
  - intros query max_iterations s.
    destruct (list_tools (world s)) as [[tools_result|e] w] eqn:Hl.
    + destruct (Google.declarations tools_result []) as [tools|e] eqn:Hd.
      * right. rewrite (google_process_query_start _ _ _ _ _ Hl Hd).
        apply (google_loop_append_only model system_prompt
                 (Z.to_nat max_iterations) _ max_iterations 0).
      * left. unfold Google.process_query, Google.get_mcp_tools, bind,
          do_list_tools, lift.
        rewrite Hl. simpl. rewrite Hd. reflexivity.
    + left. unfold Google.process_query, Google.get_mcp_tools, bind, do_list_tools.
      rewrite Hl. reflexivity.
Qed.


(** C4. A tool call whose arguments are text that is no JSON does not
    end the loop: the iteration is completed (no exception leaves it), the
    conversation the next iteration works with extends the one before and
    holds the result of the call as an error (the tool message with the
    text of the error for the OpenAI client, an error response named after
    the call for the Gemini client), and the loop goes on with the next
    iteration. *)
Theorem malformed_arguments_become_error_results :
  (forall fuel tools max_iterations iteration_count
          (s : state WO OpenAI.Request OpenAI.Message)
          response w message rest before tool_call after e,
      (iteration_count < max_iterations)%Z ->
      generate (world s) (OpenAI.loop_request model tools (transcript s))
      = (Ok response, w) ->
      OpenAI.choices response = message :: rest ->
      OpenAI.cm_tool_calls message = Some (before ++ tool_call :: after) ->
      json_loads (Env := EO) (OpenAI.tc_arguments tool_call) = Raise e ->
      exists s',
        OpenAI.loop model (S fuel) tools max_iterations iteration_count s
        = OpenAI.loop model fuel tools max_iterations (iteration_count + 1) s'
        /\ In (OpenAI.MTool (OpenAI.tc_id tool_call)
                 (String.append "Error executing tool: " (exc_msg e)))
              (transcript s')
        /\ prefix_of (transcript s) (transcript s'))
  /\ (forall fuel tools max_iterations iteration_count
             (s : state WG Google.Request Google.Content)
             response w candidate rest message before part after fc text e,
        (iteration_count < max_iterations)%Z ->
        generate (world s)
                 (Google.loop_request model system_prompt tools (transcript s))
        = (Ok response, w) ->
        Google.candidates response = Some (candidate :: rest) ->
        Google.cand_content candidate = Some message ->
        Google.parts message = Some (before ++ part :: after) ->
        Google.part_function_call part = Some fc ->
        Google.fc_args fc = Google.ArgsText text ->
        json_loads (Env := EG) text = Raise e ->
        exists s' l,
          Google.loop model system_prompt (S fuel) tools max_iterations
                      iteration_count s
          = Google.loop model system_prompt fuel tools max_iterations
                        (iteration_count + 1) s'
          /\ transcript s'
             = transcript s
               ++ [message;
                   {| Google.role := Some "function"; Google.parts := Some l |}]
          /\ In (Google.from_function_response (Google.fc_name fc)
                   [("error",
                     String.append "Error executing tool: " (exc_msg e))]) l
          /\ Google.reports_error
               (Google.from_function_response (Google.fc_name fc)
                  [("error",
                    String.append "Error executing tool: " (exc_msg e))])
             = true).
Proof.
  split.
  - intros fuel tools max_iterations i s response w message rest before
           tool_call after e Hi Hg Hc Ht He.
    assert (Hcalls : exists tc more, before ++ tool_call :: after = tc :: more)
      by (destruct before; simpl; eauto).
    destruct Hcalls as [tc [more Hcalls]]. rewrite Hcalls in Ht.
    erewrite openai_loop_unfold; [|eassumption..].
    rewrite <- Hcalls.
    match goal with |- context [bind _ _ ?s1] =>
      destruct (openai_tool_calls_parse_error before after tool_call He s1)
        as [s' [H [Hin Hp]]]
    end.
    exists s'. unfold bind. rewrite H. split; [reflexivity|]. split; [exact Hin|].
    eapply prefix_of_trans; [|exact Hp]. apply prefix_of_app.
  - intros fuel tools max_iterations i s response w candidate rest message
           before part after fc text e Hi Hg Hc Hm Hp Hfc Ha He.
    assert (Harg : Google.arguments_of (E := EG) (Google.fc_args fc) = Raise e)
      by (rewrite Ha; exact He).
    assert (Hf : existsb Google.has_function_call (before ++ part :: after) = true).
    { rewrite existsb_app. simpl. unfold Google.has_function_call at 2.
      rewrite Hfc. simpl. apply orb_true_r. }
    erewrite google_loop_unfold; [|eassumption..].
    match goal with |- context [bind _ _ ?s1] =>
      destruct (google_answer_function_calls_parse_error message before after
                  part s1 Hfc Harg) as [l [s' [H [Hin Ht]]]]
    end.
    exists s', l. unfold bind. rewrite H. split; [reflexivity|].
    split; [exact Ht|]. split; [exact Hin | reflexivity].
Qed.


Lemma declarations_all (P : Google.FunctionDeclaration -> Prop)
      (tools_result : list Tool) :
  (forall tool parameters,
      Schema.parameters_of (tool_inputSchema tool) = Ok parameters ->
      P {| Google.fd_name := tool_name tool;
           Google.fd_description := tool_description tool;
           Google.fd_parameters := parameters |}) ->
  forall acc tools,
    Google.declarations tools_result acc = Ok tools ->
    Forall P acc -> Forall P tools.
Proof.
  intros HP. induction tools_result as [|tool more IH]; simpl; intros acc tools.
  - intros H. inversion H. auto.
  - destruct (Schema.parameters_of (tool_inputSchema tool)) as [parameters|e] eqn:Hp;
      [|discriminate].
    intros H Hacc. apply (IH _ _ H). apply Forall_app. split; [exact Hacc|].
    constructor; [|constructor]. apply HP, Hp.
Qed.

End Orchestration.

(* ================================================================== *)
(** * The loop on scripted collaborators                               *)
(* ================================================================== *)

Section ScriptedRuns.
Import Scripted.

(** C1, at the cap of the Gemini client. With [max_iterations = 1] and a
    model that asks for a tool, the loop makes its one iteration and then
    the final call without tools, two calls of the model in all; it then
    reads [choices] off the response, which raises: no answer is
    returned. *)
Theorem gemini_exhaustion_raises_attribute_error :
  fst (Google.process_query "gemini-2.0-flash" "policy"
         "Which collections are there?" 1 (start asks_again_world))
  = Raises (AttributeError
              "'GenerateContentResponse' object has no attribute 'choices'")
  /\ model_calls
       (trace (snd (Google.process_query "gemini-2.0-flash" "policy"
                      "Which collections are there?" 1
                      (start asks_again_world))))
     = 2
  /\ world (snd (Google.process_query "gemini-2.0-flash" "policy"
                   "Which collections are there?" 1
                   (start asks_again_world)))
     = silent.
Proof. repeat split. Qed.

(** C3, in the OpenAI client. The host answers the tool call with the
    text [boom] and the error flag: the tool message added is the text
    alone, and the whole run is the one of a host that answers the same
    text without the flag. *)
Theorem openai_host_error_flag_is_dropped :
  OpenAI.process_query "gpt-4o" "policy" "Who lives in Pune?" 5
                       (start (host_error_world true))
  = OpenAI.process_query "gpt-4o" "policy" "Who lives in Pune?" 5
                         (start (host_error_world false))
  /\ transcript
       (snd (OpenAI.process_query "gpt-4o" "policy" "Who lives in Pune?" 5
                                  (start (host_error_world true))))
     = [OpenAI.MText "system" "policy";
        OpenAI.MText "user" "Who lives in Pune?";
        OpenAI.MAssistant
          (chat_message None
             (Some [tool_call "call_1" "execute_mongodb_query" "{}"]));
        OpenAI.MTool "call_1" (String.append "boom" newline);
        OpenAI.MAssistant (chat_message (Some "The query failed.") None)].
Proof. split; reflexivity. Qed.

(** The Gemini client marks the same answer of the host as an error. *)
Lemma gemini_host_error_flag_is_kept :
  fst (Google.run_function_call
         {| Google.fc_name := "execute_mongodb_query";
            Google.fc_args := Google.ArgsDict [] |}
         (start {| catalog := []; responses := [];
                   results := [text_result "boom" true] |}))
  = Returns [("error", String.append "boom" newline)].
Proof. reflexivity. Qed.


(** The iteration of C4 on a scripted model whose one tool call has the
    arguments [{query:], which the parser refuses. *)
Lemma malformed_arguments_witness :
  (exists s',
      OpenAI.loop "gpt-4o" 5 [] 5 0 (openai_conversation malformed_world)
      = OpenAI.loop "gpt-4o" 4 [] 5 (0 + 1) s'
      /\ In (OpenAI.MTool "call_1"
               (String.append "Error executing tool: " (exc_msg decode_error)))
            (transcript s')
      /\ prefix_of (transcript (openai_conversation malformed_world))
                   (transcript s'))
  /\ (exists s' l,
        Google.loop "gpt-4o" "policy" 5 [] 5 0
                    (gemini_conversation gemini_malformed_world)
        = Google.loop "gpt-4o" "policy" 4 [] 5 (0 + 1) s'
        /\ transcript s'
           = transcript (gemini_conversation gemini_malformed_world)
             ++ [model_content [call_part "execute_mongodb_query"
                                          (Google.ArgsText "{query:")];
                 {| Google.role := Some "function"; Google.parts := Some l |}]
        /\ In (Google.from_function_response "execute_mongodb_query"
                 [("error",
                   String.append "Error executing tool: "
                                 (exc_msg decode_error))]) l
        /\ Google.reports_error
             (Google.from_function_response "execute_mongodb_query"
                [("error",
                  String.append "Error executing tool: "
                                (exc_msg decode_error))])
           = true).
Proof.
  destruct (@malformed_arguments_become_error_results
              _ (env OpenAI.Request OpenAI.Response)
              _ (env Google.Request Google.Response) "gpt-4o" "policy")
    as [HO HG].
  split.
  - apply (HO 4 [] 5%Z 0%Z (openai_conversation malformed_world)
              {| OpenAI.choices :=
                   [chat_message None
                      (Some [tool_call "call_1" "execute_mongodb_query"
                                       "{query:"])] |}
              silent
              (chat_message None
                 (Some [tool_call "call_1" "execute_mongodb_query" "{query:"]))
              [] [] (tool_call "call_1" "execute_mongodb_query" "{query:") []
              decode_error); [lia | reflexivity..].
  - apply (HG 4 [] 5%Z 0%Z (gemini_conversation gemini_malformed_world)
              {| Google.candidates :=
                   Some [{| Google.cand_content :=
                              Some (model_content
                                      [call_part "execute_mongodb_query"
                                                 (Google.ArgsText "{query:")]) |}] |}
              silent
              {| Google.cand_content :=
                   Some (model_content
                           [call_part "execute_mongodb_query"
                                      (Google.ArgsText "{query:")]) |}
              []
              (model_content [call_part "execute_mongodb_query"
                                        (Google.ArgsText "{query:")])
              []
              (call_part "execute_mongodb_query" (Google.ArgsText "{query:"))
              []
              {| Google.fc_name := "execute_mongodb_query";
                 Google.fc_args := Google.ArgsText "{query:" |}
              "{query:" decode_error); [lia | reflexivity..].
Defined.



(** The same iteration, evaluated: the results are in the order of the
    calls, each tagged with its call, and the host was called once. *)
Example two_tool_calls_evaluated :
  transcript
    (snd (for_each two_calls
            (OpenAI.run_tool_call (E := env OpenAI.Request OpenAI.Response))
            (openai_conversation two_calls_world)))
  = transcript (openai_conversation two_calls_world)
    ++ [OpenAI.MTool "call_1" (String.append "users" newline);
        OpenAI.MTool "call_2"
          (String.append "Error executing tool: " (exc_msg decode_error))]
  /\ tool_calls_of
       (trace (snd (for_each two_calls
                      (OpenAI.run_tool_call
                         (E := env OpenAI.Request OpenAI.Response))
                      (openai_conversation two_calls_world))))
     = [("get_mongodb_collections", JDict [])]
  /\ transcript
       (snd (Google.answer_function_calls
               (E := env Google.Request Google.Response)
               (model_content two_call_parts) two_call_parts
               (gemini_conversation gemini_two_calls_world)))
     = transcript (gemini_conversation gemini_two_calls_world)
       ++ [model_content two_call_parts;
           {| Google.role := Some "function";
              Google.parts :=
                Some [Google.from_function_response "get_mongodb_collections"
                        [("result", String.append "users" newline)];
                      Google.from_function_response "execute_mongodb_query"
                        [("error",
                          String.append "Error executing tool: "
                                        (exc_msg decode_error))]] |}].
Proof. repeat split. Qed.

(** The scripted run of the specification: two iterations with one tool
    call each, then a plain answer, which is returned after exactly three
    calls of the model. *)
Example three_calls_then_answer :
  fst (OpenAI.process_query "gpt-4o" "policy" "How many users are there?" 5
         (start
            {| catalog := [];
               responses :=
                 [openai_reply None
                    (Some [tool_call "call_1" "get_mongodb_collections" "{}"]);
                  openai_reply None
                    (Some [tool_call "call_2" "execute_mongodb_query" "{}"]);
                  openai_reply (Some "Found 3 users") None];
               results := [text_result "users" false;
                           text_result "3 documents" false] |}))
  = Returns (Some "Found 3 users")
  /\ model_calls
       (trace
          (snd (OpenAI.process_query "gpt-4o" "policy"
                  "How many users are there?" 5
                  (start
                     {| catalog := [];
                        responses :=
                          [openai_reply None
                             (Some [tool_call "call_1"
                                              "get_mongodb_collections" "{}"]);
                           openai_reply None
                             (Some [tool_call "call_2"
                                              "execute_mongodb_query" "{}"]);
                           openai_reply (Some "Found 3 users") None];
                        results := [text_result "users" false;
                                    text_result "3 documents" false] |}))))
     = 3
  /\ fst (Google.process_query "gemini-2.0-flash" "policy"
            "How many users are there?" 5
            (start
               {| catalog := [];
                  responses :=
                    [gemini_reply [call_part "get_mongodb_collections"
                                             (Google.ArgsDict [])];
                     gemini_reply [call_part "execute_mongodb_query"
                                             (Google.ArgsDict [])];
                     gemini_reply [Google.text_part "Found 3 users"]];
                  results := [text_result "users" false;
                              text_result "3 documents" false] |}))
     = Returns (Some "Found 3 users").
Proof. repeat split. Qed.
(** Two more first responses without a function call the Gemini client
    does not answer: a message with no part, and any response when the cap
    is [0]. *)
Example gemini_first_response_not_answered :
  fst (Google.process_query "gemini-2.0-flash" "policy" "Say hello" 5
         (start {| catalog := []; responses := [gemini_reply []];
                   results := [] |}))
  = Raises (IndexError "list index out of range")
  /\ fst (Google.process_query "gemini-2.0-flash" "policy" "Say hello" 0
            (start gemini_answer_world))
     = Raises (AttributeError
                 "'GenerateContentResponse' object has no attribute 'choices'").
Proof. split; reflexivity. Qed.
(** C10 on a database of three users: a limit of [0] returns the three,
    a limit of [2] the first two; the identifiers are returned as text. *)
Example limit_zero_returns_all_users :
  Server.execute_mongodb_query (JDict []) "users" "UsersDB" "mongodb://db"
                               None (Some 0%Z) None
  = Ok (Server.PList
          [Server.PDict [("_id", Server.PStr "65f0a1b2c3d4e5f601234567");
                         ("name", Server.PStr "Asha")];
           Server.PDict [("_id", Server.PStr "65f0a1b2c3d4e5f601234568");
                         ("name", Server.PStr "Ravi")];
           Server.PDict [("_id", Server.PStr "65f0a1b2c3d4e5f601234569");
                         ("name", Server.PStr "Meena")]])
  /\ Server.execute_mongodb_query (JDict []) "users" "UsersDB" "mongodb://db"
                                  None (Some 2%Z) None
     = Ok (Server.PList
             [Server.PDict [("_id", Server.PStr "65f0a1b2c3d4e5f601234567");
                            ("name", Server.PStr "Asha")];
              Server.PDict [("_id", Server.PStr "65f0a1b2c3d4e5f601234568");
                            ("name", Server.PStr "Ravi")]]).
Proof. split; reflexivity. Qed.
End ScriptedRuns.

(* ================================================================== *)
(** * Further properties of the server                                 *)
(* ================================================================== *)

Section MoreServerProperties.
Import Server.
Context {DB : Database}.
Variable MONGODB_CONNECTION_STRING : string.

Lemma convert_objectids_fixed (v : pyval) :
  objectid_free v = true -> convert_objectids v = v.
Proof.
  induction v using pyval_nested_ind; simpl; intros Hv;
    try reflexivity; try discriminate.
  - f_equal. rewrite forallb_forall in Hv. rewrite Forall_forall in H.
    rewrite <- (map_id l) at 2. apply map_ext_in. auto.
  - f_equal. rewrite forallb_forall in Hv. rewrite Forall_forall in H.
    rewrite <- (map_id d) at 2. apply map_ext_in. intros [k x] Hin. simpl.
    f_equal. apply (H _ Hin). apply (Hv _ Hin).
Qed.

(** Converting twice is converting once: the conversion of every value
    is a value the conversion leaves as it is. *)
Theorem convert_objectids_idempotent (v : pyval) :
  convert_objectids (convert_objectids v) = convert_objectids v.
Proof. apply convert_objectids_fixed, convert_objectids_free. Qed.

(** A value that holds no [ObjectId] is returned as it is. *)
Theorem objectid_free_values_are_unchanged (v : pyval) :
  objectid_free v = true -> convert_objectids v = v.
Proof. apply convert_objectids_fixed. Qed.

(** An empty [sort] list is no sort: both query tools return with
    [sort = []] what they return with [sort = None], whatever the other
    arguments are. *)
Theorem empty_sort_is_no_sort
        (query : json) (collection database connection city : string)
        (projection : option json) (limit : option Z) :
  execute_mongodb_query query collection database connection projection
                        limit (Some [])
  = execute_mongodb_query query collection database connection projection
                          limit None
  /\ get_users_by_city MONGODB_CONNECTION_STRING city projection limit
                       (Some [])
     = get_users_by_city MONGODB_CONNECTION_STRING city projection limit None.
Proof. split; reflexivity. Qed.

End MoreServerProperties.

(** A nested document without an identifier, for the property above. *)
Lemma objectid_free_values_witness :
  Server.convert_objectids
    (Server.PList [Server.PDict [("name", Server.PStr "Asha");
                                 ("tags", Server.PList [Server.PInt 3;
                                                        Server.PNone])]])
  = Server.PList [Server.PDict [("name", Server.PStr "Asha");
                                ("tags", Server.PList [Server.PInt 3;
                                                       Server.PNone])]].
Proof.
  apply (@objectid_free_values_are_unchanged
           (Server.PList [Server.PDict [("name", Server.PStr "Asha");
                                        ("tags", Server.PList [Server.PInt 3;
                                                               Server.PNone])]])).
  reflexivity.
Defined.


(* ================================================================== *)
(** * Further properties of the tool results                           *)
(* ================================================================== *)

Lemma string_append_assoc (a b c : string) :
  String.append (String.append a b) c = String.append a (String.append b c).
Proof. induction a as [|x a IH]; simpl; [reflexivity | now rewrite IH]. Qed.

Lemma string_append_empty (a : string) : String.append a "" = a.
Proof. induction a as [|x a IH]; simpl; [reflexivity | now rewrite IH]. Qed.

(** The lines of a list of texts: each text followed by a newline. *)
Lemma join_text_texts (texts : list string) :
  forall acc,
    join_text (map TextContent texts) acc
    = Ok (String.append acc
            (fold_right (fun text rest =>
                           String.append text (String.append newline rest))
                        "" texts)).
Proof.
  induction texts as [|text texts IH]; intros acc; simpl.
  - now rewrite string_append_empty.
  - rewrite IH. now rewrite !string_append_assoc.
Qed.

Lemma join_text_non_text (texts : list string) (class_name : string)
      (rest : list ContentBlock) :
  forall acc,
    join_text (map TextContent texts ++ OtherContent class_name :: rest) acc
    = Raise (AttributeError
               (String.append "'"
                  (String.append class_name
                                 "' object has no attribute 'text'"))).
Proof.
  induction texts as [|text texts IH]; intros acc; simpl;
    [reflexivity | apply IH].
Qed.

(** The text of a tool result is the text of each of its blocks followed
    by a newline, in the order of the blocks (the empty text for no
    block); a block that is no text block makes the reading raise, and
    the text of the blocks before it is lost. *)
Theorem tool_result_text_is_lines_of_blocks
        (texts : list string) (class_name : string) (rest : list ContentBlock) :
  join_text (map TextContent texts) ""
  = Ok (fold_right (fun text lines =>
                      String.append text (String.append newline lines))
                   "" texts)
  /\ join_text (map TextContent texts ++ OtherContent class_name :: rest) ""
     = Raise (AttributeError
                (String.append "'"
                   (String.append class_name
                                  "' object has no attribute 'text'"))).
Proof.
  split.
  - apply join_text_texts.
  - apply join_text_non_text.
Qed.

(* ================================================================== *)
(** * Further properties of the OpenAI client                          *)
(* ================================================================== *)

Section MoreOpenAIProperties.
Import OpenAI.
Context {W : Type} {E : Env W Request Response}.
Variable model : string.
Variable system_prompt : string.

Local Abbreviation state := (state W Request Message).

(** A query always ends, returning or raising, after at most
    [max_iterations + 1] calls of the model (one call for a cap below
    [0]), whatever the model and the tool host answer. *)
Theorem openai_query_ends_within_call_budget
        (query : string) (max_iterations : Z) (s : state) :
  fst (process_query model system_prompt query max_iterations s) <> OutOfFuel
  /\ exists new,
       trace (snd (process_query model system_prompt query max_iterations s))
       = trace s ++ new
       /\ model_calls new <= Z.to_nat max_iterations + 1.
Proof. apply openai_process_query_bounded. Qed.

(** At the cap the loop sends one request without tools and with
    [tool_choice = "none"], carrying the conversation as it is, and
    returns the content of the first choice; the conversation is left as
    it is. *)
Theorem openai_final_call_returns_content
        (fuel : nat) (tools : list FunctionTool)
        (max_iterations iteration_count : Z) (s : state)
        (response : Response) (w : W) (message : ChatMessage)
        (rest : list ChatMessage) :
  (max_iterations <= iteration_count)%Z ->
  generate (world s)
           {| rq_model := model; rq_messages := transcript s;
              rq_tools := None; rq_tool_choice := "none" |}
  = (Ok response, w) ->
  choices response = message :: rest ->
  loop model fuel tools max_iterations iteration_count s
  = (Returns (cm_content message),
     {| world := w;
        trace := trace s
                 ++ [EvModel {| rq_model := model; rq_messages := transcript s;
                                rq_tools := None; rq_tool_choice := "none" |}];
        transcript := transcript s |}).
Proof. intros. eapply openai_loop_exhausted; eassumption. Qed.

(** A failure of the model provider is not recovered: when the call of
    an iteration, or the final call, raises, the loop raises the same
    exception at once, with no tool call and the conversation as it was. *)
Theorem openai_model_failure_is_raised
        (fuel : nat) (tools : list FunctionTool)
        (max_iterations iteration_count : Z) (s : state) (e : exn) (w : W) :
  generate (world s)
           (if (iteration_count <? max_iterations)%Z
            then loop_request model tools (transcript s)
            else final_request model (transcript s))
  = (Raise e, w) ->
  exists rq,
    loop model (S fuel) tools max_iterations iteration_count s
    = (Raises e,
       {| world := w; trace := trace s ++ [EvModel rq];
          transcript := transcript s |}).
Proof.
  intros Hg. cbn [loop]. destruct (iteration_count <? max_iterations)%Z.
  - unfold bind, conversation, do_generate. simpl. rewrite Hg. simpl. eauto.
  - unfold final_call, bind, conversation, do_generate. simpl. rewrite Hg.
    simpl. eauto.
Qed.

(** When the catalog cannot be fetched the query raises the failure of
    the fetch: the model is not called and no conversation is started. *)
Theorem openai_catalog_failure_aborts_query
        (query : string) (max_iterations : Z) (s : state) (e : exn) (w : W) :
  list_tools (world s) = (Raise e, w) ->
  process_query model system_prompt query max_iterations s
  = (Raises e,
     {| world := w; trace := trace s ++ [EvListTools];
        transcript := transcript s |}).
Proof.
  intros Hl. unfold process_query, get_mcp_tools, bind, do_list_tools.
  rewrite Hl. reflexivity.
Qed.


(** A tool result with a block that is no text block: the tool message
    of the call is the message of the attribute error, and the text of
    the other blocks is not passed on. *)
Theorem openai_non_text_result_becomes_error_message
        (tool_call : ToolCall) (s : state) (arguments : json)
        (result : CallToolResult) (w : W) (texts : list string)
        (class_name : string) (rest : list ContentBlock) :
  json_loads (tc_arguments tool_call) = Ok arguments ->
  call_tool (world s) (tc_name tool_call) arguments = (Ok result, w) ->
  content result = map TextContent texts ++ OtherContent class_name :: rest ->
  run_tool_call tool_call s
  = (Returns tt,
     {| world := w;
        trace := trace s ++ [EvTool (tc_name tool_call) arguments];
        transcript :=
          transcript s
          ++ [MTool (tc_id tool_call)
                (String.append "Error executing tool: "
                   (String.append "'"
                      (String.append class_name
                                     "' object has no attribute 'text'")))] |}).
Proof.
  intros Ha Hc Hr. unfold run_tool_call, try_except, bind, lift, do_call_tool.
  rewrite Ha. simpl. rewrite Hc. simpl. rewrite Hr, join_text_non_text.
  reflexivity.
Qed.
End MoreOpenAIProperties.

(* ================================================================== *)
(** * Further properties of the Gemini client                          *)
(* ================================================================== *)

Section MoreGoogleProperties.
Import Google.
Context {W : Type} {E : Env W Request Response}.
Variable model : string.
Variable system_instruction : string.

Local Abbreviation state := (state W Request Content).

(** A query always ends, returning or raising, after at most
    [max_iterations + 1] calls of the model (one call for a cap below
    [0]), whatever the model and the tool host answer. *)
Theorem gemini_query_ends_within_call_budget
        (query : string) (max_iterations : Z) (s : state) :
  fst (process_query model system_instruction query max_iterations s)
  <> OutOfFuel
  /\ exists new,
       trace (snd (process_query model system_instruction query
                                 max_iterations s))
       = trace s ++ new
       /\ model_calls new <= Z.to_nat max_iterations + 1.
Proof. apply google_process_query_bounded. Qed.

(** A failure of the model provider is not recovered: when the call of
    an iteration, or the final call, raises, the loop raises the same
    exception at once, with no tool call and the conversation as it was. *)
Theorem gemini_model_failure_is_raised
        (fuel : nat) (tools : list GTool)
        (max_iterations iteration_count : Z) (s : state) (e : exn) (w : W) :
  generate (world s)
           (if (iteration_count <? max_iterations)%Z
            then loop_request model system_instruction tools (transcript s)
            else final_request model (transcript s))
  = (Raise e, w) ->
  exists rq,
    loop model system_instruction (S fuel) tools max_iterations
         iteration_count s
    = (Raises e,
       {| world := w; trace := trace s ++ [EvModel rq];
          transcript := transcript s |}).
Proof.
  intros Hg. cbn [loop]. destruct (iteration_count <? max_iterations)%Z.
  - unfold bind, conversation, do_generate. simpl. rewrite Hg. simpl. eauto.
  - unfold final_call, bind, conversation, do_generate. simpl. rewrite Hg.
    simpl. eauto.
Qed.

(** A response of the model without candidates, without a content or
    without parts makes the iteration raise: nothing is added to the
    conversation and no tool is called. *)
Theorem gemini_response_without_parts_is_raised
        (fuel : nat) (tools : list GTool)
        (max_iterations iteration_count : Z) (s : state)
        (response : Response) (w : W) :
  (iteration_count < max_iterations)%Z ->
  generate (world s) (loop_request model system_instruction tools (transcript s))
  = (Ok response, w) ->
  candidates response = None
  \/ candidates response = Some []
  \/ (exists candidate rest,
         candidates response = Some (candidate :: rest)
         /\ (cand_content candidate = None
             \/ exists message,
                  cand_content candidate = Some message
                  /\ (parts message = None \/ parts message = Some []))) ->
  exists e,
    loop model system_instruction (S fuel) tools max_iterations
         iteration_count s
    = (Raises e,
       {| world := w;
          trace := trace s
                   ++ [EvModel (loop_request model system_instruction tools
                                             (transcript s))];
          transcript := transcript s |})
    /\ In (exc_type e) ["TypeError"; "IndexError"; "AttributeError"].
Proof.
  intros Hi Hg Hshape. apply Z.ltb_lt in Hi. cbn [loop]. rewrite Hi.
  unfold bind, conversation, do_generate, lift, first_candidate_content,
    parts_of, raise.
  simpl. rewrite Hg. simpl.
  destruct Hshape as [Hc|[Hc|[candidate [rest [Hc Hm]]]]]; rewrite Hc; simpl.
  - eexists. split; [reflexivity|]. simpl. auto.
  - eexists. split; [reflexivity|]. simpl. auto.
  - destruct Hm as [Hm|[message [Hm [Hp|Hp]]]]; rewrite Hm; simpl;
      try rewrite Hp; simpl;
      (eexists; split; [reflexivity|]; simpl; auto).
Qed.

(** When the catalog cannot be fetched the query raises the failure of
    the fetch: the model is not called and no conversation is started. *)
Theorem gemini_catalog_failure_aborts_query
        (query : string) (max_iterations : Z) (s : state) (e : exn) (w : W) :
  list_tools (world s) = (Raise e, w) ->
  process_query model system_instruction query max_iterations s
  = (Raises e,
     {| world := w; trace := trace s ++ [EvListTools];
        transcript := transcript s |}).
Proof.
  intros Hl. unfold process_query, get_mcp_tools, bind, do_list_tools.
  rewrite Hl. reflexivity.
Qed.


(** A tool result with a block that is no text block: the response of
    the call is an error response with the message of the attribute
    error, whatever the error flag of the result, and the text of the
    other blocks is not passed on. *)
Theorem gemini_non_text_result_becomes_error_response
        (fc : FunctionCall) (s : state) (arguments : json)
        (result : CallToolResult) (w : W) (texts : list string)
        (class_name : string) (rest : list ContentBlock) :
  arguments_of (fc_args fc) = Ok arguments ->
  call_tool (world s) (fc_name fc) arguments = (Ok result, w) ->
  content result = map TextContent texts ++ OtherContent class_name :: rest ->
  run_function_call fc s
  = (Returns [("error",
               String.append "Error executing tool: "
                 (String.append "'"
                    (String.append class_name
                                   "' object has no attribute 'text'")))],
     {| world := w; trace := trace s ++ [EvTool (fc_name fc) arguments];
        transcript := transcript s |}).
Proof.
  intros Ha Hc Hr. unfold run_function_call, try_except, bind, lift, do_call_tool.
  rewrite Ha. simpl. rewrite Hc. simpl. rewrite Hr, join_text_non_text.
  reflexivity.
Qed.

(** A tool result of text blocks: the response of the call holds the
    lines of the blocks under the key [error] when the result carries the
    error flag and under the key [result] when it does not; the host was
    called once, with the arguments as parsed (or as given, for a
    dictionary). *)
Theorem gemini_result_is_marked_by_error_flag
        (fc : FunctionCall) (s : state) (arguments : json)
        (result : CallToolResult) (w : W) (texts : list string) :
  arguments_of (fc_args fc) = Ok arguments ->
  call_tool (world s) (fc_name fc) arguments = (Ok result, w) ->
  content result = map TextContent texts ->
  run_function_call fc s
  = (Returns [(if isError result then "error" else "result",
               fold_right (fun text lines =>
                             String.append text (String.append newline lines))
                          "" texts)],
     {| world := w; trace := trace s ++ [EvTool (fc_name fc) arguments];
        transcript := transcript s |}).
Proof.
  intros Ha Hc Hr. eapply google_function_call_answered; eauto.
  rewrite Hr. apply join_text_texts.
Qed.
End MoreGoogleProperties.

(* ================================================================== *)
(** * The further properties on scripted collaborators                 *)
(* ================================================================== *)

Section MoreScriptedRuns.
Import Scripted Scripts.

(** The final call of the OpenAI client, at a cap of [0]. *)
Lemma openai_final_call_witness :
  OpenAI.loop "gpt-4o" 0 [] 0 0 (openai_conversation final_world)
  = (Returns (OpenAI.cm_content
                (chat_message (Some "I could not finish.") None)),
     {| world := silent;
        trace := trace (openai_conversation final_world)
                 ++ [EvModel {| OpenAI.rq_model := "gpt-4o";
                                OpenAI.rq_messages :=
                                  transcript (openai_conversation final_world);
                                OpenAI.rq_tools := None;
                                OpenAI.rq_tool_choice := "none" |}];
        transcript := transcript (openai_conversation final_world) |}).
Proof.
  apply (@openai_final_call_returns_content _ (env _ _) "gpt-4o" 0 [] 0%Z 0%Z
           (openai_conversation final_world)
           {| OpenAI.choices :=
                [chat_message (Some "I could not finish.") None] |}
           silent (chat_message (Some "I could not finish.") None) []);
    [lia | reflexivity | reflexivity].
Defined.

(** A provider that refuses the first call of the OpenAI client. *)
Lemma openai_model_failure_witness :
  exists rq,
    OpenAI.loop "gpt-4o" 5 [] 5 0 (openai_conversation refusing_world)
    = (Raises refused,
       {| world := silent;
          trace := trace (openai_conversation refusing_world) ++ [EvModel rq];
          transcript := transcript (openai_conversation refusing_world) |}).
Proof.
  apply (@openai_model_failure_is_raised _ (env _ _) "gpt-4o" 4 [] 5%Z 0%Z
           (openai_conversation refusing_world) refused silent).
  reflexivity.
Defined.

(** A tool host that is not reached when the OpenAI client starts a
    query. *)
Lemma openai_catalog_failure_witness :
  OpenAI.process_query (E := offline _ _) "gpt-4o" "policy"
                       "Who lives in Pune?" 5 (start silent)
  = (Raises unreachable,
     {| world := silent;
        trace := trace (start (Req := OpenAI.Request) (Msg := OpenAI.Message)
                              (silent (Resp := OpenAI.Response)))
                 ++ [EvListTools];
        transcript := transcript (start (Req := OpenAI.Request)
                                        (Msg := OpenAI.Message)
                                        (silent (Resp := OpenAI.Response))) |}).
Proof.
  apply (@openai_catalog_failure_aborts_query _ (offline _ _) "gpt-4o" "policy"
           "Who lives in Pune?" 5%Z (start silent) unreachable silent).
  reflexivity.
Defined.


(** A tool result of a text and an image, in the OpenAI client. *)
Lemma openai_non_text_result_witness :
  OpenAI.run_tool_call (E := env _ _)
    (tool_call "call_1" "plot_users" "{}")
    (openai_conversation image_world)
  = (Returns tt,
     {| world := silent;
        trace := trace (openai_conversation image_world)
                 ++ [EvTool "plot_users" (JDict [])];
        transcript :=
          transcript (openai_conversation image_world)
          ++ [OpenAI.MTool "call_1"
                (String.append "Error executing tool: "
                   (String.append "'"
                      (String.append "ImageContent"
                                     "' object has no attribute 'text'")))] |}).
Proof.
  apply (@openai_non_text_result_becomes_error_message _ (env _ _)
           (tool_call "call_1" "plot_users" "{}")
           (openai_conversation image_world) (JDict []) image_result silent
           ["chart"] "ImageContent" []);
    reflexivity.
Defined.

(** A provider that refuses the first call of the Gemini client. *)
Lemma gemini_model_failure_witness :
  exists rq,
    Google.loop "gemini-2.0-flash" "policy" 5 [] 5 0
                (gemini_conversation refusing_world)
    = (Raises refused,
       {| world := silent;
          trace := trace (gemini_conversation refusing_world) ++ [EvModel rq];
          transcript := transcript (gemini_conversation refusing_world) |}).
Proof.
  apply (@gemini_model_failure_is_raised _ (env _ _) "gemini-2.0-flash"
           "policy" 4 [] 5%Z 0%Z (gemini_conversation refusing_world)
           refused silent).
  reflexivity.
Defined.

(** A response of the Gemini model whose message has no part. *)
Lemma gemini_response_without_parts_witness :
  exists e,
    Google.loop "gemini-2.0-flash" "policy" 5 [] 5 0
      (gemini_conversation
         {| catalog := []; responses := [gemini_reply []]; results := [] |})
    = (Raises e,
       {| world := silent;
          trace :=
            trace (gemini_conversation
                     {| catalog := []; responses := [gemini_reply []];
                        results := [] |})
            ++ [EvModel
                  (Google.loop_request "gemini-2.0-flash" "policy" []
                     (transcript
                        (gemini_conversation
                           {| catalog := []; responses := [gemini_reply []];
                              results := [] |})))];
          transcript :=
            transcript (gemini_conversation
                          {| catalog := []; responses := [gemini_reply []];
                             results := [] |}) |})
    /\ In (exc_type e) ["TypeError"; "IndexError"; "AttributeError"].
Proof.
  apply (@gemini_response_without_parts_is_raised _ (env _ _)
           "gemini-2.0-flash" "policy" 4 [] 5%Z 0%Z
           (gemini_conversation
              {| catalog := []; responses := [gemini_reply []]; results := [] |})
           {| Google.candidates :=
                Some [{| Google.cand_content := Some (model_content []) |}] |}
           silent); [lia | reflexivity |].
  right. right. exists {| Google.cand_content := Some (model_content []) |}, [].
  split; [reflexivity|]. right. exists (model_content []).
  split; [reflexivity|]. right. reflexivity.
Defined.

(** A tool host that is not reached when the Gemini client starts a
    query. *)
Lemma gemini_catalog_failure_witness :
  Google.process_query (E := offline _ _) "gemini-2.0-flash" "policy"
                       "Who lives in Pune?" 5 (start silent)
  = (Raises unreachable,
     {| world := silent;
        trace := trace (start (Req := Google.Request) (Msg := Google.Content)
                              (silent (Resp := Google.Response)))
                 ++ [EvListTools];
        transcript := transcript (start (Req := Google.Request)
                                        (Msg := Google.Content)
                                        (silent (Resp := Google.Response))) |}).
Proof.
  apply (@gemini_catalog_failure_aborts_query _ (offline _ _)
           "gemini-2.0-flash" "policy" "Who lives in Pune?" 5%Z (start silent)
           unreachable silent).
  reflexivity.
Defined.


(** A tool result of a text and an image, in the Gemini client. *)
Lemma gemini_non_text_result_witness :
  Google.run_function_call (E := env _ _)
    {| Google.fc_name := "plot_users"; Google.fc_args := Google.ArgsDict [] |}
    (gemini_conversation image_world)
  = (Returns [("error",
               String.append "Error executing tool: "
                 (String.append "'"
                    (String.append "ImageContent"
                                   "' object has no attribute 'text'")))],
     {| world := silent;
        trace := trace (gemini_conversation image_world)
                 ++ [EvTool "plot_users" (JDict [])];
        transcript := transcript (gemini_conversation image_world) |}).
Proof.
  apply (@gemini_non_text_result_becomes_error_response _ (env _ _)
           {| Google.fc_name := "plot_users";
              Google.fc_args := Google.ArgsDict [] |}
           (gemini_conversation image_world) (JDict []) image_result silent
           ["chart"] "ImageContent" []);
    reflexivity.
Defined.

(** A tool result of two text blocks with the error flag, in the Gemini
    client. *)
Lemma gemini_error_flag_witness :
  Google.run_function_call (E := env _ _)
    {| Google.fc_name := "execute_mongodb_query";
       Google.fc_args := Google.ArgsText "{}" |}
    (gemini_conversation
       {| catalog := []; responses := [];
          results := [Ok {| content := [TextContent "Query operation failed";
                                        TextContent "unknown operator"];
                            isError := true |}] |})
  = (Returns [(if isError {| content := [TextContent "Query operation failed";
                                         TextContent "unknown operator"];
                             isError := true |}
               then "error" else "result",
               fold_right (fun text lines =>
                             String.append text (String.append newline lines))
                          "" ["Query operation failed"; "unknown operator"])],
     {| world := silent;
        trace := trace (gemini_conversation
                          {| catalog := []; responses := [];
                             results :=
                               [Ok {| content :=
                                        [TextContent "Query operation failed";
                                         TextContent "unknown operator"];
                                      isError := true |}] |})
                 ++ [EvTool "execute_mongodb_query" (JDict [])];
        transcript :=
          transcript (gemini_conversation
                        {| catalog := []; responses := [];
                           results :=
                             [Ok {| content :=
                                      [TextContent "Query operation failed";
                                       TextContent "unknown operator"];
                                    isError := true |}] |}) |}).
Proof.
  apply (@gemini_result_is_marked_by_error_flag _ (env _ _)
           {| Google.fc_name := "execute_mongodb_query";
              Google.fc_args := Google.ArgsText "{}" |}
           (gemini_conversation
              {| catalog := []; responses := [];
                 results := [Ok {| content := [TextContent "Query operation failed";
                                               TextContent "unknown operator"];
                                   isError := true |}] |})
           (JDict [])
           {| content := [TextContent "Query operation failed";
                          TextContent "unknown operator"];
              isError := true |}
           silent ["Query operation failed"; "unknown operator"]);
    reflexivity.
Defined.
End MoreScriptedRuns.

(* ================================================================== *)
(** * Further properties of the schema normalization                   *)
(* ================================================================== *)

Section MoreSchemaProperties.
Import Schema.

Lemma str_in_app (k : string) (a b : list string) :
  str_in k (a ++ b) = str_in k a || str_in k b.
Proof. unfold str_in. apply existsb_app. Qed.

Lemma dict_set_fresh (d : dict) (k : string) (v : json) :
  str_in k (dict_keys d) = false -> dict_set d k v = d ++ [(k, v)].
Proof.
  induction d as [|[k' v'] d IH]; simpl; [reflexivity|].
  unfold str_in in *. simpl. intros H. apply orb_false_iff in H.
  destruct H as [Hk Hd]. rewrite Hk. now rewrite IH.
Qed.

Lemma dict_set_keys (d : dict) (k : string) (v : json) :
  dict_keys (dict_set d k v)
  = if str_in k (dict_keys d) then dict_keys d else dict_keys d ++ [k].
Proof.
  induction d as [|[k' v'] d IH]; simpl; [reflexivity|].
  unfold str_in in *. simpl. destruct (String.eqb k k') eqn:Hk; simpl.
  - reflexivity.
  - unfold dict_keys in *. rewrite IH.
    destruct (existsb (String.eqb k) (map fst d)); reflexivity.
Qed.

Lemma no_repeat_snoc (l : list string) (k : string) :
  no_repeat l = true -> str_in k l = false -> no_repeat (l ++ [k]) = true.
Proof.
  induction l as [|x l IH]; simpl; [reflexivity|].
  intros Hl Hk. apply andb_true_iff in Hl. destruct Hl as [Hx Hl].
  unfold str_in in Hk. simpl in Hk. apply orb_false_iff in Hk.
  destruct Hk as [Hkx Hk].
  rewrite str_in_app. unfold str_in at 2. simpl.
  rewrite String.eqb_sym, Hkx. rewrite !orb_false_r. rewrite Hx. simpl.
  now apply IH.
Qed.

Lemma no_repeat_middle (a b : list string) (k : string) :
  no_repeat (a ++ k :: b) = true -> str_in k a = false.
Proof.
  induction a as [|x a IH]; simpl; [reflexivity|].
  intros H. apply andb_true_iff in H. destruct H as [Hx Ha].
  unfold str_in. simpl. apply orb_false_iff. split; [|now apply IH].
  rewrite str_in_app in Hx. unfold str_in at 2 in Hx. simpl in Hx.
  apply negb_true_iff in Hx. apply orb_false_iff in Hx. destruct Hx as [_ Hx].
  apply orb_false_iff in Hx. destruct Hx as [Hx _].
  now rewrite String.eqb_sym.
Qed.

Lemma dict_set_distinct (d : dict) (k : string) (v : json) :
  no_repeat (dict_keys d) = true ->
  forallb (fun kv => distinct_keys (snd kv)) d = true ->
  distinct_keys v = true ->
  no_repeat (dict_keys (dict_set d k v)) = true
  /\ forallb (fun kv => distinct_keys (snd kv)) (dict_set d k v) = true.
Proof.
  intros Hn Hd Hv. split.
  - rewrite dict_set_keys. destruct (str_in k (dict_keys d)) eqn:Hk; [exact Hn|].
    now apply no_repeat_snoc.
  - apply forallb_forall. intros [k' v'] Hin.
    destruct (dict_set_entries _ _ _ _ _ Hin) as [Hold|[_ ->]]; [|exact Hv].
    rewrite forallb_forall in Hd. apply (Hd _ Hold).
Qed.

(** The dictionaries of a cleaned schema have distinct keys. *)
Lemma clean_distinct_keys (j : json) :
  forall r, clean_schema_recursive j = Ok r -> distinct_keys r = true.
Proof.
  induction j using json_deep_ind; simpl; intros r Hc;
    try (inversion Hc; reflexivity).
  - destruct (clean_list clean_schema_recursive l) as [rs|e] eqn:Hl;
      try discriminate.
    inversion Hc. simpl. apply clean_list_result in Hl. clear Hc H1.
    induction Hl as [|x v l rs Hx Hl IH]; simpl; [reflexivity|].
    inversion H as [|? ? Px Pl]; subst. rewrite (Px _ Hx). simpl. auto.
  - revert r Hc.
    assert (Hgen : forall cleaned r,
               no_repeat (dict_keys cleaned) = true ->
               forallb (fun kv => distinct_keys (snd kv)) cleaned = true ->
               clean_items clean_schema_recursive d cleaned = Ok r ->
               distinct_keys r = true).
    { induction d as [|[key value] rest IHd]; intros cleaned r Hn Hv.
      - simpl. intros Hr. inversion Hr. simpl. now rewrite Hn, Hv.
      - rewrite clean_items_cons.
        inversion H as [|? ? [Pv Po] Pr]; subst. simpl in Pv, Po.
        specialize (IHd Pr).
        destruct (str_in key unsupported_fields); [now apply IHd|].
        destruct (is_union_key key).
        + destruct value as [| | | |options|]; try discriminate;
            try (now apply IHd).
          clear Pv H. induction options as [|o options IHo];
            [simpl; now apply IHd|].
          rewrite scan_options_cons. inversion Po as [|? ? Pa Pb]; subst.
          destruct (non_null_dict o); [apply Pa | now apply IHo].
        + destruct (clean_schema_recursive value) as [v|e] eqn:Hval;
            [|discriminate].
          destruct (dict_set_distinct cleaned key v Hn Hv (Pv _ eq_refl))
            as [Hn' Hv'].
          now apply IHd. }
    intros r Hc. now apply (Hgen [] r).
Qed.

#[local] Arguments str_in : simpl never.

(** A schema with distinct keys that holds none of the removed keys is
    cleaned to itself. *)
Lemma clean_fixed (j : json) :
  key_free removed_keys j = true -> distinct_keys j = true ->
  clean_schema_recursive j = Ok j.
Proof.
  induction j using json_nested_ind; simpl; intros Hf Hd; try reflexivity.
  - assert (Hl : clean_list clean_schema_recursive l = Ok l).
    { induction l as [|x l IHl]; simpl; [reflexivity|].
      simpl in Hf, Hd. apply andb_true_iff in Hf, Hd.
      destruct Hf as [Hfx Hfl], Hd as [Hdx Hdl].
      inversion H as [|? ? Px Pl]; subst.
      rewrite (Px Hfx Hdx), (IHl Pl Hfl Hdl). reflexivity. }
    now rewrite Hl.
  - apply andb_true_iff in Hd. destruct Hd as [Hn Hv].
    assert (Hgen : forall cleaned,
               no_repeat (dict_keys (cleaned ++ d)) = true ->
               clean_items clean_schema_recursive d cleaned
               = Ok (JDict (cleaned ++ d))).
    { clear Hn. induction d as [|[key value] rest IHd]; intros cleaned Hn.
      - simpl. now rewrite app_nil_r.
      - rewrite clean_items_cons.
        simpl in Hf, Hv. apply andb_true_iff in Hf, Hv.
        destruct Hf as [Hfk Hfr], Hv as [Hvk Hvr].
        apply andb_true_iff in Hfk. destruct Hfk as [Hkey Hfv].
        apply negb_true_iff in Hkey. rewrite removed_key_split in Hkey.
        apply orb_false_iff in Hkey. destruct Hkey as [-> ->].
        inversion H as [|? ? Pv Pr]; subst. simpl in Pv.
        rewrite (Pv Hfv Hvk).
        unfold dict_keys in Hn. rewrite map_app in Hn. simpl in Hn.
        rewrite dict_set_fresh by (eapply no_repeat_middle; exact Hn).
        rewrite (IHd Pr Hfr Hvr).
        + now rewrite <- app_assoc.
        + unfold dict_keys. rewrite <- app_assoc, map_app. exact Hn. }
    apply (Hgen []). exact Hn.
Qed.

Lemma str_in_filter_keys (f : string * json -> bool) (d : dict) (k : string) :
  str_in k (dict_keys (filter f d)) = true -> str_in k (dict_keys d) = true.
Proof.
  unfold str_in, dict_keys. rewrite !existsb_exists.
  intros [x [Hx Hk]]. exists x. split; [|exact Hk].
  apply in_map_iff in Hx. destruct Hx as [kv [<- Hkv]].
  apply filter_In in Hkv. apply in_map. apply Hkv.
Qed.

Lemma no_repeat_filter (f : string * json -> bool) (d : dict) :
  no_repeat (dict_keys d) = true -> no_repeat (dict_keys (filter f d)) = true.
Proof.
  induction d as [|[k v] d IH]; simpl; [reflexivity|].
  intros H. apply andb_true_iff in H. destruct H as [Hk Hd].
  destruct (f (k, v)); simpl; [|now apply IH].
  apply andb_true_iff. split; [|now apply IH].
  apply negb_true_iff in Hk. apply negb_true_iff.
  destruct (str_in k (dict_keys (filter f d))) eqn:Hk'; [|reflexivity].
  apply str_in_filter_keys in Hk'. congruence.
Qed.

Lemma filter_fixed {A} (f : A -> bool) (l : list A) :
  forallb f l = true -> filter f l = l.
Proof.
  induction l as [|x l IH]; simpl; [reflexivity|].
  intros H. apply andb_true_iff in H. destruct H as [-> Hl]. now rewrite IH.
Qed.

Lemma parameters_of_fixed (inputSchema : dict) :
  forallb (fun kv => str_in (fst kv) whitelist) inputSchema = true ->
  key_free removed_keys (JDict inputSchema) = true ->
  distinct_keys (JDict inputSchema) = true ->
  parameters_of inputSchema = Ok inputSchema.
Proof.
  intros Hw Hf Hd. unfold parameters_of. rewrite (clean_fixed _ Hf Hd).
  now rewrite filter_fixed.
Qed.

(** A schema that needs no cleaning is passed on as it is: when the
    fields of its top level are whitelisted, none of the removed keys
    occurs at any depth and the keys of its dictionaries are distinct,
    the parameters of the tool are the schema itself. *)
Theorem clean_schema_is_passed_unchanged (inputSchema : dict) :
  forallb (fun kv => str_in (fst kv) whitelist) inputSchema = true ->
  key_free removed_keys (JDict inputSchema) = true ->
  distinct_keys (JDict inputSchema) = true ->
  parameters_of inputSchema = Ok inputSchema.
Proof. apply parameters_of_fixed. Qed.

(** The normalization is idempotent: cleaning a cleaned schema returns
    it as it is, and so does computing the parameters of a tool from the
    parameters computed for it. *)
Theorem normalization_is_idempotent :
  (forall j r,
      clean_schema_recursive j = Ok r -> clean_schema_recursive r = Ok r)
  /\ (forall inputSchema parameters,
        parameters_of inputSchema = Ok parameters ->
        parameters_of parameters = Ok parameters).
Proof.
  split.
  - intros j r Hc. apply clean_fixed.
    + eapply clean_key_free; exact Hc.
    + eapply clean_distinct_keys; exact Hc.
  - intros inputSchema parameters Hp.
    destruct (parameters_of_whitelisted _ Hp) as [Hw Hf].
    unfold parameters_of in Hp.
    destruct (clean_schema_recursive (JDict inputSchema)) as [r|e] eqn:Hc;
      [|discriminate].
    pose proof (clean_distinct_keys _ Hc) as Hd.
    destruct r; try discriminate. inversion Hp; subst. clear Hp.
    simpl in Hd. apply andb_true_iff in Hd. destruct Hd as [Hn Hv].
    apply parameters_of_fixed; auto.
    + apply forallb_forall. intros kv Hin. apply filter_In in Hin. apply Hin.
    + simpl. apply andb_true_iff. split; [now apply no_repeat_filter|].
      rewrite forallb_forall in *. intros kv Hin. apply filter_In in Hin.
      apply Hv, Hin.
Qed.
End MoreSchemaProperties.

(* ================================================================== *)
(** * Further properties of the catalog of the Gemini client           *)
(* ================================================================== *)

Section MoreCatalogProperties.
Import Google.
Context {W : Type} {E : Env W Request Response}.
Variable model : string.
Variable system_instruction : string.

Local Abbreviation state := (state W Request Content).

Lemma parameters_of_total (inputSchema : dict) :
  Schema.iterable_unions (JDict inputSchema) = true ->
  exists parameters, Schema.parameters_of inputSchema = Ok parameters.
Proof.
  intros Hi. destruct (clean_total _ Hi) as [r Hr].
  destruct (clean_dict_is_dict eq_refl Hr) as [d ->].
  unfold Schema.parameters_of. rewrite Hr. eauto.
Qed.

(** The declarations of a list of tools whose parameters can all be
    computed: one for each tool, in order, with its name, description and
    parameters. *)
Lemma declarations_spec (tools_result : list Tool) :
  Forall (fun tool =>
            exists parameters,
              Schema.parameters_of (tool_inputSchema tool) = Ok parameters)
         tools_result ->
  forall acc,
  exists tools,
    declarations tools_result acc = Ok (acc ++ tools)
    /\ Forall2 (fun tool declaration =>
                  fd_name declaration = tool_name tool
                  /\ fd_description declaration = tool_description tool
                  /\ Schema.parameters_of (tool_inputSchema tool)
                     = Ok (fd_parameters declaration))
               tools_result tools.
Proof.
  induction 1 as [|tool more [parameters Hp] Hmore IH]; intros acc.
  - exists []. simpl. rewrite app_nil_r. split; [reflexivity | constructor].
  - simpl. rewrite Hp.
    destruct (IH (acc ++ [{| fd_name := tool_name tool;
                             fd_description := tool_description tool;
                             fd_parameters := parameters |}]))
      as [tools [Hd Hall]].
    eexists (_ :: tools). rewrite Hd, <- app_assoc. split; [reflexivity|].
    constructor; [|exact Hall]. simpl. auto.
Qed.

Lemma declarations_fail (before after : list Tool) (tool : Tool) (e : exn) :
  Forall (fun tool =>
            exists parameters,
              Schema.parameters_of (tool_inputSchema tool) = Ok parameters)
         before ->
  Schema.parameters_of (tool_inputSchema tool) = Raise e ->
  forall acc, declarations (before ++ tool :: after) acc = Raise e.
Proof.
  intros Hb He. induction Hb as [|t more [parameters Hp] Hmore IH]; intros acc.
  - simpl. now rewrite He.
  - simpl. rewrite Hp. apply IH.
Qed.


(** There is no partial catalog: when the schema of one tool cannot be
    cleaned, the exception of the cleaning is raised by the fetch of the
    catalog and by the query, the declarations of the tools before it are
    dropped, and the model is not called. *)
Theorem gemini_schema_failure_aborts_catalog
        (query : string) (max_iterations : Z) (s : state)
        (before after : list Tool) (tool : Tool) (e : exn) (w : W) :
  list_tools (world s) = (Ok (before ++ tool :: after), w) ->
  Forall (fun tool =>
            exists parameters,
              Schema.parameters_of (tool_inputSchema tool) = Ok parameters)
         before ->
  Schema.parameters_of (tool_inputSchema tool) = Raise e ->
  get_mcp_tools s
  = (Raises e,
     {| world := w; trace := trace s ++ [EvListTools];
        transcript := transcript s |})
  /\ process_query model system_instruction query max_iterations s
     = (Raises e,
        {| world := w; trace := trace s ++ [EvListTools];
           transcript := transcript s |}).
Proof.
  intros Hl Hb He.
  pose proof (@declarations_fail before after tool e Hb He []) as Hd.
  split.
  - unfold get_mcp_tools, bind, do_list_tools, lift. rewrite Hl. simpl.
    rewrite Hd. reflexivity.
  - unfold process_query, get_mcp_tools, bind, do_list_tools, lift.
    rewrite Hl. simpl. rewrite Hd. reflexivity.
Qed.
End MoreCatalogProperties.

Section MoreCatalogRuns.
Import Scripted Scripts.

(** A schema that needs no cleaning. *)
Lemma clean_schema_witness :
  Schema.parameters_of age_parameters = Ok age_parameters.
Proof.
  apply (@clean_schema_is_passed_unchanged age_parameters); reflexivity.
Defined.

(** The schema of the tool of the first catalog, cleaned twice. *)
Lemma normalization_idempotent_witness :
  Schema.clean_schema_recursive
    (JDict [("type", JStr "object");
            ("properties",
             JDict [("age", JDict [("type", JStr "integer");
                                   ("minimum", JNum 0)])])])
  = Ok (JDict [("type", JStr "object");
               ("properties",
                JDict [("age", JDict [("type", JStr "integer");
                                      ("minimum", JNum 0)])])])
  /\ Schema.parameters_of age_parameters = Ok age_parameters.
Proof.
  destruct normalization_is_idempotent as [Hc Hp]. split.
  - apply (Hc (JDict (tool_inputSchema age_tool))). reflexivity.
  - apply (Hp (tool_inputSchema age_tool)). reflexivity.
Defined.


(** A catalog whose second tool has a schema that cannot be cleaned. *)
Lemma gemini_schema_failure_witness :
  Google.get_mcp_tools (E := env _ _) (start broken_catalog_world)
  = (Raises (TypeError "'int' object is not iterable"),
     {| world := broken_catalog_world;
        trace := trace (start (Req := Google.Request) (Msg := Google.Content)
                              (broken_catalog_world (Resp := Google.Response)))
                 ++ [EvListTools];
        transcript :=
          transcript (start (Req := Google.Request) (Msg := Google.Content)
                            (broken_catalog_world (Resp := Google.Response))) |})
  /\ Google.process_query (E := env _ _) "gemini-2.0-flash" "policy"
                          "Who lives in Pune?" 5 (start broken_catalog_world)
     = (Raises (TypeError "'int' object is not iterable"),
        {| world := broken_catalog_world;
           trace := trace (start (Req := Google.Request) (Msg := Google.Content)
                                 (broken_catalog_world (Resp := Google.Response)))
                    ++ [EvListTools];
           transcript :=
             transcript (start (Req := Google.Request) (Msg := Google.Content)
                               (broken_catalog_world
                                  (Resp := Google.Response))) |}).
Proof.
  apply (@gemini_schema_failure_aborts_catalog _ (env _ _) "gemini-2.0-flash"
           "policy" "Who lives in Pune?" 5%Z (start broken_catalog_world)
           [age_tool] [] broken_tool (TypeError "'int' object is not iterable")
           broken_catalog_world); [reflexivity | | reflexivity].
  constructor; [|constructor]. eexists. reflexivity.
Defined.
End MoreCatalogRuns.

(* ================================================================== *)
(** * The conversations sent to the model                              *)
(* ================================================================== *)

Section HistoryProperties.
Context {W Req Resp Msg : Type} {E : Env W Req Resp}.
Variable sent : Req -> list Msg.

Local Abbreviation M := (@M W Req Msg).
Local Abbreviation state := (state W Req Msg).

Lemma requests_of_app (a b : list (event Req)) :
  requests_of (a ++ b) = requests_of a ++ requests_of b.
Proof.
  induction a as [|[|rq|name args] a IH]; simpl; auto. now rewrite IH.
Qed.

Lemma catalog_fetches_app (a b : list (event Req)) :
  catalog_fetches (a ++ b) = catalog_fetches a + catalog_fetches b.
Proof.
  induction a as [|[|rq|name args] a IH]; simpl; auto.
Qed.

Lemma growing_app {A} (a b : list (list A)) :
  growing a -> growing b -> Forall (fun l => Forall (prefix_of l) b) a ->
  growing (a ++ b).
Proof.
  induction a as [|l a IH]; simpl; intros Ha Hb Hab; [exact Hb|].
  destruct Ha as [Hl Ha]. inversion Hab as [|? ? Hlb Hab']; subst.
  split; [|now apply IH]. apply Forall_app. now split.
Qed.

Lemma history_quiet (t t' : list Msg) (new : list (event Req)) :
  prefix_of t t' -> catalog_fetches new = 0 -> requests_of new = [] ->
  history sent t new t'.
Proof.
  intros Hp Hc Hr. unfold history. rewrite Hr. simpl. repeat split; auto.
Qed.

Lemma history_app (t t1 t2 : list Msg) (n1 n2 : list (event Req)) :
  history sent t n1 t1 -> history sent t1 n2 t2 ->
  history sent t (n1 ++ n2) t2.
Proof.
  intros (Hp1 & Hc1 & Hg1 & Hf1) (Hp2 & Hc2 & Hg2 & Hf2).
  unfold history. rewrite catalog_fetches_app, requests_of_app, map_app, Hc1, Hc2.
  split; [eapply prefix_of_trans; eassumption|]. split; [reflexivity|].
  split.
  - apply growing_app; auto.
    apply Forall_map. eapply Forall_impl; [|exact Hf1].
    intros rq [_ Hrq]. apply Forall_map. eapply Forall_impl; [|exact Hf2].
    intros rq' [Hrq' _]. eapply prefix_of_trans; eassumption.
  - apply Forall_app. split.
    + eapply Forall_impl; [|exact Hf1]. intros rq [H1 H2].
      split; [exact H1 | eapply prefix_of_trans; eassumption].
    + eapply Forall_impl; [|exact Hf2]. intros rq [H1 H2].
      split; [eapply prefix_of_trans; eassumption | exact H2].
Qed.

(** A coroutine that leaves the state alone. *)
Lemma kh_pure {A} (m : M A) (s : state) :
  snd (m s) = s -> keeps_history_at sent m s.
Proof.
  intros H. exists []. rewrite H, app_nil_r. split; [reflexivity|].
  apply history_quiet; auto. apply prefix_of_refl.
Qed.

Lemma kh_ret {A} (a : A) s : keeps_history_at sent (ret a : M A) s.
Proof. now apply kh_pure. Qed.

Lemma kh_raise {A} (e : exn) s : keeps_history_at sent (raise e : M A) s.
Proof. now apply kh_pure. Qed.

Lemma kh_out_of_fuel {A} s : keeps_history_at sent (out_of_fuel : M A) s.
Proof. now apply kh_pure. Qed.

Lemma kh_lift {A} (r : result A) s : keeps_history_at sent (lift r : M A) s.
Proof. now apply kh_pure. Qed.

Lemma kh_append_turn (m : Msg) s :
  keeps_history_at sent (append_turn m : M unit) s.
Proof.
  exists []. simpl. rewrite app_nil_r. split; [reflexivity|].
  apply history_quiet; auto. apply prefix_of_app.
Qed.

Lemma kh_do_call_tool name args s :
  keeps_history_at sent (do_call_tool name args : M CallToolResult) s.
Proof.
  exists [EvTool name args]. unfold do_call_tool.
  destruct (call_tool (world s) name args) as [r w]. simpl.
  split; [reflexivity|]. apply history_quiet; auto. apply prefix_of_refl.
Qed.

(** A request that carries the whole conversation. *)
Lemma kh_do_generate (rq : Req) s :
  sent rq = transcript s -> keeps_history_at sent (do_generate rq : M Resp) s.
Proof.
  intros Hrq. exists [EvModel rq]. unfold do_generate.
  destruct (generate (world s) rq) as [r w]. simpl.
  split; [reflexivity|]. unfold history. simpl.
  repeat split; auto using prefix_of_refl.
  constructor; [|constructor]. rewrite Hrq. split; apply prefix_of_refl.
Qed.

Lemma kh_bind {A B} (m : M A) (f : A -> M B) s :
  keeps_history_at sent m s ->
  (forall a, fst (m s) = Returns a -> keeps_history_at sent (f a) (snd (m s))) ->
  keeps_history_at sent (bind m f) s.
Proof.
  intros [new [Ht Hh]] Hf. unfold keeps_history_at, bind in *.
  destruct (m s) as [[a|e|] s1]; simpl in *.
  - destruct (Hf a eq_refl) as [new' [Ht' Hh']].
    exists (new ++ new'). rewrite Ht', Ht, app_assoc. split; [reflexivity|].
    eapply history_app; eassumption.
  - exists new. auto.
  - exists new. auto.
Qed.

Lemma kh_try_except {A} (m : M A) (h : exn -> M A) s :
  keeps_history_at sent m s ->
  (forall e, keeps_history_at sent (h e) (snd (m s))) ->
  keeps_history_at sent (try_except m h) s.
Proof.
  intros [new [Ht Hh]] Hf. unfold keeps_history_at, try_except in *.
  destruct (m s) as [[a|e|] s1]; simpl in *.
  - exists new. auto.
  - destruct (Hf e) as [new' [Ht' Hh']].
    exists (new ++ new'). rewrite Ht', Ht, app_assoc. split; [reflexivity|].
    eapply history_app; eassumption.
  - exists new. auto.
Qed.

Lemma kh_for_each {A} (l : list A) (body : A -> M unit) :
  (forall x s, keeps_history_at sent (body x) s) ->
  forall s, keeps_history_at sent (for_each l body) s.
Proof.
  intros Hb. induction l as [|x l IH]; intros s; simpl.
  - apply kh_ret.
  - apply kh_bind; auto.
Qed.

(** The model is called with the conversation of the moment. *)
Lemma kh_generate_conversation {B} (request : list Msg -> Req)
      (k : Resp -> M B) s :
  (forall messages, sent (request messages) = messages) ->
  (forall response s', keeps_history_at sent (k response) s') ->
  keeps_history_at sent
    (bind conversation (fun messages => bind (do_generate (request messages)) k)) s.
Proof.
  intros Hr Hk.
  change (keeps_history_at sent (bind (do_generate (request (transcript s))) k) s).
  apply kh_bind; [apply kh_do_generate, Hr | intros; apply Hk].
Qed.
End HistoryProperties.

Section OpenAIHistory.
Import OpenAI.
Context {W : Type} {E : Env W Request Response}.
Variable model : string.
Variable system_prompt : string.

Local Abbreviation state := (state W Request Message).

Lemma openai_run_tool_call_history (tool_call : ToolCall) (s : state) :
  keeps_history_at rq_messages (run_tool_call tool_call) s.
Proof.
  unfold run_tool_call. apply kh_try_except.
  - apply kh_bind; [apply kh_lift | intros arguments _].
    apply kh_bind; [apply kh_do_call_tool | intros result _].
    apply kh_bind; [apply kh_lift | intros text _]. apply kh_append_turn.
  - intros e. apply kh_append_turn.
Qed.

Lemma openai_final_call_history (s : state) :
  keeps_history_at rq_messages (final_call model) s.
Proof.
  unfold final_call.
  apply kh_generate_conversation with (request := final_request model);
    [reflexivity|].
  intros final_response s'.
  apply kh_bind; [apply kh_lift | intros message _]. apply kh_ret.
Qed.

Lemma openai_loop_history (fuel : nat) (tools : list FunctionTool)
      (max_iterations : Z) :
  forall iteration_count (s : state),
    keeps_history_at rq_messages
      (loop model fuel tools max_iterations iteration_count) s.
Proof.
  induction fuel as [|fuel IH]; intros iteration_count s; simpl;
    destruct (iteration_count <? max_iterations)%Z;
    try apply openai_final_call_history.
  - apply kh_out_of_fuel.
  - apply kh_generate_conversation with (request := loop_request model tools);
      [reflexivity|].
    intros response s1.
    apply kh_bind; [apply kh_lift | intros assistant_message _].
    apply kh_bind; [apply kh_append_turn | intros _ _].
    destruct (cm_tool_calls assistant_message) as [[|tool_call tool_calls]|];
      try apply kh_ret.
    apply kh_bind; [|intros _ _; apply IH].
    apply kh_for_each. intros x s2. apply openai_run_tool_call_history.
Qed.

(** During a query of the OpenAI client the catalog is fetched once,
    before the first call of the model; every request to the model carries
    the conversation of the query from its start, the system prompt and
    the query of the user, up to that moment, so no turn of an earlier
    query and no turn added later; and each request extends the
    conversations of the requests before it. *)
Theorem openai_requests_carry_the_whole_conversation
        (query : string) (max_iterations : Z) (s : state) :
  exists new,
    trace (snd (process_query model system_prompt query max_iterations s))
    = trace s ++ EvListTools :: new
    /\ catalog_fetches new = 0
    /\ growing (map rq_messages (requests_of new))
    /\ Forall (fun rq =>
                 prefix_of [MText "system" system_prompt; MText "user" query]
                           (rq_messages rq)
                 /\ prefix_of (rq_messages rq)
                      (transcript
                         (snd (process_query model system_prompt query
                                             max_iterations s))))
              (requests_of new).
Proof.
  unfold process_query, get_mcp_tools, bind, do_list_tools.
  destruct (list_tools (world s)) as [[tools_result|e] w]; simpl.
  - match goal with
    | |- context [loop ?m ?f ?t ?mx ?i ?s2] =>
        destruct (openai_loop_history f t mx i s2) as [new [Ht Hh]]
    end.
    destruct Hh as (_ & Hc & Hg & Hf). simpl in Ht, Hf.
    exists new. rewrite Ht, <- app_assoc. auto.
  - exists []. simpl. auto.
Qed.
End OpenAIHistory.

Section GoogleHistory.
Import Google.
Context {W : Type} {E : Env W Request Response}.
Variable model : string.
Variable system_instruction : string.

Local Abbreviation state := (state W Request Content).

Lemma google_run_function_call_history (fc : FunctionCall) (s : state) :
  keeps_history_at rq_contents (run_function_call fc) s.
Proof.
  unfold run_function_call. apply kh_try_except.
  - apply kh_bind; [apply kh_lift | intros arguments _].
    apply kh_bind; [apply kh_do_call_tool | intros fc_response _].
    apply kh_bind; [apply kh_lift | intros text _].
    destruct (isError fc_response); apply kh_ret.
  - intros e. apply kh_ret.
Qed.

Lemma google_run_parts_history (ps : list Part) :
  forall fc_parts_response (s : state),
    keeps_history_at rq_contents (run_parts ps fc_parts_response) s.
Proof.
  induction ps as [|part more IH]; intros acc s; simpl.
  - apply kh_ret.
  - destruct (part_function_call part) as [fc|]; [|apply IH].
    apply kh_bind; [apply google_run_function_call_history|].
    intros part_response _. apply IH.
Qed.

Lemma google_answer_function_calls_history
      (assistant_message : Content) (ps : list Part) (s : state) :
  keeps_history_at rq_contents (answer_function_calls assistant_message ps) s.
Proof.
  unfold answer_function_calls.
  apply kh_bind; [apply kh_append_turn | intros _ _].
  apply kh_bind; [apply google_run_parts_history | intros [|p r] _].
  - apply kh_ret.
  - apply kh_append_turn.
Qed.

Lemma google_final_call_history (s : state) :
  keeps_history_at rq_contents (final_call model) s.
Proof.
  unfold final_call.
  apply kh_generate_conversation with (request := final_request model);
    [reflexivity|].
  intros final_response s'. apply kh_lift.
Qed.

Lemma google_loop_history (fuel : nat) (tools : list GTool)
      (max_iterations : Z) :
  forall iteration_count (s : state),
    keeps_history_at rq_contents
      (loop model system_instruction fuel tools max_iterations iteration_count) s.
Proof.
  induction fuel as [|fuel IH]; intros iteration_count s; simpl;
    destruct (iteration_count <? max_iterations)%Z;
    try apply google_final_call_history.
  - apply kh_out_of_fuel.
  - apply kh_generate_conversation
      with (request := loop_request model system_instruction tools);
      [reflexivity|].
    intros response s1.
    apply kh_bind; [apply kh_lift | intros [assistant_message|] _];
      [|apply kh_raise].
    apply kh_bind; [apply kh_lift | intros ps _].
    destruct (negb (existsb has_function_call ps)).
    + apply kh_bind; [apply kh_lift | intros part _]. apply kh_ret.
    + apply kh_bind; [apply google_answer_function_calls_history|].
      intros _ _. apply IH.
Qed.

(** During a query of the Gemini client the catalog is fetched once,
    before the first call of the model; every request to the model carries
    the conversation of the query from its start, the turn of the user
    with the query, up to that moment, so no turn of an earlier query and
    no turn added later; and each request extends the conversations of
    the requests before it. *)
Theorem gemini_requests_carry_the_whole_conversation
        (query : string) (max_iterations : Z) (s : state) :
  exists new,
    trace (snd (process_query model system_instruction query max_iterations s))
    = trace s ++ EvListTools :: new
    /\ catalog_fetches new = 0
    /\ growing (map rq_contents (requests_of new))
    /\ Forall (fun rq =>
                 prefix_of [{| role := Some "user";
                               parts := Some [text_part query] |}]
                           (rq_contents rq)
                 /\ prefix_of (rq_contents rq)
                      (transcript
                         (snd (process_query model system_instruction query
                                             max_iterations s))))
              (requests_of new).
Proof.
  unfold process_query, get_mcp_tools, bind, do_list_tools.
  destruct (list_tools (world s)) as [[tools_result|e] w]; simpl.
  - destruct (declarations tools_result []) as [tools|e]; simpl.
    + match goal with
      | |- context [loop ?m ?si ?f ?t ?mx ?i ?s2] =>
          destruct (google_loop_history f t mx i s2) as [new [Ht Hh]]
      end.
      destruct Hh as (_ & Hc & Hg & Hf). simpl in Ht, Hf.
      exists new. rewrite Ht, <- app_assoc. auto.
    + exists []. simpl. auto.
  - exists []. simpl. auto.
Qed.
End GoogleHistory.

(* ================================================================== *)
(** * Queries do not depend on earlier queries                         *)
(* ================================================================== *)

Section BlindProperties.
Context {W Req Resp Msg : Type} {E : Env W Req Resp}.

Local Abbreviation M := (@M W Req Msg).
Local Abbreviation state := (state W Req Msg).

Lemma tb_ret {A} (a : A) : trace_blind (ret a : M A).
Proof. intros tr s. reflexivity. Qed.

Lemma tb_raise {A} (e : exn) : trace_blind (raise e : M A).
Proof. intros tr s. reflexivity. Qed.

Lemma tb_out_of_fuel {A} : trace_blind (out_of_fuel : M A).
Proof. intros tr s. reflexivity. Qed.

Lemma tb_lift {A} (r : result A) : trace_blind (lift r : M A).
Proof. intros tr s. reflexivity. Qed.

Lemma tb_append_turn (m : Msg) : trace_blind (append_turn m : M unit).
Proof. intros tr s. reflexivity. Qed.

Lemma tb_do_call_tool name args :
  trace_blind (do_call_tool name args : M CallToolResult).
Proof.
  intros tr s. unfold do_call_tool, after_events. simpl.
  destruct (call_tool (world s) name args) as [r w]. simpl.
  now rewrite app_assoc.
Qed.

Lemma tb_do_generate (rq : Req) : trace_blind (do_generate rq : M Resp).
Proof.
  intros tr s. unfold do_generate, after_events. simpl.
  destruct (generate (world s) rq) as [r w]. simpl.
  now rewrite app_assoc.
Qed.

Lemma tb_bind {A B} (m : M A) (f : A -> M B) :
  trace_blind m -> (forall a, trace_blind (f a)) -> trace_blind (bind m f).
Proof.
  intros Hm Hf tr s. unfold bind. rewrite Hm.
  destruct (m s) as [[a|e|] s1]; simpl; auto. apply Hf.
Qed.

Lemma tb_try_except {A} (m : M A) (h : exn -> M A) :
  trace_blind m -> (forall e, trace_blind (h e)) -> trace_blind (try_except m h).
Proof.
  intros Hm Hh tr s. unfold try_except. rewrite Hm.
  destruct (m s) as [[a|e|] s1]; simpl; auto. apply Hh.
Qed.

Lemma tb_for_each {A} (l : list A) (body : A -> M unit) :
  (forall x, trace_blind (body x)) -> trace_blind (for_each l body).
Proof.
  intros Hb. induction l as [|x l IH]; simpl.
  - apply tb_ret.
  - apply tb_bind; auto.
Qed.

(** The model is called with the conversation of the moment. *)
Lemma tb_generate_conversation {B} (request : list Msg -> Req)
      (k : Resp -> M B) :
  (forall response, trace_blind (k response)) ->
  trace_blind
    (bind conversation (fun messages => bind (do_generate (request messages)) k)).
Proof.
  intros Hk tr s.
  change (bind (do_generate (request (transcript s))) k (after_events tr s)
          = (fst (bind (do_generate (request (transcript s))) k s),
             after_events tr (snd (bind (do_generate (request (transcript s))) k s)))).
  apply tb_bind; [apply tb_do_generate | exact Hk].
Qed.

(** Two runs of a coroutine that does not read the trace, from states
    with the same collaborators and the same conversation: the same
    outcome, the same collaborators, conversation and events. *)
Lemma tb_same_run {A} (m : M A) (w : W) (t : list Msg)
      (tr1 tr2 : list (event Req)) :
  trace_blind m ->
  let r1 := m {| world := w; trace := tr1; transcript := t |} in
  let r2 := m {| world := w; trace := tr2; transcript := t |} in
  fst r1 = fst r2
  /\ world (snd r1) = world (snd r2)
  /\ transcript (snd r1) = transcript (snd r2)
  /\ exists new, trace (snd r1) = tr1 ++ new /\ trace (snd r2) = tr2 ++ new.
Proof.
  intros Hm.
  pose proof (Hm tr1 {| world := w; trace := []; transcript := t |}) as H1.
  pose proof (Hm tr2 {| world := w; trace := []; transcript := t |}) as H2.
  unfold after_events in H1, H2. simpl in H1, H2.
  rewrite app_nil_r in H1, H2. simpl. rewrite H1, H2. simpl.
  repeat split; eauto.
Qed.
End BlindProperties.

Section OpenAIBlind.
Import OpenAI.
Context {W : Type} {E : Env W Request Response}.
Variable model : string.
Variable system_prompt : string.

Local Abbreviation state := (state W Request Message).

Lemma openai_run_tool_call_blind (tool_call : ToolCall) :
  trace_blind (run_tool_call (W := W) tool_call).
Proof.
  unfold run_tool_call. apply tb_try_except.
  - apply tb_bind; [apply tb_lift | intros arguments].
    apply tb_bind; [apply tb_do_call_tool | intros result].
    apply tb_bind; [apply tb_lift | intros text]. apply tb_append_turn.
  - intros e. apply tb_append_turn.
Qed.

Lemma openai_loop_blind (fuel : nat) (tools : list FunctionTool)
      (max_iterations : Z) :
  forall iteration_count,
    trace_blind (loop (W := W) model fuel tools max_iterations iteration_count).
Proof.
  induction fuel as [|fuel IH]; intros iteration_count; simpl;
    destruct (iteration_count <? max_iterations)%Z.
  - apply tb_out_of_fuel.
  - apply tb_generate_conversation with (request := final_request model).
    intros final_response.
    apply tb_bind; [apply tb_lift | intros message]. apply tb_ret.
  - apply tb_generate_conversation with (request := loop_request model tools).
    intros response.
    apply tb_bind; [apply tb_lift | intros assistant_message].
    apply tb_bind; [apply tb_append_turn | intros _].
    destruct (cm_tool_calls assistant_message) as [[|tool_call tool_calls]|];
      try apply tb_ret.
    apply tb_bind; [|intros _; apply IH].
    apply tb_for_each. intros x. apply openai_run_tool_call_blind.
  - apply tb_generate_conversation with (request := final_request model).
    intros final_response.
    apply tb_bind; [apply tb_lift | intros message]. apply tb_ret.
Qed.

(** A query of the OpenAI client does not depend on the queries before
    it: whatever conversation and events an earlier query left, the query
    has the same outcome, leaves the collaborators in the same state, and
    makes the same calls with the same requests. *)
Theorem openai_query_does_not_depend_on_earlier_queries
        (query : string) (max_iterations : Z) (s : state)
        (earlier_events : list (event Request))
        (earlier_conversation : list Message) :
  let fresh := process_query model system_prompt query max_iterations s in
  let later :=
    process_query model system_prompt query max_iterations
                  {| world := world s; trace := earlier_events;
                     transcript := earlier_conversation |} in
  fst later = fst fresh
  /\ world (snd later) = world (snd fresh)
  /\ exists new,
       trace (snd fresh) = trace s ++ new
       /\ trace (snd later) = earlier_events ++ new.
Proof.
  unfold process_query, get_mcp_tools, bind, do_list_tools. simpl.
  destruct (list_tools (world s)) as [[tools_result|e] w]; simpl.
  - match goal with
    | |- context [loop ?m ?f ?t ?mx ?i] =>
        destruct (tb_same_run w
                    [MText "system" system_prompt; MText "user" query]
                    (earlier_events ++ [EvListTools])
                    (trace s ++ [EvListTools])
                    (openai_loop_blind f t mx i))
          as (Ho & Hw & _ & new & Hl & Hf)
    end.
    rewrite Ho, Hw, Hl, Hf. repeat split.
    exists (EvListTools :: new). now rewrite <- !app_assoc.
  - repeat split. now exists [EvListTools].
Qed.
End OpenAIBlind.

Section GoogleBlind.
Import Google.
Context {W : Type} {E : Env W Request Response}.
Variable model : string.
Variable system_instruction : string.

Local Abbreviation state := (state W Request Content).

Lemma google_run_function_call_blind (fc : FunctionCall) :
  trace_blind (run_function_call (W := W) fc).
Proof.
  unfold run_function_call. apply tb_try_except.
  - apply tb_bind; [apply tb_lift | intros arguments].
    apply tb_bind; [apply tb_do_call_tool | intros fc_response].
    apply tb_bind; [apply tb_lift | intros text].
    destruct (isError fc_response); apply tb_ret.
  - intros e. apply tb_ret.
Qed.

Lemma google_run_parts_blind (ps : list Part) :
  forall fc_parts_response,
    trace_blind (run_parts (W := W) ps fc_parts_response).
Proof.
  induction ps as [|part more IH]; intros acc; simpl.
  - apply tb_ret.
  - destruct (part_function_call part) as [fc|]; [|apply IH].
    apply tb_bind; [apply google_run_function_call_blind|].
    intros part_response. apply IH.
Qed.

Lemma google_answer_function_calls_blind
      (assistant_message : Content) (ps : list Part) :
  trace_blind (answer_function_calls (W := W) assistant_message ps).
Proof.
  unfold answer_function_calls.
  apply tb_bind; [apply tb_append_turn | intros _].
  apply tb_bind; [apply google_run_parts_blind | intros [|p r]].
  - apply tb_ret.
  - apply tb_append_turn.
Qed.

Lemma google_loop_blind (fuel : nat) (tools : list GTool)
      (max_iterations : Z) :
  forall iteration_count,
    trace_blind (loop (W := W) model system_instruction fuel tools
                      max_iterations iteration_count).
Proof.
  induction fuel as [|fuel IH]; intros iteration_count; simpl;
    destruct (iteration_count <? max_iterations)%Z.
  - apply tb_out_of_fuel.
  - apply tb_generate_conversation with (request := final_request model).
    intros final_response. apply tb_lift.
  - apply tb_generate_conversation
      with (request := loop_request model system_instruction tools).
    intros response.
    apply tb_bind; [apply tb_lift | intros [assistant_message|]];
      [|apply tb_raise].
    apply tb_bind; [apply tb_lift | intros ps].
    destruct (negb (existsb has_function_call ps)).
    + apply tb_bind; [apply tb_lift | intros part]. apply tb_ret.
    + apply tb_bind; [apply google_answer_function_calls_blind|].
      intros _. apply IH.
  - apply tb_generate_conversation with (request := final_request model).
    intros final_response. apply tb_lift.
Qed.

(** A query of the Gemini client does not depend on the queries before
    it: whatever conversation and events an earlier query left, the query
    has the same outcome, leaves the collaborators in the same state, and
    makes the same calls with the same requests. *)
Theorem gemini_query_does_not_depend_on_earlier_queries
        (query : string) (max_iterations : Z) (s : state)
        (earlier_events : list (event Request))
        (earlier_conversation : list Content) :
  let fresh := process_query model system_instruction query max_iterations s in
  let later :=
    process_query model system_instruction query max_iterations
                  {| world := world s; trace := earlier_events;
                     transcript := earlier_conversation |} in
  fst later = fst fresh
  /\ world (snd later) = world (snd fresh)
  /\ exists new,
       trace (snd fresh) = trace s ++ new
       /\ trace (snd later) = earlier_events ++ new.
Proof.
  unfold process_query, get_mcp_tools, bind, do_list_tools. simpl.
  destruct (list_tools (world s)) as [[tools_result|e] w]; simpl.
  - destruct (declarations tools_result []) as [tools|e]; simpl.
    + match goal with
      | |- context [loop ?m ?si ?f ?t ?mx ?i] =>
          destruct (tb_same_run w
                      [{| role := Some "user";
                          parts := Some [text_part query] |}]
                      (earlier_events ++ [EvListTools])
                      (trace s ++ [EvListTools])
                      (google_loop_blind f t mx i))
            as (Ho & Hw & _ & new & Hl & Hf)
      end.
      rewrite Ho, Hw, Hl, Hf. repeat split.
      exists (EvListTools :: new). now rewrite <- !app_assoc.
    + repeat split. now exists [EvListTools].
  - repeat split. now exists [EvListTools].
Qed.
End GoogleBlind.

(* ================================================================== *)
(** * Properties of the chat loop                                      *)
(* ================================================================== *)

Section ChatProperties.
Import Chat.
Context {W Req Resp Msg : Type} {E : Env W Req Resp}.
Variable process_query :
  string -> M (W := W) (Req := Req) (Msg := Msg) (option string).
Variables strip lower : string -> string.
Variables banner mark : string.

Local Abbreviation state := (state W Req Msg).
Local Abbreviation iteration := (iteration process_query strip lower mark).
Local Abbreviation iterations := (iterations process_query strip lower mark).
Local Abbreviation chat_loop := (chat_loop process_query strip lower banner mark).
Local Abbreviation run_queries := (run_queries process_query mark).
Local Abbreviation quits := (quits strip lower).

(** An iteration on a line that is a query: the query runs, and the
    prompt and the report of the query are written. *)
Lemma iteration_query (c : Console) (s : state) (line : string)
      (rest : list string) :
  stdin c = line :: rest ->
  quits line = false ->
  fst (process_query (strip line) s) <> OutOfFuel ->
  iteration (c, s)
  = (Returns Continue,
     ({| stdin := rest;
         stdout := stdout c
                   ++ prompt :: report mark (fst (process_query (strip line) s)) |},
      snd (process_query (strip line) s))).
Proof.
  intros Hc Hq Hp. unfold Chat.iteration, attempt, input. simpl.
  rewrite Hc. unfold Chat.quits in Hq. rewrite Hq.
  destruct (process_query (strip line) s) as [[[text|]|e|] s']; simpl in *;
    unfold print; simpl; rewrite <- ?app_assoc; try reflexivity.
  contradiction.
Qed.

(** An iteration on a line that quits. *)
Lemma iteration_quit (c : Console) (s : state) (line : string)
      (rest : list string) :
  stdin c = line :: rest ->
  quits line = true ->
  iteration (c, s)
  = (Returns Break,
     ({| stdin := rest;
         stdout := stdout c ++ [prompt; String.append goodbye newline] |}, s)).
Proof.
  intros Hc Hq. unfold Chat.iteration, attempt, input. simpl.
  rewrite Hc. unfold Chat.quits in Hq. rewrite Hq.
  unfold print. simpl. now rewrite <- app_assoc.
Qed.

(** An iteration at the end of the input. *)
Lemma iteration_eof (c : Console) (s : state) :
  stdin c = [] ->
  iteration (c, s)
  = (Returns Continue,
     ({| stdin := [];
         stdout := stdout c
                   ++ [prompt;
                       String.append
                         (error_line mark (EOFError "EOF when reading a line"))
                         newline] |}, s)).
Proof.
  intros Hc. unfold Chat.iteration, attempt, input. simpl.
  rewrite Hc. unfold print. simpl. now rewrite <- app_assoc.
Qed.

Lemma iteration_never_raises (cs : Session) (e : exn) :
  fst (iteration cs) <> Raises e.
Proof.
  unfold Chat.iteration, attempt.
  destruct (input prompt (fst cs)) as [[line|e0] c]; [|discriminate].
  simpl. destruct (lower (strip line) =? "quit")%string; [discriminate|].
  destruct (process_query (strip line) (snd cs)) as [[[text|]|e1|] s'];
    discriminate.
Qed.

Lemma iterations_never_raise (fuel : nat) :
  forall (cs : Session) (e : exn), fst (iterations fuel cs) <> Raises e.
Proof.
  induction fuel as [|fuel IH]; intros cs e; simpl; [discriminate|].
  pose proof (iteration_never_raises cs) as Hi.
  destruct (iteration cs) as [[[|]|e0|] cs']; simpl in *;
    try discriminate; auto.
  now specialize (Hi e0).
Qed.

Lemma iterations_without_quit (fuel : nat) :
  forall (c : Console) (s : state),
    forallb (fun line => negb (quits line)) (stdin c) = true ->
    fst (iterations fuel (c, s)) = OutOfFuel.
Proof.
  induction fuel as [|fuel IH]; intros c s Hq; simpl; [reflexivity|].
  destruct (stdin c) as [|line rest] eqn:Hc.
  - rewrite (@iteration_eof c s Hc). apply IH. reflexivity.
  - simpl in Hq. apply andb_true_iff in Hq. destruct Hq as [Hl Hr].
    apply negb_true_iff in Hl.
    destruct (fst (process_query (strip line) s)) eqn:Hp.
    1, 2: rewrite (@iteration_query c s line rest Hc Hl) by (rewrite Hp; discriminate);
      apply IH; exact Hr.
    unfold Chat.iteration, attempt, input. simpl. rewrite Hc.
    unfold Chat.quits in Hl. rewrite Hl.
    destruct (process_query (strip line) s) as [[r|e|] s']; simpl in *;
      try discriminate. reflexivity.
Qed.

Lemma iterations_until_quit (lines : list string) :
  forall (fuel : nat) (c : Console) (s : state) (quit : string)
         (rest : list string),
    stdin c = lines ++ quit :: rest ->
    forallb (fun line => negb (quits line)) lines = true ->
    quits quit = true ->
    (forall query s', fst (process_query query s') <> OutOfFuel) ->
    List.length lines < fuel ->
    iterations fuel (c, s)
    = (Returns tt,
       ({| stdin := rest;
           stdout := stdout c
                     ++ fst (run_queries (map strip lines) s)
                     ++ [prompt; String.append goodbye newline] |},
        snd (run_queries (map strip lines) s))).
Proof.
  induction lines as [|line lines IH]; intros fuel c s quit rest Hc Hl Hq Hp Hf;
    (destruct fuel as [|fuel]; [simpl in Hf; lia|]); simpl in *.
  - now rewrite (@iteration_quit c s quit rest Hc Hq).
  - apply andb_true_iff in Hl. destruct Hl as [Hl Hr].
    apply negb_true_iff in Hl.
    rewrite (@iteration_query c s line (lines ++ quit :: rest) Hc Hl (Hp _ _)).
    erewrite IH; [|reflexivity|exact Hr|exact Hq|exact Hp|lia].
    simpl.
    destruct (Chat.run_queries process_query mark (map strip lines)
                (snd (process_query (strip line) s))) as [written s'].
    simpl. now rewrite <- !app_assoc.
Qed.



End ChatProperties.

Section ChatRuns.
Import Scripted Scripts Chat.



(** What that session writes: the answer to the first query, and for the
    second, whose message has no content, the message of the exception the
    concatenation raises. *)
Example two_query_session_evaluated :
  stdout (fst (snd (openai_chat_loop (E := env _ _) "gpt-4o" "policy"
                      ascii_strip ascii_lower 5
                      (two_query_console, start two_query_world))))
  = [String.append
       (String.append newline
          "MCP OpenAI Client Started! Type your queries or 'quit' to exit.")
       newline;
     prompt;
     String.append (String.append newline "Answer: Found 3 users") newline;
     prompt;
     String.append
       (error_line openai_mark
          (TypeError
             (String.append "can only concatenate str (not "
                (String.append double_quote
                   (String.append "NoneType"
                      (String.append double_quote ") to str"))))))
       newline;
     prompt;
     String.append goodbye newline].
Proof. reflexivity. Qed.
End ChatRuns.
